(** * SDHCI host controller driver (platform/msm_shared/sdhci.c)

    A shallow embedding of the driver's clock manager, bus-width
    configuration, command-completion sequence, ADMA descriptor builder and
    command dispatch, together with the properties of these routines.

    The driver talks to the controller through memory-mapped registers.  A
    register read is an input of the program: the value depends on what the
    controller does meanwhile.  The embedding therefore runs the driver in a
    [world] holding an oracle for the values the controller presents, and
    records every externally visible action (register access, delay, log
    line, cache maintenance, allocation) in a trace. *)

From Stdlib Require Import ZArith Lia.
From stdpp Require Import gmap list strings.

Local Open Scope Z_scope.

(** ** Fixed-width unsigned integers *)

(** Conversion to an unsigned type of [bits] bits. *)
Definition wrap (bits : Z) (x : Z) : Z := x mod 2 ^ bits.

Definition u8 : Z -> Z := wrap 8.
Definition u16 : Z -> Z := wrap 16.
Definition u32 : Z -> Z := wrap 32.

(** C truth value of an integer expression. *)
Definition nonzero (x : Z) : bool := negb (x =? 0).

(** ** The header sdhci.h

    The register offsets, bit masks and limits used by sdhci.c come from
    sdhci.h, which is not among the sources.  They are taken as parameters:
    every routine below is defined over an arbitrary header. *)
Class sdhci_h := {
  (* clock control *)
  SDHCI_CLK_MAX_DIV : Z;
  SDHCI_SDCLK_FREQ_MASK : Z;
  SDHCI_SDCLK_FREQ_SEL : Z;
  SDHC_SDCLK_UP_BIT_MASK : Z;
  SDHCI_SDCLK_UP_BIT_SEL : Z;
  SDHCI_INT_CLK_EN : Z;
  SDHCI_CLK_STABLE : Z;
  SDHCI_CLK_EN : Z;
  SDHCI_CLK_CTRL_REG : Z;
  (* host control 1 *)
  SDHCI_HOST_CTRL1_REG : Z;
  DATA_BUS_WIDTH_1BIT : Z;
  DATA_BUS_WIDTH_4BIT : Z;
  DATA_BUS_WIDTH_8BIT : Z;
  SDHCI_BUS_WITDH_1BIT : Z;
  SDHCI_BUS_WITDH_4BIT : Z;
  SDHCI_BUS_WITDH_8BIT : Z;
  (* error interrupt status *)
  SDHCI_ERR_INT_STS_REG : Z;
  SDHCI_CMD_TIMEOUT_MASK : Z;
  SDHCI_CMD_CRC_MASK : Z;
  SDHCI_CMD_END_BIT_MASK : Z;
  SDHCI_CMD_IDX_MASK : Z;
  SDHCI_DAT_TIMEOUT_MASK : Z;
  SDHCI_DAT_CRC_MASK : Z;
  SDHCI_DAT_END_BIT_MASK : Z;
  SDHCI_CUR_LIM_MASK : Z;
  SDHCI_AUTO_CMD12_MASK : Z;
  SDHCI_ADMA_MASK : Z;
  (* normal interrupt status, response, reset *)
  SDHCI_NRML_INT_STS_REG : Z;
  SDHCI_INT_STS_CMD_COMPLETE : Z;
  SDHCI_INT_STS_TRANS_COMPLETE : Z;
  SDHCI_ERR_INT_STAT_MASK : Z;
  SDHCI_MAX_CMD_RETRY : Z;
  SDHCI_MAX_TRANS_RETRY : Z;
  SDHCI_RESP_REG : Z;
  SDHCI_RESP_LSHIFT : Z;
  SDHCI_RESP_RSHIFT : Z;
  SDHCI_SWITCH_CMD : Z;
  SOFT_RESET_CMD : Z;
  SOFT_RESET_DATA : Z;
  SDHCI_RESET_REG : Z;
  (* ADMA descriptors *)
  SDHCI_ADMA_DESC_LINE_SZ : Z;
  SDHCI_ADMA_TRANS_VALID : Z;
  SDHCI_ADMA_TRANS_DATA : Z;
  SDHCI_ADMA_TRANS_END : Z;
  (* data transfer set-up *)
  SDHCI_MMC_BLK_SZ : Z;
  SDHCI_BLKSZ_REG : Z;
  SDHCI_BLK_CNT_REG : Z;
  SDHCI_ARG2_REG : Z;
  SDHCI_ADM_ADDR_REG : Z;
  SDHCI_TRANS_MODE_REG : Z;
  SDHCI_TRANS_MULTI : Z;
  SDHCI_AUTO_CMD23_EN : Z;
  SDHCI_BLK_CNT_EN : Z;
  SDHCI_MMC_READ : Z;
  SDHCI_READ_MODE : Z;
  SDHCI_DMA_EN : Z;
  (* command dispatch *)
  SDHCI_PRESENT_STATE_REG : Z;
  SDHCI_STATE_CMD_DAT_MASK : Z;
  SDHCI_CMD_RESP_R1 : Z;
  SDHCI_CMD_RESP_R1B : Z;
  SDHCI_CMD_RESP_R2 : Z;
  SDHCI_CMD_RESP_R3 : Z;
  SDHCI_CMD_RESP_R6 : Z;
  SDHCI_CMD_RESP_R7 : Z;
  SDHCI_CMD_RESP_NONE : Z;
  SDHCI_CMD_RESP_48 : Z;
  SDHCI_CMD_RESP_136 : Z;
  SDHCI_CMD_RESP_48_BUSY : Z;
  SDHCI_CMD_RESP_TYPE_SEL_BIT : Z;
  SDHCI_CMD_DATA_PRESENT_BIT : Z;
  SDHCI_CMD_CMD_TYPE_BIT : Z;
  SDHCI_CMD_TIMEOUT : Z;
  SDHCI_TIMEOUT_REG : Z;
  SDHCI_ARGUMENT_REG : Z;
  SDHCI_CMD_REG : Z;
  SDHCI_PREP_CMD : Z -> Z -> Z;
  IS_CACHE_LINE_ALIGNED : Z -> bool
}.

(** ** Data model *)

(** struct host_caps: the fields sdhci.c reads and writes. *)
Record host_caps := HostCaps {
  base_clk_rate : Z;
  max_blk_len : Z;
  bus_width_8bit : Z;
  adma_support : Z;
  voltage : Z;
  ddr_support : Z;
  sdr50_support : Z
}.

(** struct sdhci_host. *)
Record sdhci_host := SdhciHost {
  base : Z;
  cur_clk_rate : Z;
  caps : host_caps
}.

Definition set_cur_clk_rate (host : sdhci_host) (freq : Z) : sdhci_host :=
  {| base := base host; cur_clk_rate := freq; caps := caps host |}.

(** struct mmc_data. *)
Record mmc_data := MmcData {
  data_ptr : Z;
  num_blocks : Z
}.

(** struct mmc_command; [resp] is the four-word response array. *)
Record mmc_command := MmcCommand {
  cmd_index : Z;
  argument : Z;
  data_present : Z;
  cmd_type : Z;
  resp_type : Z;
  resp : list Z;
  trans_mode : Z;
  data : mmc_data
}.

Definition set_resp (cmd : mmc_command) (r : list Z) : mmc_command :=
  {| cmd_index := cmd_index cmd; argument := argument cmd;
     data_present := data_present cmd; cmd_type := cmd_type cmd;
     resp_type := resp_type cmd; resp := r;
     trans_mode := trans_mode cmd; data := data cmd |}.

(** struct desc_entry: one line of an ADMA2 descriptor table.  The layout is
    the one drawn in sdhci_prep_desc_table: a 16 bit transfer length, a
    16 bit transfer attribute and a 32 bit data address, eight bytes in
    all. *)
Record desc_entry := DescEntry {
  tran_att : Z;
  len : Z;
  addr : Z
}.

Definition sizeof_desc_entry : Z := 8.

Definition zero_entry : desc_entry := DescEntry 0 0 0.

(** An entry as it reads back after its three fields were assigned. *)
Definition mk_desc (att length data : Z) : desc_entry :=
  {| tran_att := u16 att; len := u16 length; addr := u32 data |}.

(** ** The world the driver runs in *)

Inductive event :=
| EvRead (width addr val : Z)
| EvWrite (width addr val : Z)
| EvUdelay (us : Z)
| EvDprintf (msg : string)
| EvCleanInvalidate (start size : Z)
| EvInvalidate (start size : Z)
| EvMemalign (size ptr : Z)
| EvFree (ptr : Z).

Record world := World {
  (** [dev n a]: what the controller presents when the [n]-th register read
      of the run is made at address [a]. *)
  dev : nat -> Z -> Z;
  reads : nat;
  (** Everything done so far, oldest first. *)
  trace : list event;
  (** Live descriptor tables, by address. *)
  heap : gmap Z (list desc_entry);
  (** Addresses the allocator hands out next; 0 stands for a failed
      allocation, as does an empty pool. *)
  pool : list Z;
  (** Content of memory that was never written. *)
  garbage : desc_entry
}.

Definition emit (e : event) (w : world) : world :=
  {| dev := dev w; reads := reads w; trace := trace w ++ [e];
     heap := heap w; pool := pool w; garbage := garbage w |}.

Definition tick (w : world) : world :=
  {| dev := dev w; reads := S (reads w); trace := trace w;
     heap := heap w; pool := pool w; garbage := garbage w |}.

Definition set_heap (h : gmap Z (list desc_entry)) (w : world) : world :=
  {| dev := dev w; reads := reads w; trace := trace w;
     heap := h; pool := pool w; garbage := garbage w |}.

Definition set_pool (p : list Z) (w : world) : world :=
  {| dev := dev w; reads := reads w; trace := trace w;
     heap := heap w; pool := p; garbage := garbage w |}.

(** How a run ends: it returns, it stops in a failed ASSERT, it does
    something C leaves undefined, or the model's fuel for an unbounded wait
    is used up. *)
Inductive outcome (A : Type) :=
| Done (a : A) (w : world)
| Abort (w : world)
| Undefined
| OutOfFuel.
Arguments Done {A} a w.
Arguments Abort {A} w.
Arguments Undefined {A}.
Arguments OutOfFuel {A}.

Definition M (A : Type) : Type := world -> outcome A.

Definition ret {A} (a : A) : M A := fun w => Done a w.

Definition bind {A B} (m : M A) (k : A -> M B) : M B :=
  fun w => match m w with
           | Done a w' => k a w'
           | Abort w' => Abort w'
           | Undefined => Undefined
           | OutOfFuel => OutOfFuel
           end.

Declare Scope io_scope.
Delimit Scope io_scope with io.
Notation "x <- m ;; k" := (bind m (fun x => k))
  (at level 100, m at next level, right associativity) : io_scope.
Notation "m ;; k" := (bind m (fun _ => k))
  (at level 100, right associativity) : io_scope.
Local Open Scope io_scope.

Definition assert_fail {A} : M A := fun w => Abort w.
Definition undefined {A} : M A := fun _ => Undefined.
Definition out_of_fuel {A} : M A := fun _ => OutOfFuel.

Definition act (e : event) : M unit := fun w => Done tt (emit e w).

(** dprintf, recorded by its format string (without the trailing newline
    and the arguments); the level is CRITICAL throughout. *)
Definition dprintf (msg : string) : M unit := act (EvDprintf msg).
Definition udelay (us : Z) : M unit := act (EvUdelay us).

(** readb / readw / readl at an absolute address. *)
Definition mmio_read (bits : Z) (a : Z) : M Z :=
  fun w => let v := wrap bits (dev w (reads w) a) in
           Done v (emit (EvRead bits a v) (tick w)).

Definition mmio_write (bits : Z) (v a : Z) : M unit :=
  act (EvWrite bits a (wrap bits v)).

(** The REG_READx / REG_WRITEx macros address a register relative to the
    host's base. *)
Definition REG_READ8 (host : sdhci_host) (a : Z) : M Z := mmio_read 8 (u32 (base host + a)).
Definition REG_READ16 (host : sdhci_host) (a : Z) : M Z := mmio_read 16 (u32 (base host + a)).
Definition REG_READ32 (host : sdhci_host) (a : Z) : M Z := mmio_read 32 (u32 (base host + a)).
Definition REG_WRITE8 (host : sdhci_host) (v a : Z) : M unit := mmio_write 8 v (u32 (base host + a)).
Definition REG_WRITE16 (host : sdhci_host) (v a : Z) : M unit := mmio_write 16 v (u32 (base host + a)).
Definition REG_WRITE32 (host : sdhci_host) (v a : Z) : M unit := mmio_write 32 v (u32 (base host + a)).

(** memalign: a fresh block of [size] bytes, seen as descriptor lines. *)
Definition memalign (boundary size : Z) : M Z :=
  fun w =>
    match pool w with
    | [] => Done 0 (emit (EvMemalign size 0) w)
    | p :: ps =>
        if p =? 0 then Done 0 (emit (EvMemalign size 0) (set_pool ps w))
        else
          let blk := replicate (Z.to_nat (size / sizeof_desc_entry)) (garbage w) in
          Done p (emit (EvMemalign size p) (set_heap (<[p := blk]> (heap w)) (set_pool ps w)))
    end.

Definition free (p : Z) : M unit :=
  fun w =>
    match heap w !! p with
    | Some _ => Done tt (emit (EvFree p) (set_heap (delete p (heap w)) w))
    | None => Undefined
    end.

(** memset (p, 0, size) on a descriptor table. *)
Definition memset_zero (p size : Z) : M unit :=
  fun w =>
    match heap w !! p with
    | Some blk =>
        let n := Z.to_nat (size / sizeof_desc_entry) in
        if (n <=? length blk)%nat
        then Done tt (set_heap (<[p := replicate n zero_entry ++ drop n blk]> (heap w)) w)
        else Undefined
    | None => Undefined
    end.

(** The three field assignments to [sg_list[i]]; outside the block the
    behaviour is undefined. *)
Definition store_desc (sg_list i : Z) (e : desc_entry) : M unit :=
  fun w =>
    match heap w !! sg_list with
    | Some blk =>
        if (Z.to_nat i <? length blk)%nat
        then Done tt (set_heap (<[sg_list := <[Z.to_nat i := e]> blk]> (heap w)) w)
        else Undefined
    | None => Undefined
    end.

Definition arch_clean_invalidate_cache_range (start size : Z) : M unit :=
  act (EvCleanInvalidate start size).
Definition arch_invalidate_cache_range (start size : Z) : M unit :=
  act (EvInvalidate start size).

Section Driver.

Context {H : sdhci_h}.

(** ** sdhci_clk_supply *)

(** The divider search:
    [for (div = 2; div < SDHCI_CLK_MAX_DIV; div += 2)
       { freq = base_clk_rate / div; if (freq <= clk) break; }],
    entered with the current [div] and [freq]; returns both at loop exit. *)
Fixpoint clk_div_scan (fuel : nat) (base_rate clk div freq : Z) : option (Z * Z) :=
  match fuel with
  | O => None
  | S n =>
      if div <? SDHCI_CLK_MAX_DIV then
        let freq := base_rate / div in
        if freq <=? clk then Some (div, freq)
        else clk_div_scan n base_rate clk (u32 (div + 2)) freq
      else Some (div, freq)
  end.

(** [while (!(REG_READ16(host, SDHCI_CLK_CTRL_REG) & SDHCI_CLK_STABLE));] *)
Fixpoint wait_clk_stable (fuel : nat) (host : sdhci_host) : M unit :=
  match fuel with
  | O => out_of_fuel
  | S n =>
      v <- REG_READ16 host SDHCI_CLK_CTRL_REG ;;
      if nonzero (Z.land v SDHCI_CLK_STABLE) then ret tt
      else wait_clk_stable n host
  end.

(** The value written to the clock control register for divider [div]. *)
Definition clk_ctrl_val (div : Z) : Z :=
  let clk_val := u16 (u32 (Z.shiftl (Z.land div SDHCI_SDCLK_FREQ_MASK) SDHCI_SDCLK_FREQ_SEL)) in
  let clk_val :=
    u16 (Z.lor clk_val
           (u32 (Z.shiftl (Z.shiftr (Z.land div SDHC_SDCLK_UP_BIT_MASK) SDHCI_SDCLK_FREQ_SEL)
                          SDHCI_SDCLK_UP_BIT_SEL))) in
  u16 (Z.lor clk_val SDHCI_INT_CLK_EN).

(** The part of sdhci_clk_supply after the label [clk_ctrl]. *)
Definition clk_ctrl (fuel : nat) (host : sdhci_host) (div freq : Z) : M (Z * sdhci_host) :=
  REG_WRITE16 host (clk_ctrl_val div) SDHCI_CLK_CTRL_REG ;;
  wait_clk_stable fuel host ;;
  clk_val <- REG_READ16 host SDHCI_CLK_CTRL_REG ;;
  REG_WRITE16 host (u16 (Z.lor clk_val SDHCI_CLK_EN)) SDHCI_CLK_CTRL_REG ;;
  ret (0, set_cur_clk_rate host freq).

Definition sdhci_clk_supply (fuel : nat) (host : sdhci_host) (clk : Z) : M (Z * sdhci_host) :=
  let div := 0 in
  let freq := 0 in
  if base_clk_rate (caps host) <? clk then
    dprintf "Error: Requested clk freq is more than supported" ;;
    ret (1, host)
  else if clk =? base_clk_rate (caps host) then
    clk_ctrl fuel host div freq
  else
    match clk_div_scan fuel (base_clk_rate (caps host)) clk 2 freq with
    | None => out_of_fuel
    | Some (div, freq) => clk_ctrl fuel host (Z.shiftr div 1) freq
    end.

(** ** sdhci_set_bus_width *)

Definition sdhci_set_bus_width (host : sdhci_host) (width : Z) : M Z :=
  reg <- REG_READ8 host SDHCI_HOST_CTRL1_REG ;;
  let set (pattern : Z) : M Z :=
    let width := u16 pattern in
    REG_WRITE8 host (Z.lor reg width) SDHCI_HOST_CTRL1_REG ;;
    ret 0 in
  if width =? DATA_BUS_WIDTH_8BIT then set SDHCI_BUS_WITDH_8BIT
  else if width =? DATA_BUS_WIDTH_4BIT then set SDHCI_BUS_WITDH_4BIT
  else if width =? DATA_BUS_WIDTH_1BIT then set SDHCI_BUS_WITDH_1BIT
  else
    dprintf "Bus width is invalid: %u" ;;
    ret 1.

(** ** sdhci_cmd_err_status *)

Definition sdhci_cmd_err_status (host : sdhci_host) : M Z :=
  err <- REG_READ16 host SDHCI_ERR_INT_STS_REG ;;
  let report (msg : string) : M Z := dprintf msg ;; ret 1 in
  if nonzero (Z.land err SDHCI_CMD_TIMEOUT_MASK) then report "Error: Command timeout error"
  else if nonzero (Z.land err SDHCI_CMD_CRC_MASK) then report "Error: Command CRC error"
  else if nonzero (Z.land err SDHCI_CMD_END_BIT_MASK) then report "Error: CMD end bit error"
  else if nonzero (Z.land err SDHCI_CMD_IDX_MASK) then report "Error: Command Index error"
  else if nonzero (Z.land err SDHCI_DAT_TIMEOUT_MASK) then report "Error: DATA time out error"
  else if nonzero (Z.land err SDHCI_DAT_CRC_MASK) then report "Error: DATA CRC error"
  else if nonzero (Z.land err SDHCI_DAT_END_BIT_MASK) then report "Error: DATA end bit error"
  else if nonzero (Z.land err SDHCI_CUR_LIM_MASK) then report "Error: Current limit error"
  else if nonzero (Z.land err SDHCI_AUTO_CMD12_MASK) then report "Error: Auto CMD12 error"
  else if nonzero (Z.land err SDHCI_ADMA_MASK) then report "Error: ADMA error"
  else ret 0.

(** ** sdhci_cmd_complete *)

(** The first do-while loop; [true] when the loop is left by [break],
    [false] when it is left by [goto err]. *)
Fixpoint wait_cmd_complete (fuel : nat) (host : sdhci_host) (retry : Z) : M bool :=
  match fuel with
  | O => out_of_fuel
  | S n =>
      int_status <- REG_READ16 host SDHCI_NRML_INT_STS_REG ;;
      let int_status := Z.land int_status SDHCI_INT_STS_CMD_COMPLETE in
      if int_status =? SDHCI_INT_STS_CMD_COMPLETE then ret true
      else
        let retry := u16 (retry + 1) in
        udelay 500 ;;
        if retry =? SDHCI_MAX_CMD_RETRY then
          dprintf "Error: Command never completed" ;;
          ret false
        else wait_cmd_complete n host retry
  end.

(** The second do-while loop, same convention. *)
Fixpoint wait_trans_complete (fuel : nat) (host : sdhci_host) (retry : Z) : M bool :=
  match fuel with
  | O => out_of_fuel
  | S n =>
      int_status <- REG_READ16 host SDHCI_NRML_INT_STS_REG ;;
      let int_status := Z.land int_status SDHCI_INT_STS_TRANS_COMPLETE in
      if nonzero (Z.land int_status SDHCI_INT_STS_TRANS_COMPLETE) then ret true
      else
        let retry := u16 (retry + 1) in
        udelay 1000 ;;
        if retry =? SDHCI_MAX_TRANS_RETRY then
          dprintf "Error: Transfer never completed" ;;
          ret false
        else wait_trans_complete n host retry
  end.

(** One round of the R2 copy loop, for index [i]. *)
Definition copy_resp_word (host : sdhci_host) (i : Z) (r : list Z) : M (list Z) :=
  v <- REG_READ32 host (SDHCI_RESP_REG + i * 4) ;;
  let r := <[Z.to_nat i := v]> r in
  let r := <[Z.to_nat i := u32 (Z.shiftl (r !!! Z.to_nat i) SDHCI_RESP_LSHIFT)]> r in
  if negb (i =? 0) then
    prev <- REG_READ32 host (SDHCI_RESP_REG + (i - 1) * 4) ;;
    ret (<[Z.to_nat i := Z.lor (r !!! Z.to_nat i) (Z.shiftr prev SDHCI_RESP_RSHIFT)]> r)
  else ret r.

(** [for (i = 0; i < 4; i++)] over the remaining indices. *)
Fixpoint copy_resp_loop (host : sdhci_host) (idx : list Z) (r : list Z) : M (list Z) :=
  match idx with
  | [] => ret r
  | i :: rest => r' <- copy_resp_word host i r ;; copy_resp_loop host rest r'
  end.

(** Copy the command response into [cmd->resp]. *)
Definition copy_response (host : sdhci_host) (cmd : mmc_command) : M mmc_command :=
  if resp_type cmd =? SDHCI_CMD_RESP_R2 then
    r <- copy_resp_loop host [0; 1; 2; 3] (resp cmd) ;;
    ret (set_resp cmd r)
  else
    v <- REG_READ32 host SDHCI_RESP_REG ;;
    ret (set_resp cmd (<[0%nat := v]> (resp cmd))).

(** sdhci_cmd_complete up to the label [err]. *)
Definition cmd_complete_wait (fuel : nat) (host : sdhci_host) (cmd : mmc_command)
  : M mmc_command :=
  done <- wait_cmd_complete fuel host 0 ;;
  if done : bool then
    REG_WRITE16 host SDHCI_INT_STS_CMD_COMPLETE SDHCI_NRML_INT_STS_REG ;;
    cmd <- copy_response host cmd ;;
    if nonzero (data_present cmd) || (cmd_index cmd =? SDHCI_SWITCH_CMD) then
      done <- wait_trans_complete fuel host 0 ;;
      if done : bool then
        REG_WRITE16 host SDHCI_INT_STS_TRANS_COMPLETE SDHCI_NRML_INT_STS_REG ;;
        ret cmd
      else ret cmd
    else ret cmd
  else ret cmd.

(** sdhci_cmd_complete from the label [err] on. *)
Definition cmd_complete_err (host : sdhci_host) (cmd : mmc_command) : M Z :=
  int_status <- REG_READ16 host SDHCI_NRML_INT_STS_REG ;;
  failed <- (if nonzero (Z.land int_status SDHCI_ERR_INT_STAT_MASK)
             then sdhci_cmd_err_status host else ret 0) ;;
  if nonzero failed then
    dprintf "Error: Command completed with errors" ;;
    ret 1
  else
    (if nonzero (data_present cmd)
     then REG_WRITE8 host (Z.lor SOFT_RESET_CMD SOFT_RESET_DATA) SDHCI_RESET_REG
     else ret tt) ;;
    ret 0.

Definition sdhci_cmd_complete (fuel : nat) (host : sdhci_host) (cmd : mmc_command)
  : M (Z * mmc_command) :=
  cmd <- cmd_complete_wait fuel host cmd ;;
  r <- cmd_complete_err host cmd ;;
  ret (r, cmd).

(** ** sdhci_prep_desc_table *)

Definition att_data : Z := Z.lor SDHCI_ADMA_TRANS_VALID SDHCI_ADMA_TRANS_DATA.
Definition att_last : Z :=
  Z.lor (Z.lor SDHCI_ADMA_TRANS_VALID SDHCI_ADMA_TRANS_DATA) SDHCI_ADMA_TRANS_END.

(** [if (!sg_list) { dprintf (...); ASSERT (0); }] *)
Definition check_alloc (sg_list : Z) : M unit :=
  if sg_list =? 0 then
    dprintf "Error allocating memory" ;;
    assert_fail
  else ret tt.

(** [for (i = 0; i < (sg_len - 1); i++)], entered with the current [i],
    [data] and [len]; returns [data] and [len] at loop exit. *)
Fixpoint desc_fill (fuel : nat) (sg_list sg_len i data len : Z) : M (Z * Z) :=
  match fuel with
  | O => out_of_fuel
  | S n =>
      if i <? u32 (sg_len - 1) then
        store_desc sg_list i (mk_desc att_data SDHCI_ADMA_DESC_LINE_SZ data) ;;
        desc_fill n sg_list sg_len (u32 (i + 1))
          (u32 (data + SDHCI_ADMA_DESC_LINE_SZ)) (u32 (len - SDHCI_ADMA_DESC_LINE_SZ))
      else ret (data, len)
  end.

Definition sdhci_prep_desc_table (fuel : nat) (data len : Z) : M Z :=
  let table_len := 0 in
  if len <=? SDHCI_ADMA_DESC_LINE_SZ then
    sg_list <- memalign 4 sizeof_desc_entry ;;
    check_alloc sg_list ;;
    store_desc sg_list 0 (mk_desc att_last len data) ;;
    arch_clean_invalidate_cache_range sg_list sizeof_desc_entry ;;
    arch_clean_invalidate_cache_range sg_list table_len ;;
    ret sg_list
  else
    let sg_len := len / SDHCI_ADMA_DESC_LINE_SZ in
    let remain := u32 (len - u32 (sg_len * SDHCI_ADMA_DESC_LINE_SZ)) in
    let sg_len := if nonzero remain then u32 (sg_len + 1) else sg_len in
    let table_len := u32 (sg_len * sizeof_desc_entry) in
    sg_list <- memalign 4 table_len ;;
    check_alloc sg_list ;;
    memset_zero sg_list table_len ;;
    dl <- desc_fill fuel sg_list sg_len 0 data len ;;
    store_desc sg_list (u32 (sg_len - 1)) (mk_desc att_last (snd dl) (fst dl)) ;;
    arch_clean_invalidate_cache_range sg_list table_len ;;
    ret sg_list.

(** ** sdhci_adma_transfer *)

(** The local [trans_mode] is written [trans] here, [num_blks], [sz] and
    [adma_addr] are as in the source. *)
Definition sdhci_adma_transfer (fuel : nat) (host : sdhci_host) (cmd : mmc_command) : M Z :=
  let trans := 0 in
  let num_blks := num_blocks (data cmd) in
  let sz := u32 (num_blks * SDHCI_MMC_BLK_SZ) in
  adma_addr <- sdhci_prep_desc_table fuel (data_ptr (data cmd)) sz ;;
  REG_WRITE16 host SDHCI_MMC_BLK_SZ SDHCI_BLKSZ_REG ;;
  trans <- (if 1 <? num_blks then
              REG_WRITE32 host num_blks SDHCI_ARG2_REG ;;
              ret (u16 (Z.lor trans
                          (Z.lor (Z.lor SDHCI_TRANS_MULTI SDHCI_AUTO_CMD23_EN) SDHCI_BLK_CNT_EN)))
            else ret trans) ;;
  REG_WRITE16 host num_blks SDHCI_BLK_CNT_REG ;;
  let trans := if trans_mode cmd =? SDHCI_MMC_READ
               then u16 (Z.lor trans SDHCI_READ_MODE) else trans in
  let trans := u16 (Z.lor trans SDHCI_DMA_EN) in
  REG_WRITE32 host adma_addr SDHCI_ADM_ADDR_REG ;;
  REG_WRITE16 host trans SDHCI_TRANS_MODE_REG ;;
  ret adma_addr.

(** ** sdhci_send_command *)

Definition ASSERT (c : bool) : M unit := if c then ret tt else assert_fail.

(** The do-while loop waiting for the CMD and DAT lines; [true] when it is
    left by [break], [false] when it gives up. *)
Fixpoint wait_lines_free (fuel : nat) (host : sdhci_host) (retry : Z) : M bool :=
  match fuel with
  | O => out_of_fuel
  | S n =>
      present_state <- REG_READ32 host SDHCI_PRESENT_STATE_REG ;;
      let present_state := u16 present_state in
      let present_state := u16 (Z.land present_state SDHCI_STATE_CMD_DAT_MASK) in
      if negb (nonzero present_state) then ret true
      else
        udelay 1000 ;;
        let retry := u8 (retry + 1) in
        if retry =? 10 then
          dprintf "Error: CMD or DAT lines were never freed" ;;
          ret false
        else wait_lines_free n host retry
  end.

(** The switch on [cmd->resp_type]; [None] is the default case. *)
Definition resp_type_sel (rt : Z) : option Z :=
  if (rt =? SDHCI_CMD_RESP_R1) || (rt =? SDHCI_CMD_RESP_R3)
     || (rt =? SDHCI_CMD_RESP_R6) || (rt =? SDHCI_CMD_RESP_R7)
  then Some SDHCI_CMD_RESP_48
  else if rt =? SDHCI_CMD_RESP_R2 then Some SDHCI_CMD_RESP_136
  else if rt =? SDHCI_CMD_RESP_R1B then Some SDHCI_CMD_RESP_48_BUSY
  else if rt =? SDHCI_CMD_RESP_NONE then Some SDHCI_CMD_RESP_NONE
  else None.

(** sdhci_send_command from the write of the timeout register on. *)
Definition send_command_issue (fuel : nat) (host : sdhci_host) (cmd : mmc_command)
    (flags : Z) : M (Z * mmc_command) :=
  let sg_list := 0 in
  REG_WRITE8 host SDHCI_CMD_TIMEOUT SDHCI_TIMEOUT_REG ;;
  sg_list <- (if nonzero (data_present cmd)
              then sdhci_adma_transfer fuel host cmd else ret sg_list) ;;
  REG_WRITE32 host (argument cmd) SDHCI_ARGUMENT_REG ;;
  REG_WRITE16 host (SDHCI_PREP_CMD (cmd_index cmd) flags) SDHCI_CMD_REG ;;
  rc <- sdhci_cmd_complete fuel host cmd ;;
  let cmd := snd rc in
  if nonzero (fst rc) then ret (1, cmd)
  else
    (if trans_mode cmd =? SDHCI_MMC_READ
     then arch_invalidate_cache_range (data_ptr (data cmd))
            (u32 (num_blocks (data cmd) * SDHCI_MMC_BLK_SZ))
     else ret tt) ;;
    (if nonzero sg_list then free sg_list else ret tt) ;;
    ret (0, cmd).

Definition sdhci_send_command (fuel : nat) (host : sdhci_host) (cmd : mmc_command)
  : M (Z * mmc_command) :=
  (if nonzero (data_present cmd)
   then ASSERT (nonzero (data_ptr (data cmd))) else ret tt) ;;
  (if trans_mode cmd =? SDHCI_READ_MODE
   then ASSERT (IS_CACHE_LINE_ALIGNED (data_ptr (data cmd))) else ret tt) ;;
  free_lines <- wait_lines_free fuel host 0 ;;
  if free_lines : bool then
    match resp_type_sel (resp_type cmd) with
    | Some rt =>
        let flags := u32 (Z.shiftl rt SDHCI_CMD_RESP_TYPE_SEL_BIT) in
        let flags := u32 (Z.lor flags (Z.shiftl (data_present cmd) SDHCI_CMD_DATA_PRESENT_BIT)) in
        let flags := u32 (Z.lor flags (Z.shiftl (cmd_type cmd) SDHCI_CMD_CMD_TYPE_BIT)) in
        send_command_issue fuel host cmd flags
    | None =>
        dprintf "Invalid response type for the command" ;;
        ret (1, cmd)
    end
  else ret (1, cmd).

End Driver.

(** ** Vocabulary of the statements *)

Definition is_write (e : event) : bool :=
  match e with EvWrite _ _ _ => true | _ => false end.

(** The register writes of a trace, in order. *)
Definition writes (t : list event) : list event := List.filter is_write t.

(** Every returning run of [m] leaves the heap and the allocator as they
    were and extends the trace by events that satisfy [P]. *)
Definition emits {A} (P : event -> Prop) (m : M A) : Prop :=
  forall w a w',
    m w = Done a w' ->
    heap w' = heap w /\ pool w' = pool w
    /\ exists t, trace w' = trace w ++ t /\ Forall P t.

(** The addresses handed to free, in order. *)
Definition frees (t : list event) : list Z :=
  List.flat_map (fun e => match e with EvFree p => [p] | _ => [] end) t.

(** The log lines of a trace, in order. *)
Definition logged (t : list event) : list string :=
  List.flat_map (fun e => match e with EvDprintf m => [m] | _ => [] end) t.

(** What a run returned, and the trace and heap it left behind. *)
Definition returned {A} (o : outcome A) : option A :=
  match o with Done a _ => Some a | _ => None end.

Definition final_trace {A} (o : outcome A) : list event :=
  match o with Done _ w | Abort w => trace w | _ => [] end.

Definition final_heap {A} (o : outcome A) : gmap Z (list desc_entry) :=
  match o with Done _ w | Abort w => heap w | _ => ∅ end.

(** A world in which nothing has happened yet. *)
Definition fresh_world (d : nat -> Z -> Z) (addrs : list Z) : world :=
  {| dev := d; reads := 0; trace := []; heap := ∅; pool := addrs;
     garbage := DescEntry 65535 65535 4294967295 |}.

Section Vocabulary.

Context {H : sdhci_h}.

Definition clk_reg (host : sdhci_host) : Z := u32 (base host + SDHCI_CLK_CTRL_REG).
Definition ctrl1_reg (host : sdhci_host) : Z := u32 (base host + SDHCI_HOST_CTRL1_REG).
Definition nrml_int_sts_reg (host : sdhci_host) : Z := u32 (base host + SDHCI_NRML_INT_STS_REG).
Definition reset_reg (host : sdhci_host) : Z := u32 (base host + SDHCI_RESET_REG).
Definition resp_reg (host : sdhci_host) (i : Z) : Z := u32 (base host + (SDHCI_RESP_REG + i * 4)).

(** The clock-stable bit as the controller shows it at the [n]-th read. *)
Definition stable_at (host : sdhci_host) (w : world) (n : nat) : bool :=
  nonzero (Z.land (u16 (dev w n (clk_reg host))) SDHCI_CLK_STABLE).

(** [d] is the first divider of the scan 2, 4, 6, ... below
    SDHCI_CLK_MAX_DIV whose rate does not exceed [clk]. *)
Definition first_fit (base_rate clk d : Z) : Prop :=
  Z.even d = true /\ 2 <= d < SDHCI_CLK_MAX_DIV /\ base_rate / d <= clk
  /\ forall d', Z.even d' = true -> 2 <= d' < d -> clk < base_rate / d'.

(** The clock control value for the divider [div] in the words of the
    specification: the low bits of the divider in the frequency select
    field, its extension bits in the upper bit field, and the internal
    clock enable, on the 16 bits of the register. *)
Definition divider_encoding (div : Z) : Z :=
  wrap 16
    (Z.lor (Z.lor (Z.shiftl (Z.land div SDHCI_SDCLK_FREQ_MASK) SDHCI_SDCLK_FREQ_SEL)
                  (Z.shiftl (Z.shiftr (Z.land div SDHC_SDCLK_UP_BIT_MASK) SDHCI_SDCLK_FREQ_SEL)
                            SDHCI_SDCLK_UP_BIT_SEL))
           SDHCI_INT_CLK_EN).

(** The controller pattern sdhci_set_bus_width selects for a width the
    switch recognises. *)
Definition bus_width_pattern (width : Z) : option Z :=
  if width =? DATA_BUS_WIDTH_8BIT then Some SDHCI_BUS_WITDH_8BIT
  else if width =? DATA_BUS_WIDTH_4BIT then Some SDHCI_BUS_WITDH_4BIT
  else if width =? DATA_BUS_WIDTH_1BIT then Some SDHCI_BUS_WITDH_1BIT
  else None.

(** The four response registers read as [R0] .. [R3] whenever they are
    read. *)
Definition resp_regs_hold (host : sdhci_host) (w : world) (R0 R1 R2 R3 : Z) : Prop :=
  forall n, wrap 32 (dev w n (resp_reg host 0)) = R0
            /\ wrap 32 (dev w n (resp_reg host 1)) = R1
            /\ wrap 32 (dev w n (resp_reg host 2)) = R2
            /\ wrap 32 (dev w n (resp_reg host 3)) = R3.

(** The R2 response as the copy loop leaves it: every word, the first one
    included, is shifted left by eight bits within 32 bits, and every word
    but the first receives the top byte of the register before it. *)
Definition r2_response (R0 R1 R2 R3 : Z) : list Z :=
  [u32 (Z.shiftl R0 8);
   Z.lor (u32 (Z.shiftl R1 8)) (Z.shiftr R0 24);
   Z.lor (u32 (Z.shiftl R2 8)) (Z.shiftr R1 24);
   Z.lor (u32 (Z.shiftl R3 8)) (Z.shiftr R2 24)].

(** The R2 response in the words of the specification: R0 low-aligned with
    its low byte unmodified, each subsequent word shifted left by eight bits
    and OR-ed with the top eight bits of the previous raw word. *)
Definition spec_r2_response (R0 R1 R2 R3 : Z) : list Z :=
  [R0;
   Z.lor (u32 (Z.shiftl R1 8)) (Z.shiftr R0 24);
   Z.lor (u32 (Z.shiftl R2 8)) (Z.shiftr R1 24);
   Z.lor (u32 (Z.shiftl R3 8)) (Z.shiftr R2 24)].



Definition ceil_div (a b : Z) : Z := (a + b - 1) / b.

(** Number of entries the specification asks for: one if [L] fits in one
    span, else ceil (L / span). *)
Definition chain_len (L : Z) : Z :=
  if L <=? SDHCI_ADMA_DESC_LINE_SZ then 1 else ceil_div L SDHCI_ADMA_DESC_LINE_SZ.

(** The descriptor chain of the specification for a buffer at [data] of
    [L] bytes: all entries but the last cover a full span and are marked
    Valid|Data, the last covers what remains and is marked
    Valid|Data|End. *)
Definition desc_chain (data L : Z) : list desc_entry :=
  let n := chain_len L in
  ((fun i => mk_desc att_data SDHCI_ADMA_DESC_LINE_SZ (data + i * SDHCI_ADMA_DESC_LINE_SZ))
     <$> seqZ 0 (n - 1))
  ++ [mk_desc att_last (L - (n - 1) * SDHCI_ADMA_DESC_LINE_SZ)
        (data + (n - 1) * SDHCI_ADMA_DESC_LINE_SZ)].

(** What the header must provide for the descriptor builder: a span that is
    larger than a descriptor line and fits the 16 bit length field, and an
    End bit that shows in the stored attribute of the last entry and is not
    part of Valid|Data. *)
Definition adma_header_ok : Prop :=
  sizeof_desc_entry < SDHCI_ADMA_DESC_LINE_SZ < 2 ^ 16
  /\ Z.land (u16 att_data) SDHCI_ADMA_TRANS_END = 0
  /\ Z.land (u16 att_last) SDHCI_ADMA_TRANS_END <> 0.

(** The effect of [cnt] rounds of the fill loop on the table, starting at
    index [i] with buffer address [data]. *)
Fixpoint fill_lines (cnt : nat) (i data : Z) (blk : list desc_entry) : list desc_entry :=
  match cnt with
  | O => blk
  | S c =>
      fill_lines c (i + 1) (u32 (data + SDHCI_ADMA_DESC_LINE_SZ))
        (<[Z.to_nat i := mk_desc att_data SDHCI_ADMA_DESC_LINE_SZ data]> blk)
  end.

(** The Command-Complete bit, and the error summary bit, as the controller
    shows them in the normal interrupt status at the [n]-th read. *)
Definition cmd_complete_at (host : sdhci_host) (w : world) (n : nat) : bool :=
  Z.land (wrap 16 (dev w n (nrml_int_sts_reg host))) SDHCI_INT_STS_CMD_COMPLETE
  =? SDHCI_INT_STS_CMD_COMPLETE.

Definition err_int_at (host : sdhci_host) (w : world) (n : nat) : bool :=
  nonzero (Z.land (wrap 16 (dev w n (nrml_int_sts_reg host))) SDHCI_ERR_INT_STAT_MASK).

(** What the completion sequence may do short of its clean-up: read
    registers, wait, log, and write the normal interrupt status register. *)
Definition status_io (host : sdhci_host) (e : event) : Prop :=
  match e with
  | EvRead _ _ _ | EvUdelay _ | EvDprintf _ => True
  | EvWrite bits a _ => bits = 16 /\ a = nrml_int_sts_reg host
  | _ => False
  end.

(** The soft reset of the command and data lines. *)
Definition line_reset (host : sdhci_host) : event :=
  EvWrite 8 (reset_reg host) (wrap 8 (Z.lor SOFT_RESET_CMD SOFT_RESET_DATA)).

End Vocabulary.

(** ** A concrete header

    sdhci.h is not among the sources, so the examples below fix one set of
    values: the register map and bit assignments of the SD Host Controller
    specification, version 3.00, with the descriptor span and the two retry
    limits left open. *)
Definition sdhci_v3 (line_sz cmd_retry trans_retry : Z) : sdhci_h := {|
  SDHCI_CLK_MAX_DIV := 2046;
  SDHCI_SDCLK_FREQ_MASK := 0xFF;
  SDHCI_SDCLK_FREQ_SEL := 8;
  SDHC_SDCLK_UP_BIT_MASK := 0x300;
  SDHCI_SDCLK_UP_BIT_SEL := 6;
  SDHCI_INT_CLK_EN := 1;
  SDHCI_CLK_STABLE := 2;
  SDHCI_CLK_EN := 4;
  SDHCI_CLK_CTRL_REG := 0x2C;
  SDHCI_HOST_CTRL1_REG := 0x28;
  DATA_BUS_WIDTH_1BIT := 0;
  DATA_BUS_WIDTH_4BIT := 1;
  DATA_BUS_WIDTH_8BIT := 2;
  SDHCI_BUS_WITDH_1BIT := 0;
  SDHCI_BUS_WITDH_4BIT := 2;
  SDHCI_BUS_WITDH_8BIT := 32;
  SDHCI_ERR_INT_STS_REG := 0x32;
  SDHCI_CMD_TIMEOUT_MASK := 1;
  SDHCI_CMD_CRC_MASK := 2;
  SDHCI_CMD_END_BIT_MASK := 4;
  SDHCI_CMD_IDX_MASK := 8;
  SDHCI_DAT_TIMEOUT_MASK := 16;
  SDHCI_DAT_CRC_MASK := 32;
  SDHCI_DAT_END_BIT_MASK := 64;
  SDHCI_CUR_LIM_MASK := 128;
  SDHCI_AUTO_CMD12_MASK := 256;
  SDHCI_ADMA_MASK := 512;
  SDHCI_NRML_INT_STS_REG := 0x30;
  SDHCI_INT_STS_CMD_COMPLETE := 1;
  SDHCI_INT_STS_TRANS_COMPLETE := 2;
  SDHCI_ERR_INT_STAT_MASK := 0x8000;
  SDHCI_MAX_CMD_RETRY := cmd_retry;
  SDHCI_MAX_TRANS_RETRY := trans_retry;
  SDHCI_RESP_REG := 0x10;
  SDHCI_RESP_LSHIFT := 8;
  SDHCI_RESP_RSHIFT := 24;
  SDHCI_SWITCH_CMD := 6;
  SOFT_RESET_CMD := 2;
  SOFT_RESET_DATA := 4;
  SDHCI_RESET_REG := 0x2F;
  SDHCI_ADMA_DESC_LINE_SZ := line_sz;
  SDHCI_ADMA_TRANS_VALID := 1;
  SDHCI_ADMA_TRANS_DATA := 32;
  SDHCI_ADMA_TRANS_END := 2;
  SDHCI_MMC_BLK_SZ := 512;
  SDHCI_BLKSZ_REG := 0x04;
  SDHCI_BLK_CNT_REG := 0x06;
  SDHCI_ARG2_REG := 0x00;
  SDHCI_ADM_ADDR_REG := 0x58;
  SDHCI_TRANS_MODE_REG := 0x0C;
  SDHCI_TRANS_MULTI := 32;
  SDHCI_AUTO_CMD23_EN := 8;
  SDHCI_BLK_CNT_EN := 2;
  SDHCI_MMC_READ := 1;
  SDHCI_READ_MODE := 16;
  SDHCI_DMA_EN := 1;
  SDHCI_PRESENT_STATE_REG := 0x24;
  SDHCI_STATE_CMD_DAT_MASK := 3;
  SDHCI_CMD_RESP_R1 := 1;
  SDHCI_CMD_RESP_R1B := 2;
  SDHCI_CMD_RESP_R2 := 4;
  SDHCI_CMD_RESP_R3 := 8;
  SDHCI_CMD_RESP_R6 := 64;
  SDHCI_CMD_RESP_R7 := 128;
  SDHCI_CMD_RESP_NONE := 0;
  SDHCI_CMD_RESP_48 := 2;
  SDHCI_CMD_RESP_136 := 1;
  SDHCI_CMD_RESP_48_BUSY := 3;
  SDHCI_CMD_RESP_TYPE_SEL_BIT := 0;
  SDHCI_CMD_DATA_PRESENT_BIT := 5;
  SDHCI_CMD_CMD_TYPE_BIT := 6;
  SDHCI_CMD_TIMEOUT := 0xF;
  SDHCI_TIMEOUT_REG := 0x2E;
  SDHCI_ARGUMENT_REG := 0x08;
  SDHCI_CMD_REG := 0x0E;
  SDHCI_PREP_CMD := fun index flags =>
    Z.lor (Z.shiftl (Z.land index 0xFF) 8) (Z.land flags 0xFF);
  IS_CACHE_LINE_ALIGNED := fun a => Z.land a 63 =? 0
|}.

(** A host with a 200 MHz base clock whose registers start at 0x10000. *)
Definition host200 : sdhci_host :=
  {| base := 0x10000; cur_clk_rate := 400000;
     caps := {| base_clk_rate := 200000000; max_blk_len := 0; bus_width_8bit := 1;
                adma_support := 1; voltage := 7; ddr_support := 1; sdr50_support := 1 |} |}.

(** A controller whose four response registers hold a fixed vector. *)
Definition resp_vector_dev (n : nat) (a : Z) : Z :=
  if a =? 0x10010 then 0x11223344
  else if a =? 0x10014 then 0x55667788
  else if a =? 0x10018 then 0x99AABBCC
  else if a =? 0x1001C then 0xDDEEFF00
  else 0.

Definition cmd_r2 : mmc_command :=
  {| cmd_index := 2; argument := 0; data_present := 0; cmd_type := 0;
     resp_type := 4; resp := [0; 0; 0; 0]; trans_mode := 0;
     data := {| data_ptr := 0; num_blocks := 0 |} |}.

(** A multi-block read of 300 blocks into the buffer at 0x200000. *)
Definition cmd_read300 : mmc_command :=
  {| cmd_index := 18; argument := 0x4000; data_present := 1; cmd_type := 0;
     resp_type := 1; resp := [0; 0; 0; 0]; trans_mode := 1;
     data := {| data_ptr := 0x200000; num_blocks := 300 |} |}.

(** A command without data. *)
Definition cmd_status : mmc_command :=
  {| cmd_index := 13; argument := 0x10000; data_present := 0; cmd_type := 0;
     resp_type := 1; resp := [0; 0; 0; 0]; trans_mode := 0;
     data := {| data_ptr := 0; num_blocks := 0 |} |}.

(** A controller that completes every command and transfer at once but
    flags a data CRC error: normal interrupt status reads 0x8003, error
    interrupt status reads 0x20, everything else reads 0. *)
Definition crc_error_dev (n : nat) (a : Z) : Z :=
  if a =? 0x10030 then 0x8003 else if a =? 0x10032 then 0x20 else 0.

(** A controller that completes every command and transfer at once and
    without error. *)
Definition success_dev (n : nat) (a : Z) : Z :=
  if a =? 0x10030 then 0x0003 else 0.

(** A controller that never answers: every register reads 0. *)
Definition silent_dev (n : nat) (a : Z) : Z := 0.

(** * The rest of the driver

    The routines of sdhci.c that the sections above do not need: clock stop
    and frequency change, bus power, speed modes, ADMA mode, controller
    reset, the power interrupt handler, and the parts of sdhci_init that
    run before the interrupt handler is registered and after the power
    interrupt has been awaited. *)

(** ** More of sdhci.h, and the platform headers

    The constants used by these routines, again as parameters. *)
Class platform_h := {
  (* interrupt enables *)
  SDHCI_NRML_INT_STS_EN : Z;
  SDHCI_NRML_INT_STS_EN_REG : Z;
  SDHCI_ERR_INT_STS_EN : Z;
  SDHCI_ERR_INT_STS_EN_REG : Z;
  SDHCI_NRML_INT_SIG_EN : Z;
  SDHCI_NRML_INT_SIG_EN_REG : Z;
  SDHCI_ERR_INT_SIG_EN : Z;
  SDHCI_ERR_INT_SIG_EN_REG : Z;
  (* clock stop *)
  SDHCI_CMD_ACT : Z;
  SDHCI_DAT_ACT : Z;
  SDHCI_CLK_DIS : Z;
  (* bus power *)
  SDHCI_BUS_VOL_SEL : Z;
  SDHCI_BUS_PWR_EN : Z;
  SDHCI_PWR_CTRL_REG : Z;
  (* speed modes, ADMA mode *)
  SDHCI_HOST_CTRL2_REG : Z;
  SDHCI_SDR50_MODE_EN : Z;
  SDHCI_DDR_MODE_EN : Z;
  SDHCI_CLK_100MHZ : Z;
  SDHCI_ADMA_32BIT : Z;
  (* reset, mode switch *)
  SDHCI_SOFT_RESET : Z;
  SDHCI_SOFT_RESET_MASK : Z;
  SDHCI_HC_MODE_EN : Z;
  SDHCI_HC_MODE_DIS : Z;
  SDCC_MCI_HC_MODE : Z;
  (* capabilities *)
  SDHCI_CAPS_REG1 : Z;
  SDHCI_CAPS_REG2 : Z;
  SDHCI_CLK_RATE_MASK : Z;
  SDHCI_CLK_RATE_BIT : Z;
  SDHCI_BLK_LEN_MASK : Z;
  SDHCI_BLK_LEN_BIT : Z;
  SDHCI_8BIT_WIDTH_MASK : Z;
  SDHCI_BLK_ADMA_MASK : Z;
  SDHCI_3_3_VOL_MASK : Z;
  SDHCI_3_0_VOL_MASK : Z;
  SDHCI_1_8_VOL_MASK : Z;
  SDHCI_VOL_3_3 : Z;
  SDHCI_VOL_3_0 : Z;
  SDHCI_VOL_1_8 : Z;
  SDHCI_DDR_MODE_MASK : Z;
  SDHCI_SDR50_MODE_MASK : Z;
  (* power control interrupt *)
  SDCC_HC_PWRCTL_MASK_REG : Z;
  SDCC_HC_PWRCTL_CTL_REG : Z;
  SDCC_HC_BUS_ON : Z;
  SDCC_HC_BUS_OFF : Z;
  SDCC_HC_BUS_ON_OFF_SUCC : Z;
  SDCC_HC_IO_SIG_LOW : Z;
  SDCC_HC_IO_SIG_HIGH : Z;
  SDCC_HC_IO_SIG_SUCC : Z
}.

Definition set_caps (host : sdhci_host) (c : host_caps) : sdhci_host :=
  {| base := base host; cur_clk_rate := cur_clk_rate host; caps := c |}.

(** readl / writel at an absolute address. *)
Definition readl (a : Z) : M Z := mmio_read 32 (u32 a).
Definition writel (v a : Z) : M unit := mmio_write 32 v (u32 a).

Section DriverRest.

Context {H : sdhci_h} {P : platform_h}.

(** ** sdhci_error_status_enable *)

Definition sdhci_error_status_enable (host : sdhci_host) : M unit :=
  REG_WRITE16 host SDHCI_NRML_INT_STS_EN SDHCI_NRML_INT_STS_EN_REG ;;
  REG_WRITE16 host SDHCI_ERR_INT_STS_EN SDHCI_ERR_INT_STS_EN_REG ;;
  REG_WRITE16 host SDHCI_NRML_INT_SIG_EN SDHCI_NRML_INT_SIG_EN_REG ;;
  REG_WRITE16 host SDHCI_ERR_INT_SIG_EN SDHCI_ERR_INT_SIG_EN_REG.

(** ** sdhci_stop_sdcc_clk *)

Definition sdhci_stop_sdcc_clk (host : sdhci_host) : M Z :=
  reg <- REG_READ32 host SDHCI_PRESENT_STATE_REG ;;
  if nonzero (Z.land reg (Z.lor SDHCI_CMD_ACT SDHCI_DAT_ACT)) then
    dprintf "Error: SDCC command & data line are active" ;;
    ret 1
  else
    REG_WRITE16 host SDHCI_CLK_DIS SDHCI_CLK_CTRL_REG ;;
    ret 0.

(** ** sdhci_change_freq_clk *)

Definition sdhci_change_freq_clk (fuel : nat) (host : sdhci_host) (clk : Z)
  : M (Z * sdhci_host) :=
  busy <- sdhci_stop_sdcc_clk host ;;
  if nonzero busy then
    dprintf "Error: Card is busy, cannot change frequency" ;;
    ret (1, host)
  else
    rh <- sdhci_clk_supply fuel host clk ;;
    if nonzero (fst rh) then
      dprintf "Error: cannot change frequency" ;;
      ret (1, snd rh)
    else ret (0, snd rh).

(** ** sdhci_set_bus_power_on *)

Definition sdhci_set_bus_power_on (host : sdhci_host) : M unit :=
  let voltage := u8 (voltage (caps host)) in
  let voltage := u8 (Z.shiftl voltage SDHCI_BUS_VOL_SEL) in
  REG_WRITE8 host voltage SDHCI_BUS_PWR_EN ;;
  let voltage := u8 (Z.lor voltage SDHCI_BUS_PWR_EN) in
  REG_WRITE8 host voltage SDHCI_PWR_CTRL_REG.

(** ** sdhci_set_sdr_mode and sdhci_set_ddr_mode

    Both return nothing; the embedding returns the host, whose
    [cur_clk_rate] the call to sdhci_clk_supply may have changed.  The
    value sdhci_clk_supply returns is dropped, as in the source. *)

(** [clk = REG_READ16 (...); clk &= ~SDHCI_CLK_EN; REG_WRITE16 (...);] *)
Definition disable_clk (host : sdhci_host) : M unit :=
  clk <- REG_READ16 host SDHCI_CLK_CTRL_REG ;;
  let clk := u16 (Z.land clk (Z.lnot SDHCI_CLK_EN)) in
  REG_WRITE16 host clk SDHCI_CLK_CTRL_REG.

Definition sdhci_set_sdr_mode (fuel : nat) (host : sdhci_host) : M sdhci_host :=
  disable_clk host ;;
  ctrl <- REG_READ16 host SDHCI_HOST_CTRL2_REG ;;
  let ctrl := if nonzero (sdr50_support (caps host))
              then u16 (Z.lor ctrl SDHCI_SDR50_MODE_EN) else ctrl in
  REG_WRITE16 host ctrl SDHCI_HOST_CTRL2_REG ;;
  rh <- sdhci_clk_supply fuel host SDHCI_CLK_100MHZ ;;
  ret (snd rh).

Definition sdhci_set_ddr_mode (fuel : nat) (host : sdhci_host) : M sdhci_host :=
  disable_clk host ;;
  ctrl <- REG_READ16 host SDHCI_HOST_CTRL2_REG ;;
  let ctrl := u16 (Z.lor ctrl SDHCI_DDR_MODE_EN) in
  REG_WRITE16 host ctrl SDHCI_HOST_CTRL2_REG ;;
  rh <- sdhci_clk_supply fuel host (cur_clk_rate host) ;;
  ret (snd rh).

(** ** sdhci_set_adma_mode *)

Definition sdhci_set_adma_mode (host : sdhci_host) : M unit :=
  REG_WRITE8 host SDHCI_ADMA_32BIT SDHCI_HOST_CTRL1_REG.

(** ** sdhci_reset *)

(** [do { reg = REG_READ8 (...); reg &= SDHCI_SOFT_RESET_MASK;
          if (!reg) break; } while (1);] *)
Fixpoint wait_reset_done (fuel : nat) (host : sdhci_host) : M unit :=
  match fuel with
  | O => out_of_fuel
  | S n =>
      reg <- REG_READ8 host SDHCI_RESET_REG ;;
      let reg := Z.land reg SDHCI_SOFT_RESET_MASK in
      if negb (nonzero reg) then ret tt
      else wait_reset_done n host
  end.

Definition sdhci_reset (fuel : nat) (host : sdhci_host) : M unit :=
  REG_WRITE8 host SDHCI_SOFT_RESET SDHCI_RESET_REG ;;
  wait_reset_done fuel host.

(** ** sdhci_mode_enable *)

Definition sdhci_mode_enable (enable : Z) : M unit :=
  if nonzero enable then writel SDHCI_HC_MODE_EN SDCC_MCI_HC_MODE
  else writel SDHCI_HC_MODE_DIS SDCC_MCI_HC_MODE.

(** ** sdhci_int_handler

    [ack] is declared without an initial value and is only assigned when a
    bus condition is pending; [None] stands for that indeterminate content,
    and using it is undefined.  The calls of event_signal are collected in
    [signals], as pairs of the event and the reschedule flag. *)
Definition sdhci_int_handler (arg : Z) (signals : list (Z * bool))
  : M (Z * list (Z * bool)) :=
  let ack : option Z := None in
  status <- readl SDCC_HC_PWRCTL_MASK_REG ;;
  let ack := if nonzero (Z.land status (Z.lor SDCC_HC_BUS_ON SDCC_HC_BUS_OFF))
             then Some (u32 SDCC_HC_BUS_ON_OFF_SUCC) else ack in
  ack <- (if nonzero (Z.land status (Z.lor SDCC_HC_IO_SIG_LOW SDCC_HC_IO_SIG_HIGH))
          then match ack with
               | Some a => ret (Some (u32 (Z.lor a SDCC_HC_IO_SIG_SUCC)))
               | None => undefined
               end
          else ret ack) ;;
  match ack with
  | Some a =>
      writel a SDCC_HC_PWRCTL_CTL_REG ;;
      ret (0, signals ++ [(arg, false)])
  | None => undefined
  end.

(** ** sdhci_init, in parts

    sdhci_init registers the interrupt handler with the kernel and blocks
    in event_wait until the handler has run; that middle part is not
    embedded.  What precedes it and what follows it is. *)

(** The capability decoding of sdhci_init: the assignments to
    [host->caps] from the two capability words.  The clock rate and block
    length fields are 32 bit values, like the words they are cut from. *)
Definition decode_caps (c : host_caps) (caps0 caps1 : Z) : host_caps :=
  let base_clk_rate := u32 (Z.shiftr (Z.land caps0 SDHCI_CLK_RATE_MASK) SDHCI_CLK_RATE_BIT) in
  let base_clk_rate := u32 (base_clk_rate * 1000000) in
  let max_blk_len := u32 (Z.shiftr (Z.land caps0 SDHCI_BLK_LEN_MASK) SDHCI_BLK_LEN_BIT) in
  let bus_width_8bit :=
    if nonzero (Z.land caps0 SDHCI_8BIT_WIDTH_MASK) then 1 else bus_width_8bit c in
  let adma_support :=
    if nonzero (Z.land caps0 SDHCI_BLK_ADMA_MASK) then 1 else adma_support c in
  let voltage :=
    if nonzero (Z.land caps0 SDHCI_3_3_VOL_MASK) then SDHCI_VOL_3_3
    else if nonzero (Z.land caps0 SDHCI_3_0_VOL_MASK) then SDHCI_VOL_3_0
    else if nonzero (Z.land caps0 SDHCI_1_8_VOL_MASK) then SDHCI_VOL_1_8
    else voltage c in
  let ddr_support := if nonzero (Z.land caps1 SDHCI_DDR_MODE_MASK) then 1 else 0 in
  let sdr50_support := if nonzero (Z.land caps1 SDHCI_SDR50_MODE_MASK) then 1 else 0 in
  {| base_clk_rate := base_clk_rate; max_blk_len := max_blk_len;
     bus_width_8bit := bus_width_8bit; adma_support := adma_support;
     voltage := voltage; ddr_support := ddr_support; sdr50_support := sdr50_support |}.

(** sdhci_init from the reset of the controller to the last assignment to
    [host->caps]. *)
Definition init_read_caps (fuel : nat) (host : sdhci_host) : M sdhci_host :=
  sdhci_reset fuel host ;;
  caps0 <- REG_READ32 host SDHCI_CAPS_REG1 ;;
  caps1 <- REG_READ32 host SDHCI_CAPS_REG2 ;;
  ret (set_caps host (decode_caps (caps host) caps0 caps1)).

(** sdhci_init after event_wait has returned. *)
Definition init_configure (host : sdhci_host) : M unit :=
  sdhci_set_bus_width host SDHCI_BUS_WITDH_1BIT ;;
  sdhci_set_adma_mode host ;;
  sdhci_error_status_enable host.

End DriverRest.

(** ** Vocabulary for the rest of the driver *)

Section VocabularyRest.

Context {H : sdhci_h} {P : platform_h}.

Definition ctrl2_reg (host : sdhci_host) : Z := u32 (base host + SDHCI_HOST_CTRL2_REG).
Definition present_state_reg (host : sdhci_host) : Z :=
  u32 (base host + SDHCI_PRESENT_STATE_REG).

(** The command or data line is active, as sdhci_stop_sdcc_clk tests it on
    the [n]-th read. *)
Definition lines_active_at (host : sdhci_host) (w : world) (n : nat) : bool :=
  nonzero (Z.land (wrap 32 (dev w n (present_state_reg host)))
                  (Z.lor SDHCI_CMD_ACT SDHCI_DAT_ACT)).

(** The lines are busy, as sdhci_send_command tests it on the [n]-th
    read. *)
Definition lines_busy_at (host : sdhci_host) (w : world) (n : nat) : bool :=
  nonzero (u16 (Z.land (u16 (wrap 32 (dev w n (present_state_reg host))))
                       SDHCI_STATE_CMD_DAT_MASK)).

(** The controller still shows its reset in progress on the [n]-th read. *)
Definition reset_pending_at (host : sdhci_host) (w : world) (n : nat) : bool :=
  nonzero (Z.land (wrap 8 (dev w n (reset_reg host))) SDHCI_SOFT_RESET_MASK).

Definition err_int_sts_reg (host : sdhci_host) : Z :=
  u32 (base host + SDHCI_ERR_INT_STS_REG).
Definition timeout_reg (host : sdhci_host) : Z := u32 (base host + SDHCI_TIMEOUT_REG).

(** The error kinds in the order sdhci_cmd_err_status tests them, each with
    the line it logs. *)
Definition err_table : list (Z * string) :=
  [(SDHCI_CMD_TIMEOUT_MASK, "Error: Command timeout error"%string);
   (SDHCI_CMD_CRC_MASK, "Error: Command CRC error"%string);
   (SDHCI_CMD_END_BIT_MASK, "Error: CMD end bit error"%string);
   (SDHCI_CMD_IDX_MASK, "Error: Command Index error"%string);
   (SDHCI_DAT_TIMEOUT_MASK, "Error: DATA time out error"%string);
   (SDHCI_DAT_CRC_MASK, "Error: DATA CRC error"%string);
   (SDHCI_DAT_END_BIT_MASK, "Error: DATA end bit error"%string);
   (SDHCI_CUR_LIM_MASK, "Error: Current limit error"%string);
   (SDHCI_AUTO_CMD12_MASK, "Error: Auto CMD12 error"%string);
   (SDHCI_ADMA_MASK, "Error: ADMA error"%string)].

(** The line of the first kind of [err_table] with a bit in [err], if
    any. *)
Definition classify (err : Z) : option string :=
  match List.find (fun k => nonzero (Z.land err (fst k))) err_table with
  | Some k => Some (snd k)
  | None => None
  end.

(** The Transfer-Complete bit as the second polling loop of
    sdhci_cmd_complete tests it on the [n]-th read. *)
Definition trans_complete_at (host : sdhci_host) (w : world) (n : nat) : bool :=
  nonzero (Z.land (Z.land (wrap 16 (dev w n (nrml_int_sts_reg host)))
                          SDHCI_INT_STS_TRANS_COMPLETE)
                  SDHCI_INT_STS_TRANS_COMPLETE).

(** The two assertions at the head of sdhci_send_command hold. *)
Definition asserts_hold (cmd : mmc_command) : bool :=
  (negb (nonzero (data_present cmd)) || nonzero (data_ptr (data cmd)))
  && (negb (trans_mode cmd =? SDHCI_READ_MODE)
      || IS_CACHE_LINE_ALIGNED (data_ptr (data cmd))).

(** An event that is neither part of the descriptor handling (allocation,
    release, cache flush of a table) nor the reset of the lines. *)
Definition no_dma_io (host : sdhci_host) (e : event) : Prop :=
  match e with
  | EvMemalign _ _ | EvFree _ | EvCleanInvalidate _ _ => False
  | _ => e <> line_reset host
  end.

End VocabularyRest.

(** Register access, delay or log line. *)
Definition hw_io (e : event) : Prop :=
  match e with
  | EvRead _ _ _ | EvWrite _ _ _ | EvUdelay _ | EvDprintf _ => True
  | _ => False
  end.

(** Anything but a cache invalidation. *)
Definition not_invalidate (e : event) : Prop :=
  match e with EvInvalidate _ _ => False | _ => True end.

(** Every returning run of [m] extends the trace by events that satisfy
    [P]; unlike [emits], nothing is said about the heap. *)
Definition appends {A} (P : event -> Prop) (m : M A) : Prop :=
  forall w a w', m w = Done a w' -> exists t, trace w' = trace w ++ t /\ Forall P t.

(** The buffer ranges handed to arch_invalidate_cache_range, in order. *)
Definition invalidates (t : list event) : list (Z * Z) :=
  List.flat_map (fun e => match e with EvInvalidate a n => [(a, n)] | _ => [] end) t.

(** ** A concrete platform header, for the examples *)
Definition msm_v3 : platform_h := {|
  SDHCI_NRML_INT_STS_EN := 0xFFFF;
  SDHCI_NRML_INT_STS_EN_REG := 0x34;
  SDHCI_ERR_INT_STS_EN := 0xFFFF;
  SDHCI_ERR_INT_STS_EN_REG := 0x36;
  SDHCI_NRML_INT_SIG_EN := 0xFFFF;
  SDHCI_NRML_INT_SIG_EN_REG := 0x38;
  SDHCI_ERR_INT_SIG_EN := 0xFFFF;
  SDHCI_ERR_INT_SIG_EN_REG := 0x3A;
  SDHCI_CMD_ACT := 1;
  SDHCI_DAT_ACT := 2;
  SDHCI_CLK_DIS := 0;
  SDHCI_BUS_VOL_SEL := 1;
  SDHCI_BUS_PWR_EN := 1;
  SDHCI_PWR_CTRL_REG := 0x29;
  SDHCI_HOST_CTRL2_REG := 0x3E;
  SDHCI_SDR50_MODE_EN := 2;
  SDHCI_DDR_MODE_EN := 4;
  SDHCI_CLK_100MHZ := 100000000;
  SDHCI_ADMA_32BIT := 0x10;
  SDHCI_SOFT_RESET := 1;
  SDHCI_SOFT_RESET_MASK := 1;
  SDHCI_HC_MODE_EN := 1;
  SDHCI_HC_MODE_DIS := 0;
  SDCC_MCI_HC_MODE := 0xF9824078;
  SDHCI_CAPS_REG1 := 0x40;
  SDHCI_CAPS_REG2 := 0x44;
  SDHCI_CLK_RATE_MASK := 0xFF00;
  SDHCI_CLK_RATE_BIT := 8;
  SDHCI_BLK_LEN_MASK := 0x30000;
  SDHCI_BLK_LEN_BIT := 16;
  SDHCI_8BIT_WIDTH_MASK := 0x40000;
  SDHCI_BLK_ADMA_MASK := 0x80000;
  SDHCI_3_3_VOL_MASK := 0x1000000;
  SDHCI_3_0_VOL_MASK := 0x2000000;
  SDHCI_1_8_VOL_MASK := 0x4000000;
  SDHCI_VOL_3_3 := 7;
  SDHCI_VOL_3_0 := 6;
  SDHCI_VOL_1_8 := 5;
  SDHCI_DDR_MODE_MASK := 4;
  SDHCI_SDR50_MODE_MASK := 1;
  SDCC_HC_PWRCTL_MASK_REG := 0xF98240E0;
  SDCC_HC_PWRCTL_CTL_REG := 0xF98240E8;
  SDCC_HC_BUS_ON := 1;
  SDCC_HC_BUS_OFF := 2;
  SDCC_HC_BUS_ON_OFF_SUCC := 1;
  SDCC_HC_IO_SIG_LOW := 4;
  SDCC_HC_IO_SIG_HIGH := 8;
  SDCC_HC_IO_SIG_SUCC := 4
|}.

(** A host with a 50 MHz base clock. *)
Definition host50 : sdhci_host :=
  {| base := 0x10000; cur_clk_rate := 25000000;
     caps := {| base_clk_rate := 50000000; max_blk_len := 0; bus_width_8bit := 0;
                adma_support := 1; voltage := 7; ddr_support := 0; sdr50_support := 1 |} |}.

(** A controller whose clock is always stable and whose lines are always
    idle: the clock control register reads 2, everything else 0. *)
Definition steady_dev (n : nat) (a : Z) : Z := if a =? 0x1002C then 2 else 0.

(** A controller whose lines are always busy: present state reads 3. *)
Definition busy_dev (n : nat) (a : Z) : Z := if a =? 0x10024 then 3 else 0.

(** A controller that finishes its reset on the third poll and then
    advertises a 200 MHz base clock, ADMA, 3.0 V and 1.8 V, and SDR50. *)
Definition reset_then_caps_dev (n : nat) (a : Z) : Z :=
  if a =? 0x1002F then (if (n <? 2)%nat then 1 else 0)
  else if a =? 0x10040 then 0x0608C800
  else if a =? 0x10044 then 0x1
  else 0.

(** A power control block with a bus-on request pending, one with only an
    IO level request pending. *)
Definition bus_on_dev (n : nat) (a : Z) : Z := if a =? 0xF98240E0 then 1 else 0.
Definition io_only_dev (n : nat) (a : Z) : Z := if a =? 0xF98240E0 then 4 else 0.

(** A controller that completes every command at once, never completes a
    transfer and raises no error: normal interrupt status reads 1. *)
Definition no_transfer_dev (n : nat) (a : Z) : Z := if a =? 0x10030 then 1 else 0.

(** A controller that completes a command with the error summary bit set
    but with none of the ten classified error bits: error interrupt status
    reads 0x400. *)
Definition odd_error_dev (n : nat) (a : Z) : Z :=
  if a =? 0x10030 then 0x8001 else if a =? 0x10032 then 0x400 else 0.

(** A command with a response type the switch does not know. *)
Definition cmd_bad_resp : mmc_command :=
  {| cmd_index := 13; argument := 0; data_present := 0; cmd_type := 0;
     resp_type := 0x55; resp := [0; 0; 0; 0]; trans_mode := 0;
     data := {| data_ptr := 0; num_blocks := 0 |} |}.

(** A data command without a buffer. *)
Definition cmd_null_buffer : mmc_command :=
  {| cmd_index := 18; argument := 0; data_present := 1; cmd_type := 0;
     resp_type := 1; resp := [0; 0; 0; 0]; trans_mode := 1;
     data := {| data_ptr := 0; num_blocks := 1 |} |}.

(** A command whose transfer mode is SDHCI_READ_MODE, buffer unaligned. *)
Definition cmd_unaligned : mmc_command :=
  {| cmd_index := 18; argument := 0; data_present := 1; cmd_type := 0;
     resp_type := 1; resp := [0; 0; 0; 0]; trans_mode := 16;
     data := {| data_ptr := 0x200004; num_blocks := 1 |} |}.

(** Register read, delay or log line: all a polling loop does. *)
Definition poll_io (e : event) : Prop :=
  match e with
  | EvRead _ _ _ | EvUdelay _ | EvDprintf _ => True
  | _ => False
  end.

(** The world a run ends in; [w0] when it does not end. *)
Definition final_world {A} (o : outcome A) (w0 : world) : world :=
  match o with Done _ w | Abort w => w | _ => w0 end.

Section VocabularyDma.

Context {H : sdhci_h}.

(** The registers sdhci_adma_transfer programs. *)
Definition blksz_reg (host : sdhci_host) : Z := u32 (base host + SDHCI_BLKSZ_REG).
Definition arg2_reg (host : sdhci_host) : Z := u32 (base host + SDHCI_ARG2_REG).
Definition blk_cnt_reg (host : sdhci_host) : Z := u32 (base host + SDHCI_BLK_CNT_REG).
Definition adm_addr_reg (host : sdhci_host) : Z := u32 (base host + SDHCI_ADM_ADDR_REG).
Definition trans_mode_reg (host : sdhci_host) : Z := u32 (base host + SDHCI_TRANS_MODE_REG).

(** The byte count of the transfer of [cmd], as sdhci_adma_transfer and
    sdhci_send_command compute it. *)
Definition transfer_size (cmd : mmc_command) : Z :=
  u32 (num_blocks (data cmd) * SDHCI_MMC_BLK_SZ).

End VocabularyDma.

Section VocabularyPower.

Context {H : sdhci_h} {P : platform_h}.

Definition pwr_ctrl_reg (host : sdhci_host) : Z := u32 (base host + SDHCI_PWR_CTRL_REG).

(** The four writes of sdhci_error_status_enable. *)
Definition int_enable_writes (host : sdhci_host) : list event :=
  [EvWrite 16 (u32 (base host + SDHCI_NRML_INT_STS_EN_REG)) (wrap 16 SDHCI_NRML_INT_STS_EN);
   EvWrite 16 (u32 (base host + SDHCI_ERR_INT_STS_EN_REG)) (wrap 16 SDHCI_ERR_INT_STS_EN);
   EvWrite 16 (u32 (base host + SDHCI_NRML_INT_SIG_EN_REG)) (wrap 16 SDHCI_NRML_INT_SIG_EN);
   EvWrite 16 (u32 (base host + SDHCI_ERR_INT_SIG_EN_REG)) (wrap 16 SDHCI_ERR_INT_SIG_EN)].

End VocabularyPower.

(** The commands for which sdhci_cmd_complete also waits for the end of
    the transfer. *)
Definition awaits_transfer {H : sdhci_h} (cmd : mmc_command) : bool :=
  nonzero (data_present cmd) || (cmd_index cmd =? SDHCI_SWITCH_CMD).

Section VocabularyIssue.

Context {H : sdhci_h}.

Definition argument_reg (host : sdhci_host) : Z := u32 (base host + SDHCI_ARGUMENT_REG).
Definition cmd_reg (host : sdhci_host) : Z := u32 (base host + SDHCI_CMD_REG).

(** The flags sdhci_send_command builds for the response selector [rt]. *)
Definition cmd_flags (cmd : mmc_command) (rt : Z) : Z :=
  let flags := u32 (Z.shiftl rt SDHCI_CMD_RESP_TYPE_SEL_BIT) in
  let flags := u32 (Z.lor flags (Z.shiftl (data_present cmd) SDHCI_CMD_DATA_PRESENT_BIT)) in
  u32 (Z.lor flags (Z.shiftl (cmd_type cmd) SDHCI_CMD_CMD_TYPE_BIT)).

End VocabularyIssue.
(** ** Reasoning about runs *)

Lemma writes_app t1 t2 : writes (t1 ++ t2) = writes t1 ++ writes t2.
Proof. apply List.filter_app. Qed.

Lemma frees_app t1 t2 : frees (t1 ++ t2) = frees t1 ++ frees t2.
Proof. apply List.flat_map_app. Qed.

Lemma wrap_small bits x : 0 <= x < 2 ^ bits -> wrap bits x = x.
Proof. intros Hx. unfold wrap. apply Z.mod_small. exact Hx. Qed.

Lemma wrap_range bits x : 0 <= bits -> 0 <= wrap bits x < 2 ^ bits.
Proof. intros Hb. unfold wrap. apply Z.mod_pos_bound. apply Z.pow_pos_nonneg; lia. Qed.

Ltac run_step :=
  unfold REG_READ8, REG_READ16, REG_READ32, REG_WRITE8, REG_WRITE16, REG_WRITE32,
    mmio_read, mmio_write, dprintf, udelay, act, bind, ret; simpl.

Section ClockManager.

Context {H : sdhci_h}.

Lemma wait_clk_stable_done host k :
  forall fuel w,
    stable_at host w (reads w + k) = true -> (k < fuel)%nat ->
    exists w', wait_clk_stable fuel host w = Done tt w'
               /\ dev w' = dev w /\ heap w' = heap w
               /\ writes (trace w') = writes (trace w)
               /\ (reads w < reads w')%nat.
Proof.
  induction k as [|k IH]; intros fuel w Hst Hf.
  - destruct fuel as [|n]; [lia|]. simpl. run_step.
    rewrite Nat.add_0_r in Hst. unfold stable_at, clk_reg, u16 in Hst.
    rewrite Hst. eexists. split; [reflexivity|]. simpl.
    rewrite writes_app. simpl. rewrite app_nil_r. repeat split; lia.
  - destruct fuel as [|n]; [lia|]. simpl. run_step.
    destruct (nonzero _) eqn:Hnow.
    + eexists. split; [reflexivity|]. simpl.
      rewrite writes_app. simpl. rewrite app_nil_r. repeat split; lia.
    + set (w1 := emit _ (tick w)).
      destruct (IH n w1) as (w' & Hrun & Hd & Hh & Hw & Hr).
      * unfold w1, stable_at in *. simpl.
        replace (S (reads w + k))%nat with (reads w + S k)%nat by lia.
        exact Hst.
      * lia.
      * exists w'. split; [exact Hrun|]. unfold w1 in *. simpl in *.
        rewrite writes_app in Hw. simpl in Hw. rewrite app_nil_r in Hw.
        repeat split; try assumption; lia.
Qed.

(** What the tail of sdhci_clk_supply does once the controller reports a
    stable clock: two writes to the clock control register, the first one
    carrying the divider, and the achieved rate stored in the host. *)
Lemma clk_ctrl_done fuel host div freq w k :
  stable_at host w (reads w + k) = true -> (k < fuel)%nat ->
  exists w' v,
    clk_ctrl fuel host div freq w = Done (0, set_cur_clk_rate host freq) w'
    /\ writes (trace w') =
         writes (trace w) ++ [EvWrite 16 (clk_reg host) (clk_ctrl_val div);
                              EvWrite 16 (clk_reg host) v]
    /\ Z.land v SDHCI_CLK_EN = u16 SDHCI_CLK_EN.
Proof.
  intros Hst Hf. unfold clk_ctrl.
  set (w1 := emit (EvWrite 16 (clk_reg host) (wrap 16 (clk_ctrl_val div))) w).
  destruct (wait_clk_stable_done host k fuel w1) as (w2 & Hrun & Hd & Hh & Hw & Hr);
    [exact Hst | exact Hf |].
  run_step. fold (clk_reg host). fold w1. rewrite Hrun.
  eexists. eexists. split; [reflexivity|]. simpl.
  rewrite !writes_app, Hw. unfold w1. simpl. rewrite writes_app. simpl.
  rewrite app_nil_r, <- app_assoc. simpl.
  assert (Hcv : wrap 16 (clk_ctrl_val div) = clk_ctrl_val div).
  { unfold clk_ctrl_val, u16. unfold wrap. rewrite Z.mod_mod; [reflexivity|lia]. }
  rewrite Hcv. split; [reflexivity|].
  unfold u16, wrap. rewrite Z.mod_mod by lia.
  rewrite <- !Z.land_ones by lia.
  apply Z.bits_inj'. intros n Hn.
  rewrite !Z.land_spec, Z.lor_spec.
  destruct (Z.testbit SDHCI_CLK_EN n), (Z.testbit (Z.ones 16) n);
    simpl; rewrite ?orb_true_r, ?andb_false_r; reflexivity.
Qed.

Lemma even_next d : Z.even (d + 2) = Z.even d.
Proof. rewrite Z.even_add. destruct (Z.even d); reflexivity. Qed.

Lemma even_gap a b : Z.even a = true -> Z.even b = true -> a < b -> a + 2 <= b.
Proof.
  intros Ha Hb Hlt. apply Z.even_spec in Ha, Hb.
  destruct Ha as [x ->], Hb as [y ->]. lia.
Qed.

Lemma clk_div_scan_first_fit base_rate clk d :
  SDHCI_CLK_MAX_DIV < 2 ^ 32 ->
  Z.even d = true -> d < SDHCI_CLK_MAX_DIV -> base_rate / d <= clk ->
  forall fuel div freq,
    Z.even div = true -> 2 <= div <= d ->
    (forall d', Z.even d' = true -> div <= d' < d -> clk < base_rate / d') ->
    d - div < 2 * Z.of_nat fuel ->
    clk_div_scan fuel base_rate clk div freq = Some (d, base_rate / d).
Proof.
  intros Hmax Hd Hdmax Hfit. induction fuel as [|n IH]; intros div freq Hev Hrange Hbelow Hfuel.
  - lia.
  - simpl. assert (Hlt : (div <? SDHCI_CLK_MAX_DIV) = true) by (apply Z.ltb_lt; lia).
    rewrite Hlt. destruct (Z.eq_dec div d) as [->|Hne].
    + assert (Hle : (base_rate / d <=? clk) = true) by (apply Z.leb_le; exact Hfit).
      rewrite Hle. reflexivity.
    + assert (Hgap : div + 2 <= d) by (apply even_gap; [assumption..|lia]).
      assert (Hgt : (base_rate / div <=? clk) = false).
      { apply Z.leb_gt. apply Hbelow; [exact Hev|lia]. }
      rewrite Hgt. unfold u32. rewrite wrap_small by lia.
      apply IH.
      * rewrite even_next. exact Hev.
      * lia.
      * intros d' Hd' Hr. apply Hbelow; [exact Hd'|lia].
      * lia.
Qed.

Lemma clk_div_scan_exhausted base_rate clk :
  SDHCI_CLK_MAX_DIV < 2 ^ 32 -> Z.even SDHCI_CLK_MAX_DIV = true ->
  (forall d', Z.even d' = true -> 2 <= d' < SDHCI_CLK_MAX_DIV -> clk < base_rate / d') ->
  forall fuel div freq,
    Z.even div = true -> 2 <= div <= SDHCI_CLK_MAX_DIV ->
    (div = SDHCI_CLK_MAX_DIV -> freq = base_rate / (SDHCI_CLK_MAX_DIV - 2)) ->
    SDHCI_CLK_MAX_DIV - div < 2 * Z.of_nat fuel ->
    clk_div_scan fuel base_rate clk div freq
    = Some (SDHCI_CLK_MAX_DIV, base_rate / (SDHCI_CLK_MAX_DIV - 2)).
Proof.
  intros Hmax Hmev Hnone. induction fuel as [|n IH]; intros div freq Hev Hrange Hfreq Hfuel.
  - lia.
  - simpl. destruct (div <? SDHCI_CLK_MAX_DIV) eqn:Hlt.
    + apply Z.ltb_lt in Hlt.
      assert (Hgap : div + 2 <= SDHCI_CLK_MAX_DIV) by (apply even_gap; assumption).
      assert (Hgt : (base_rate / div <=? clk) = false).
      { apply Z.leb_gt. apply Hnone; [exact Hev|lia]. }
      rewrite Hgt. unfold u32. rewrite wrap_small by lia.
      apply IH.
      * rewrite even_next. exact Hev.
      * lia.
      * intros Heq. f_equal. lia.
      * lia.
    + apply Z.ltb_ge in Hlt. assert (div = SDHCI_CLK_MAX_DIV) as Heq by lia.
      rewrite (Hfreq Heq), Heq. reflexivity.
Qed.

(** When the target equals the base clock rate the divider search is
    skipped: [div] and [freq] keep their initial value 0, so the divider
    field is programmed with 0 and 0 is stored as the current rate. *)
Lemma clk_supply_bypass fuel host w k :
  stable_at host w (reads w + k) = true -> (k < fuel)%nat ->
  exists w' v,
    sdhci_clk_supply fuel host (base_clk_rate (caps host)) w
    = Done (0, set_cur_clk_rate host 0) w'
    /\ writes (trace w') =
         writes (trace w) ++ [EvWrite 16 (clk_reg host) (clk_ctrl_val 0);
                              EvWrite 16 (clk_reg host) v].
Proof.
  intros Hst Hf. unfold sdhci_clk_supply.
  rewrite Z.ltb_irrefl, Z.eqb_refl.
  destruct (clk_ctrl_done fuel host 0 0 w k Hst Hf) as (w' & v & Hrun & Hw & _).
  exists w', v. split; assumption.
Qed.

(** C5: a target above the base clock rate is refused: the call returns 1
    after logging that the frequency is not supported, the host (and so its
    recorded clock rate) is returned as it was, and the only thing added to
    the trace is the log line, so no register is read or written. *)
Theorem clk_supply_unsupported fuel host clk w :
  base_clk_rate (caps host) < clk ->
  sdhci_clk_supply fuel host clk w
  = Done (1, host) (emit (EvDprintf "Error: Requested clk freq is more than supported") w).
Proof.
  intros Hgt. unfold sdhci_clk_supply.
  apply Z.ltb_lt in Hgt. rewrite Hgt. reflexivity.
Qed.

(** The divider the call selects, when one is known to be the first fit. *)
Lemma clk_supply_selects fuel host clk d w k :
  SDHCI_CLK_MAX_DIV < 2 ^ 32 ->
  clk < base_clk_rate (caps host) ->
  first_fit (base_clk_rate (caps host)) clk d ->
  stable_at host w (reads w + k) = true ->
  (k < fuel)%nat -> d < 2 * Z.of_nat fuel ->
  exists w' v,
    sdhci_clk_supply fuel host clk w
    = Done (0, set_cur_clk_rate host (base_clk_rate (caps host) / d)) w'
    /\ writes (trace w') =
         writes (trace w) ++ [EvWrite 16 (clk_reg host) (clk_ctrl_val (Z.shiftr d 1));
                              EvWrite 16 (clk_reg host) v]
    /\ Z.land v SDHCI_CLK_EN = u16 SDHCI_CLK_EN.
Proof.
  intros Hmax Hlt (Hev & Hrange & Hfit & Hfirst) Hst Hk Hfuel.
  unfold sdhci_clk_supply.
  assert (Hn1 : (base_clk_rate (caps host) <? clk) = false) by (apply Z.ltb_ge; lia).
  assert (Hn2 : (clk =? base_clk_rate (caps host)) = false) by (apply Z.eqb_neq; lia).
  rewrite Hn1, Hn2.
  rewrite (clk_div_scan_first_fit (base_clk_rate (caps host)) clk d Hmax Hev
             (proj2 Hrange) Hfit fuel 2 0); [| reflexivity | lia | | lia].
  - apply (clk_ctrl_done fuel host _ _ w k Hst Hk).
  - intros d' Hd' Hr. apply Hfirst; [exact Hd'|lia].
Qed.

(** Among the scanned dividers, a sufficient one yields a first sufficient
    one. *)
Lemma first_fit_search base_rate clk d0 :
  Z.even d0 = true -> 2 <= d0 < SDHCI_CLK_MAX_DIV ->
  forall j : nat,
    2 + 2 * Z.of_nat j <= d0 + 2 ->
    (forall d', Z.even d' = true -> 2 <= d' < 2 + 2 * Z.of_nat j -> clk < base_rate / d')
    \/ (exists d, first_fit base_rate clk d /\ d <= d0).
Proof.
  intros Hev Hrange. induction j as [|j IH]; intros Hj.
  - left. intros d' _ Hd'. lia.
  - destruct IH as [Hnone | Hsome]; [lia | | right; exact Hsome].
    destruct (Z_le_dec (base_rate / (2 + 2 * Z.of_nat j)) clk) as [Hfit | Hnot].
    + right. exists (2 + 2 * Z.of_nat j). split; [|lia].
      split; [|split; [lia | split; [exact Hfit | exact Hnone]]].
      rewrite Z.even_add, Z.even_mul. reflexivity.
    + left. intros d' Hd' Hr.
      destruct (Z_lt_dec d' (2 + 2 * Z.of_nat j)) as [Hlt | Hge].
      * apply Hnone; [exact Hd' | lia].
      * assert (d' = 2 + 2 * Z.of_nat j) as ->.
        { apply Z.even_spec in Hd'. destruct Hd' as [x ->]. lia. }
        lia.
Qed.

Lemma first_fit_exists base_rate clk d0 :
  Z.even d0 = true -> 2 <= d0 < SDHCI_CLK_MAX_DIV -> base_rate / d0 <= clk ->
  exists d, first_fit base_rate clk d /\ d <= d0.
Proof.
  intros Hev Hrange Hfit.
  assert (Hd0 : exists x, d0 = 2 * x) by (apply Z.even_spec; exact Hev).
  destruct Hd0 as [x ->].
  destruct (first_fit_search base_rate clk (2 * x) Hev Hrange (Z.to_nat x)) as [Hnone | Hsome].
  - lia.
  - exfalso. assert (clk < base_rate / (2 * x)) by (apply Hnone; [exact Hev | lia]). lia.
  - exact Hsome.
Qed.

(** C7: for a target below the base clock rate for which some divider [d0]
    of the scan 2, 4, 6, ... below SDHCI_CLK_MAX_DIV suffices
    (base / d0 <= target), the call succeeds with the first such divider
    [d] of the ascending scan, which is the smallest one: no smaller even
    divider suffices.  The clock control register is programmed from
    d >> 1 and base / d is stored as the current rate. *)
Theorem clk_supply_first_fit fuel host clk d0 w k :
  SDHCI_CLK_MAX_DIV < 2 ^ 32 ->
  clk < base_clk_rate (caps host) ->
  Z.even d0 = true -> 2 <= d0 < SDHCI_CLK_MAX_DIV ->
  base_clk_rate (caps host) / d0 <= clk ->
  stable_at host w (reads w + k) = true ->
  (k < fuel)%nat -> d0 < 2 * Z.of_nat fuel ->
  exists d w' v,
    first_fit (base_clk_rate (caps host)) clk d /\ d <= d0
    /\ sdhci_clk_supply fuel host clk w
       = Done (0, set_cur_clk_rate host (base_clk_rate (caps host) / d)) w'
    /\ writes (trace w') =
         writes (trace w) ++ [EvWrite 16 (clk_reg host) (clk_ctrl_val (Z.shiftr d 1));
                              EvWrite 16 (clk_reg host) v]
    /\ Z.land v SDHCI_CLK_EN = u16 SDHCI_CLK_EN.
Proof.
  intros Hmax Hlt Hev Hrange Hfit Hst Hk Hfuel.
  destruct (first_fit_exists (base_clk_rate (caps host)) clk d0 Hev Hrange Hfit)
    as (d & Hfirst & Hle).
  destruct (clk_supply_selects fuel host clk d w k Hmax Hlt Hfirst Hst Hk ltac:(lia))
    as (w' & v & Hrun & Hw & Hen).
  exists d, w', v. repeat split; try assumption; apply Hfirst.
Qed.

(** The value sdhci_clk_supply computes for the clock control register,
    with its 16 and 32 bit intermediate results, is the encoding of the
    specification. *)
Lemma clk_ctrl_val_encoding div : clk_ctrl_val div = divider_encoding div.
Proof.
  unfold clk_ctrl_val, divider_encoding, u16, u32, wrap.
  apply Z.bits_inj'. intros n Hn.
  repeat (rewrite ?Z.testbit_mod_pow2, ?Z.lor_spec by lia).
  destruct (n <? 16) eqn:H16; [|reflexivity].
  assert (H32 : (n <? 32) = true) by (apply Z.ltb_lt; apply Z.ltb_lt in H16; lia).
  rewrite H32. reflexivity.
Qed.

(** C10: when no even divider below SDHCI_CLK_MAX_DIV (an even constant)
    brings the rate down to the target, the call still succeeds: the scan
    runs to its end, the clock control register is programmed with the
    encoding of the value [div] has at loop exit, shifted right by one,
    and the host that comes back has as its current clock rate the rate of
    the last divider tried, base / (SDHCI_CLK_MAX_DIV - 2), which is above
    the target; its base address and capabilities are as before.  The
    second write to the clock control register has the clock enable bit
    set. *)
Theorem clk_supply_scan_exhausted fuel host clk w k :
  4 <= SDHCI_CLK_MAX_DIV < 2 ^ 32 -> Z.even SDHCI_CLK_MAX_DIV = true ->
  0 <= base_clk_rate (caps host) ->
  (forall d', Z.even d' = true -> 2 <= d' < SDHCI_CLK_MAX_DIV ->
              clk < base_clk_rate (caps host) / d') ->
  stable_at host w (reads w + k) = true ->
  (k < fuel)%nat -> SDHCI_CLK_MAX_DIV < 2 * Z.of_nat fuel ->
  exists host' w' v,
    sdhci_clk_supply fuel host clk w = Done (0, host') w'
    /\ cur_clk_rate host' = base_clk_rate (caps host) / (SDHCI_CLK_MAX_DIV - 2)
    /\ base host' = base host /\ caps host' = caps host
    /\ writes (trace w') =
         writes (trace w)
         ++ [EvWrite 16 (clk_reg host) (divider_encoding (Z.shiftr SDHCI_CLK_MAX_DIV 1));
             EvWrite 16 (clk_reg host) v]
    /\ Z.land v SDHCI_CLK_EN = u16 SDHCI_CLK_EN
    /\ clk < base_clk_rate (caps host) / (SDHCI_CLK_MAX_DIV - 2).
Proof.
  intros Hmax Hmev Hbase Hnone Hst Hk Hfuel.
  assert (Hhalf : clk < base_clk_rate (caps host) / 2) by (apply Hnone; [reflexivity|lia]).
  assert (Hle : base_clk_rate (caps host) / 2 <= base_clk_rate (caps host)).
  { apply Z.div_le_upper_bound; lia. }
  assert (Hlast : clk < base_clk_rate (caps host) / (SDHCI_CLK_MAX_DIV - 2)).
  { apply Hnone; [|lia].
    replace (SDHCI_CLK_MAX_DIV - 2) with (SDHCI_CLK_MAX_DIV + (-2)) by lia.
    rewrite Z.even_add, Hmev. reflexivity. }
  unfold sdhci_clk_supply.
  assert (Hn1 : (base_clk_rate (caps host) <? clk) = false) by (apply Z.ltb_ge; lia).
  assert (Hn2 : (clk =? base_clk_rate (caps host)) = false) by (apply Z.eqb_neq; lia).
  rewrite Hn1, Hn2.
  rewrite (clk_div_scan_exhausted (base_clk_rate (caps host)) clk (proj2 Hmax) Hmev Hnone
             fuel 2 0); [| reflexivity | lia | lia | lia].
  destruct (clk_ctrl_done fuel host (Z.shiftr SDHCI_CLK_MAX_DIV 1)
              (base_clk_rate (caps host) / (SDHCI_CLK_MAX_DIV - 2)) w k Hst Hk)
    as (w' & v & Hrun & Hw & Hen).
  exists (set_cur_clk_rate host (base_clk_rate (caps host) / (SDHCI_CLK_MAX_DIV - 2))), w', v.
  split; [exact Hrun|]. split; [reflexivity|]. split; [reflexivity|].
  split; [reflexivity|]. rewrite <- clk_ctrl_val_encoding.
  split; [exact Hw|]. split; assumption.
Qed.

End ClockManager.

(** *** Instances of the clock manager results *)

Lemma clk_supply_unsupported_witness :
  sdhci_clk_supply (H := sdhci_v3 65535 10 10) 1 host200 300000000
    (fresh_world (fun _ _ => 0) [])
  = Done (1, host200)
      (emit (EvDprintf "Error: Requested clk freq is more than supported")
         (fresh_world (fun _ _ => 0) [])).
Proof. apply (clk_supply_unsupported (H := sdhci_v3 65535 10 10)). simpl. lia. Defined.

Lemma clk_supply_first_fit_witness :
  exists d w' v,
    first_fit (H := sdhci_v3 65535 10 10) 200000000 400000 d /\ d <= 2000
    /\ sdhci_clk_supply (H := sdhci_v3 65535 10 10) 1001 host200 400000
         (fresh_world (fun _ _ => 2) [])
       = Done (0, set_cur_clk_rate host200 (200000000 / d)) w'
    /\ writes (trace w') =
         [] ++ [EvWrite 16 0x1002C (clk_ctrl_val (H := sdhci_v3 65535 10 10) (Z.shiftr d 1));
                EvWrite 16 0x1002C v]
    /\ Z.land v 4 = 4.
Proof.
  apply (clk_supply_first_fit (H := sdhci_v3 65535 10 10) 1001 host200 400000 2000
           (fresh_world (fun _ _ => 2) []) 0%nat).
  - simpl. lia.
  - simpl. lia.
  - reflexivity.
  - simpl. lia.
  - vm_compute. discriminate.
  - reflexivity.
  - lia.
  - lia.
Defined.

(** The divider chosen for a 400 kHz target on a 200 MHz base clock is 500;
    the register value carries 250 = 0xFA in its divider field. *)
Example clk_supply_400kHz :
  let run := sdhci_clk_supply (H := sdhci_v3 65535 10 10) 300 host200 400000
               (fresh_world (fun _ _ => 2) []) in
  returned run = Some (0, set_cur_clk_rate host200 400000)
  /\ writes (final_trace run) = [EvWrite 16 0x1002C 0xFA01; EvWrite 16 0x1002C 6].
Proof. cbv zeta. split; vm_compute; reflexivity. Qed.

(** First fit is not best fit: for a 190 MHz target the scan stops at
    divider 2 and the clock runs at 100 MHz, although the undivided 200 MHz
    is nearer to the target. *)
Example clk_supply_first_fit_not_closest :
  returned (sdhci_clk_supply (H := sdhci_v3 65535 10 10) 10 host200 190000000
              (fresh_world (fun _ _ => 2) []))
  = Some (0, set_cur_clk_rate host200 100000000)
  /\ Z.abs (200000000 - 190000000) < Z.abs (100000000 - 190000000).
Proof. split; [vm_compute; reflexivity | lia]. Qed.

Lemma clk_supply_scan_exhausted_witness :
  exists host' w' v,
    sdhci_clk_supply (H := sdhci_v3 65535 10 10) 1100 host200 97000
      (fresh_world (fun _ _ => 2) [])
    = Done (0, host') w'
    /\ cur_clk_rate host' = 200000000 / (2046 - 2)
    /\ base host' = base host200 /\ caps host' = caps host200
    /\ writes (trace w') =
         [] ++ [EvWrite 16 0x1002C
                  (divider_encoding (H := sdhci_v3 65535 10 10) (Z.shiftr 2046 1));
                EvWrite 16 0x1002C v]
    /\ Z.land v 4 = u16 4
    /\ 97000 < 200000000 / (2046 - 2).
Proof.
  apply (clk_supply_scan_exhausted (H := sdhci_v3 65535 10 10) 1100 host200 97000
           (fresh_world (fun _ _ => 2) []) 0%nat).
  - simpl. lia.
  - reflexivity.
  - simpl. lia.
  - intros d' _ Hr. simpl in *. apply Z.lt_le_trans with 97001; [lia|].
    apply Z.div_le_lower_bound; lia.
  - reflexivity.
  - lia.
  - simpl. lia.
Defined.

(** The same request evaluated: divider field 1023, that is 0xFF in the
    frequency select field and 3 in the upper bits, with the internal
    clock enabled; 97847 Hz recorded. *)
Example clk_supply_scan_exhausted_values :
  let run := sdhci_clk_supply (H := sdhci_v3 65535 10 10) 1100 host200 97000
               (fresh_world (fun _ _ => 2) []) in
  (cur_clk_rate <$> (snd <$> returned run)) = Some 97847
  /\ writes (final_trace run) = [EvWrite 16 0x1002C 0xFFC1; EvWrite 16 0x1002C 6].
Proof. cbv zeta. split; vm_compute; reflexivity. Qed.

(** C8: the failing input.  The host has a 200 MHz base clock and 200 MHz
    is requested; the controller reports a stable clock at once.  The call
    returns 0, the divider field written is 0 ([div] is never set to 1), and
    the rate recorded in the host is 0 instead of 200 MHz, because [freq]
    is only assigned inside the divider search that this path skips. *)
Theorem clk_supply_base_rate_records_zero :
  let run := sdhci_clk_supply (H := sdhci_v3 65535 10 10) 10 host200 200000000
               (fresh_world (fun _ _ => 2) []) in
  returned run = Some (0, set_cur_clk_rate host200 0)
  /\ writes (final_trace run) = [EvWrite 16 0x1002C 1; EvWrite 16 0x1002C 6]
  /\ cur_clk_rate (set_cur_clk_rate host200 0) <> base_clk_rate (caps host200).
Proof.
  cbv zeta. split; [vm_compute; reflexivity|]. split; [vm_compute; reflexivity|].
  simpl. lia.
Qed.

(** ** Bus width *)

Section BusWidth.

Context {H : sdhci_h}.

Lemma land_absorb_u8 raw pat :
  Z.land (wrap 8 (Z.lor (wrap 8 raw) pat)) (wrap 8 raw) = wrap 8 raw.
Proof.
  unfold wrap. rewrite <- !Z.land_ones by lia.
  apply Z.bits_inj'. intros n Hn.
  rewrite !Z.land_spec, Z.lor_spec, !Z.land_spec.
  destruct (Z.testbit raw n), (Z.testbit (Z.ones 8) n), (Z.testbit pat n); reflexivity.
Qed.

(** C9: sdhci_set_bus_width reads host control 1 once.  For a width that
    is none of DATA_BUS_WIDTH_8BIT, DATA_BUS_WIDTH_4BIT, DATA_BUS_WIDTH_1BIT
    it logs the invalid width and returns 1 without writing any register.
    For a recognised width it returns 0 after one write to host control 1
    of the value read OR-ed with the mapped pattern, so that every bit that
    was set in the register is still set in the value written. *)
Theorem set_bus_width_spec host width w :
  let reg := wrap 8 (dev w (reads w) (ctrl1_reg host)) in
  let w1 := emit (EvRead 8 (ctrl1_reg host) reg) (tick w) in
  (width <> DATA_BUS_WIDTH_8BIT -> width <> DATA_BUS_WIDTH_4BIT ->
   width <> DATA_BUS_WIDTH_1BIT ->
   sdhci_set_bus_width host width w
   = Done 1 (emit (EvDprintf "Bus width is invalid: %u") w1)
   /\ writes (trace (emit (EvDprintf "Bus width is invalid: %u") w1)) = writes (trace w))
  /\ (forall pattern, bus_width_pattern width = Some pattern ->
      exists v,
        sdhci_set_bus_width host width w = Done 0 (emit (EvWrite 8 (ctrl1_reg host) v) w1)
        /\ v = u8 (Z.lor reg (u16 pattern))
        /\ Z.land v reg = reg).
Proof.
  intros reg w1. split.
  - intros H8 H4 H1. apply Z.eqb_neq in H8, H4, H1. unfold sdhci_set_bus_width.
    run_step. fold (ctrl1_reg host). fold reg. fold w1.
    rewrite H8, H4, H1.
    split; [reflexivity|]. simpl. rewrite !writes_app. simpl. rewrite !app_nil_r. reflexivity.
  - intros pattern Hsome. unfold bus_width_pattern in Hsome. unfold sdhci_set_bus_width.
    run_step. fold (ctrl1_reg host). fold reg. fold w1.
    exists (u8 (Z.lor reg (u16 pattern))).
    split; [|split; [reflexivity|apply land_absorb_u8]].
    destruct (width =? DATA_BUS_WIDTH_8BIT); [injection Hsome as <-; reflexivity|].
    destruct (width =? DATA_BUS_WIDTH_4BIT); [injection Hsome as <-; reflexivity|].
    destruct (width =? DATA_BUS_WIDTH_1BIT); [injection Hsome as <-; reflexivity|].
    discriminate.
Qed.

End BusWidth.

Lemma set_bus_width_spec_witness :
  sdhci_set_bus_width (H := sdhci_v3 65535 10 10) host200 7 (fresh_world (fun _ _ => 0x10) [])
  = Done 1 (emit (EvDprintf "Bus width is invalid: %u")
              (emit (EvRead 8 0x10028 0x10) (tick (fresh_world (fun _ _ => 0x10) []))))
  /\ exists v,
      sdhci_set_bus_width (H := sdhci_v3 65535 10 10) host200 2
        (fresh_world (fun _ _ => 0x10) [])
      = Done 0 (emit (EvWrite 8 0x10028 v)
                  (emit (EvRead 8 0x10028 0x10) (tick (fresh_world (fun _ _ => 0x10) []))))
      /\ v = 0x30 /\ Z.land v 0x10 = 0x10.
Proof.
  split.
  - apply (proj1 (set_bus_width_spec (H := sdhci_v3 65535 10 10) host200 7
                    (fresh_world (fun _ _ => 0x10) []))); simpl; lia.
  - apply (proj2 (set_bus_width_spec (H := sdhci_v3 65535 10 10) host200 2
                    (fresh_world (fun _ _ => 0x10) [])) 32).
    reflexivity.
Defined.

(** ** Response decoding *)

Section Response.

Context {H : sdhci_h}.

(** C6 (as amended): for an R2 response whose four registers read R0 .. R3,
    the copy loop leaves [resp] equal to [r2_response R0 R1 R2 R3]: word 0
    is R0 shifted left by eight bits within 32 bits, so its low byte is
    zero, and each later word is its register shifted left by eight bits
    OR-ed with the top eight bits of the previous register.  No register is
    written. *)
Theorem r2_response_assembly host cmd w R0 R1 R2 R3 :
  resp_type cmd = SDHCI_CMD_RESP_R2 ->
  SDHCI_RESP_LSHIFT = 8 -> SDHCI_RESP_RSHIFT = 24 ->
  length (resp cmd) = 4%nat ->
  resp_regs_hold host w R0 R1 R2 R3 ->
  exists w',
    copy_response host cmd w = Done (set_resp cmd (r2_response R0 R1 R2 R3)) w'
    /\ writes (trace w') = writes (trace w)
    /\ Z.land (u32 (Z.shiftl R0 8)) 0xFF = 0.
Proof.
  intros Hty Hl Hr Hlen Hregs.
  destruct (resp cmd) as [|a [|b [|c [|d [|? ?]]]]] eqn:Hresp; try discriminate.
  unfold copy_response. rewrite Hty, Z.eqb_refl, Hresp.
  unfold copy_resp_loop, copy_resp_word. run_step. rewrite Hl, Hr.
  unfold resp_regs_hold, resp_reg in Hregs.
  change ((1 - 1) * 4) with (0 * 4). change ((2 - 1) * 4) with (1 * 4).
  change ((3 - 1) * 4) with (2 * 4).
  repeat match goal with
         | |- context [wrap 32 (dev w ?n ?a)] =>
             first [ rewrite (proj1 (Hregs n))
                   | rewrite (proj1 (proj2 (Hregs n)))
                   | rewrite (proj1 (proj2 (proj2 (Hregs n))))
                   | rewrite (proj2 (proj2 (proj2 (Hregs n)))) ]
         end.
  eexists. split; [reflexivity|]. split.
  - simpl. rewrite !writes_app. simpl. rewrite !app_nil_r. reflexivity.
  - unfold u32, wrap. rewrite <- Z.land_ones by lia.
    apply Z.bits_inj'. intros n Hn.
    rewrite !Z.land_spec, Z.bits_0.
    destruct (Z_lt_dec n 8) as [Hlt|Hge].
    + rewrite Z.shiftl_spec_low by lia. reflexivity.
    + change 255 with (Z.ones 8). rewrite (Z.ones_spec_high 8) by lia.
      apply andb_false_r.
Qed.

End Response.

Lemma r2_response_assembly_witness :
  exists w',
    copy_response (H := sdhci_v3 65535 10 10) host200 cmd_r2 (fresh_world resp_vector_dev [])
    = Done (set_resp cmd_r2 [0x22334400; 0x66778811; 0xAABBCC55; 0xEEFF0099]) w'
    /\ writes (trace w') = []
    /\ Z.land 0x22334400 0xFF = 0.
Proof.
  apply (r2_response_assembly (H := sdhci_v3 65535 10 10) host200 cmd_r2
           (fresh_world resp_vector_dev []) 0x11223344 0x55667788 0x99AABBCC 0xDDEEFF00).
  - reflexivity.
  - reflexivity.
  - reflexivity.
  - reflexivity.
  - intros n. vm_compute. repeat split.
Defined.

(** C6 as the specification words it, refuted on the vector 0x11223344,
    0x55667788, 0x99AABBCC, 0xDDEEFF00: the copy loop leaves 0x22334400 in
    word 0, not R0 itself, and the low byte of that word is 0, not the low
    byte 0x44 of R0. *)
Lemma r2_response_low_word_shifted :
  let run := copy_response (H := sdhci_v3 65535 10 10) host200 cmd_r2
               (fresh_world resp_vector_dev []) in
  (resp <$> returned run) = Some [0x22334400; 0x66778811; 0xAABBCC55; 0xEEFF0099]
  /\ (resp <$> returned run)
     <> Some (spec_r2_response 0x11223344 0x55667788 0x99AABBCC 0xDDEEFF00)
  /\ (forall r, (resp <$> returned run) = Some r ->
                Z.land (r !!! 0%nat) 0xFF <> Z.land 0x11223344 0xFF).
Proof.
  cbv zeta. split; [vm_compute; reflexivity|]. split.
  - vm_compute. discriminate.
  - intros r Hr. vm_compute in Hr. injection Hr as <-. vm_compute. discriminate.
Qed.

(** ** The ADMA descriptor builder *)

Lemma u32_add_idemp a b : u32 (u32 a + b) = u32 (a + b).
Proof. unfold u32, wrap. apply Zplus_mod_idemp_l. Qed.

Lemma u32_idemp a : u32 (u32 a) = u32 a.
Proof. unfold u32, wrap. apply Z.mod_mod. lia. Qed.

Lemma mk_desc_u32 att l a : mk_desc att l (u32 a) = mk_desc att l a.
Proof. unfold mk_desc. rewrite u32_idemp. reflexivity. Qed.

Lemma store_desc_ok p i e w blk :
  heap w !! p = Some blk -> (Z.to_nat i < length blk)%nat ->
  store_desc p i e w = Done tt (set_heap (<[p := <[Z.to_nat i := e]> blk]> (heap w)) w).
Proof.
  intros Hp Hi. unfold store_desc. rewrite Hp.
  apply Nat.ltb_lt in Hi. rewrite Hi. reflexivity.
Qed.

Section DescriptorBuilder.

Context {H : sdhci_h}.

Lemma fill_lines_length cnt : forall i data blk,
  length (fill_lines cnt i data blk) = length blk.
Proof.
  induction cnt as [|c IH]; intros i data blk; simpl; [reflexivity|].
  rewrite IH. apply length_insert.
Qed.

Lemma fill_lines_lookup cnt : forall i data blk (j : nat),
  0 <= i -> (Z.to_nat i + cnt <= length blk)%nat ->
  fill_lines cnt i data blk !! j
  = if decide (Z.to_nat i <= j < Z.to_nat i + cnt)%nat
    then Some (mk_desc att_data SDHCI_ADMA_DESC_LINE_SZ
                 (data + (Z.of_nat j - i) * SDHCI_ADMA_DESC_LINE_SZ))
    else blk !! j.
Proof.
  induction cnt as [|c IH]; intros i data blk j Hi Hlen; simpl.
  - case_decide; [lia | reflexivity].
  - rewrite IH; [| lia | rewrite length_insert; lia].
    replace (Z.to_nat (i + 1)) with (S (Z.to_nat i)) by lia.
    repeat case_decide; try lia.
    + f_equal. rewrite <- (mk_desc_u32 _ _ (u32 _ + _)), u32_add_idemp, mk_desc_u32.
      f_equal. lia.
    + assert (j = Z.to_nat i) as -> by lia.
      rewrite list_lookup_insert_eq by lia. f_equal. f_equal.
      rewrite Z2Nat.id by lia. ring.
    + apply list_lookup_insert_ne. lia.
Qed.

(** The fill loop run from index [i]: [cnt] rounds remain. *)
Lemma desc_fill_run p sg_len :
  0 <= sg_len - 1 < 2 ^ 32 ->
  forall cnt fuel i data sz blk w,
    0 <= i -> i + Z.of_nat cnt = sg_len - 1 -> (cnt < fuel)%nat ->
    heap w !! p = Some blk -> (Z.to_nat i + cnt < length blk)%nat ->
    exists data' sz',
      desc_fill fuel p sg_len i data sz w
      = Done (data', sz') (set_heap (<[p := fill_lines cnt i data blk]> (heap w)) w)
      /\ u32 data' = u32 (data + Z.of_nat cnt * SDHCI_ADMA_DESC_LINE_SZ)
      /\ (Z.of_nat cnt * SDHCI_ADMA_DESC_LINE_SZ <= sz < 2 ^ 32 ->
          0 <= SDHCI_ADMA_DESC_LINE_SZ ->
          sz' = sz - Z.of_nat cnt * SDHCI_ADMA_DESC_LINE_SZ).
Proof.
  intros Hsg. induction cnt as [|c IH]; intros fuel i data sz blk w Hi Hcnt Hf Hp Hlen.
  - destruct fuel as [|n]; [lia|]. simpl.
    unfold u32 at 1. rewrite wrap_small by lia.
    assert (Hge : (i <? sg_len - 1) = false) by (apply Z.ltb_ge; lia).
    rewrite Hge. exists data, sz. split; [|split].
    + unfold ret. f_equal. rewrite insert_id by exact Hp.
      destruct w; reflexivity.
    + f_equal. lia.
    + intros _ _. lia.
  - destruct fuel as [|n]; [lia|]. simpl.
    unfold u32 at 1. rewrite wrap_small by lia.
    assert (Hlt : (i <? sg_len - 1) = true) by (apply Z.ltb_lt; lia).
    rewrite Hlt. unfold bind at 1.
    rewrite (store_desc_ok p i _ w blk Hp) by lia.
    set (blk1 := <[Z.to_nat i := _]> blk).
    set (w1 := set_heap _ w).
    assert (Hi1 : u32 (i + 1) = i + 1) by (unfold u32; apply wrap_small; lia).
    rewrite Hi1.
    destruct (IH n (i + 1) (u32 (data + SDHCI_ADMA_DESC_LINE_SZ))
                (u32 (sz - SDHCI_ADMA_DESC_LINE_SZ)) blk1 w1)
      as (data' & sz' & Hrun & Hdata & Hsz).
    + lia.
    + lia.
    + lia.
    + unfold w1. simpl. apply lookup_insert_eq.
    + unfold blk1. rewrite length_insert. lia.
    + exists data', sz'. split; [|split].
      * rewrite Hrun. unfold w1. simpl. rewrite insert_insert_eq. reflexivity.
      * rewrite Hdata, u32_add_idemp. f_equal. rewrite Nat2Z.inj_succ. ring.
      * intros Hrange Hpos. rewrite Nat2Z.inj_succ in Hrange |- *.
        replace (Z.succ (Z.of_nat c) * SDHCI_ADMA_DESC_LINE_SZ)
          with (Z.of_nat c * SDHCI_ADMA_DESC_LINE_SZ + SDHCI_ADMA_DESC_LINE_SZ)
          in Hrange |- * by ring.
        assert (0 <= Z.of_nat c * SDHCI_ADMA_DESC_LINE_SZ) by (apply Z.mul_nonneg_nonneg; lia).
        assert (Hw : u32 (sz - SDHCI_ADMA_DESC_LINE_SZ) = sz - SDHCI_ADMA_DESC_LINE_SZ)
          by (unfold u32; apply wrap_small; lia).
        rewrite Hw in Hsz.
        rewrite Hsz; [lia | lia | exact Hpos].
Qed.

(** Arithmetic of the table size. *)
Lemma ceil_div_code L S :
  0 < S -> 0 <= L ->
  ceil_div L S = L / S + (if L - L / S * S =? 0 then 0 else 1).
Proof.
  intros HS HL. unfold ceil_div.
  pose proof (Z.div_mod L S ltac:(lia)) as Hdm.
  pose proof (Z.mod_pos_bound L S HS) as Hr.
  set (q := L / S) in *. set (r := L mod S) in *.
  replace (L - q * S) with r by lia.
  destruct (r =? 0) eqn:Hz.
  - apply Z.eqb_eq in Hz. symmetry. apply (Z.div_unique _ _ _ (S - 1)); lia.
  - apply Z.eqb_neq in Hz. symmetry. apply (Z.div_unique _ _ _ (r - 1)); lia.
Qed.

Lemma chain_len_facts L :
  0 < SDHCI_ADMA_DESC_LINE_SZ -> 0 <= L ->
  1 <= chain_len L
  /\ 0 <= L - (chain_len L - 1) * SDHCI_ADMA_DESC_LINE_SZ <= SDHCI_ADMA_DESC_LINE_SZ
  /\ (SDHCI_ADMA_DESC_LINE_SZ < L ->
      2 <= chain_len L
      /\ 0 < L - (chain_len L - 1) * SDHCI_ADMA_DESC_LINE_SZ
      /\ chain_len L <= L / SDHCI_ADMA_DESC_LINE_SZ + 1).
Proof.
  intros HS HL. unfold chain_len.
  destruct (L <=? SDHCI_ADMA_DESC_LINE_SZ) eqn:Hle.
  - apply Z.leb_le in Hle. lia.
  - apply Z.leb_gt in Hle. rewrite ceil_div_code by lia.
    assert (Hnz : SDHCI_ADMA_DESC_LINE_SZ <> 0) by lia.
    pose proof (Z.div_mod L SDHCI_ADMA_DESC_LINE_SZ Hnz) as Hdm.
    pose proof (Z.mod_pos_bound L SDHCI_ADMA_DESC_LINE_SZ HS) as Hr.
    set (q := L / SDHCI_ADMA_DESC_LINE_SZ) in *.
    set (r := L mod SDHCI_ADMA_DESC_LINE_SZ) in *.
    assert (Hq : 1 <= q) by (apply Z.div_le_lower_bound; lia).
    replace (L - q * SDHCI_ADMA_DESC_LINE_SZ) with r by lia.
    clearbody q r.
    destruct (r =? 0) eqn:Hz.
    + apply Z.eqb_eq in Hz.
      assert (2 <= q) by nia.
      replace ((q + 0 - 1) * SDHCI_ADMA_DESC_LINE_SZ)
        with (SDHCI_ADMA_DESC_LINE_SZ * q - SDHCI_ADMA_DESC_LINE_SZ) by ring.
      lia.
    + apply Z.eqb_neq in Hz.
      replace ((q + 1 - 1) * SDHCI_ADMA_DESC_LINE_SZ)
        with (SDHCI_ADMA_DESC_LINE_SZ * q) by ring.
      lia.
Qed.

(** The filled table with its last line stored is the chain of the
    specification. *)
Lemma filled_table_is_chain (n : nat) data last blk :
  (1 <= n)%nat -> length blk = n ->
  <[(n - 1)%nat := last]> (fill_lines (n - 1) 0 data blk)
  = ((fun i => mk_desc att_data SDHCI_ADMA_DESC_LINE_SZ (data + i * SDHCI_ADMA_DESC_LINE_SZ))
       <$> seqZ 0 (Z.of_nat n - 1))
    ++ [last].
Proof.
  intros Hn Hlen. apply list_eq. intros j.
  destruct (Nat.lt_trichotomy j (n - 1)) as [Hlt | [-> | Hgt]].
  - rewrite list_lookup_insert_ne by lia.
    rewrite fill_lines_lookup by (simpl; lia).
    rewrite lookup_app_l by (rewrite length_fmap, length_seqZ; lia).
    rewrite list_lookup_fmap, lookup_seqZ_lt by lia.
    case_decide; [|simpl in *; lia]. simpl. f_equal. f_equal. lia.
  - rewrite list_lookup_insert_eq by (rewrite fill_lines_length; lia).
    rewrite lookup_app_r by (rewrite length_fmap, length_seqZ; lia).
    rewrite length_fmap, length_seqZ.
    replace (n - 1 - Z.to_nat (Z.of_nat n - 1))%nat with 0%nat by lia. reflexivity.
  - rewrite list_lookup_insert_ne by lia.
    rewrite fill_lines_lookup by (simpl; lia).
    case_decide; [simpl in *; lia|].
    rewrite lookup_ge_None_2 by lia.
    symmetry. apply lookup_ge_None_2.
    rewrite length_app, length_fmap, length_seqZ. simpl. lia.
Qed.

Lemma memalign_ok boundary size w p ps :
  pool w = p :: ps -> p <> 0 ->
  memalign boundary size w
  = Done p (emit (EvMemalign size p)
              (set_heap (<[p := replicate (Z.to_nat (size / sizeof_desc_entry)) (garbage w)]>
                           (heap w))
                        (set_pool ps w))).
Proof.
  intros Hpool Hp. unfold memalign. rewrite Hpool.
  apply Z.eqb_neq in Hp. rewrite Hp. reflexivity.
Qed.

(** The builder leaves the chain of the specification at the address the
    allocator handed out. *)
Lemma prep_desc_table_run fuel data L w p ps :
  sizeof_desc_entry < SDHCI_ADMA_DESC_LINE_SZ ->
  0 <= L < 2 ^ 32 ->
  pool w = p :: ps -> p <> 0 ->
  L / SDHCI_ADMA_DESC_LINE_SZ < Z.of_nat fuel ->
  exists w',
    sdhci_prep_desc_table fuel data L w = Done p w'
    /\ heap w' = <[p := desc_chain data L]> (heap w)
    /\ writes (trace w') = writes (trace w)
    /\ pool w' = ps
    /\ frees (trace w') = frees (trace w).
Proof.
  intros HS HL Hpool Hp Hfuel. unfold sizeof_desc_entry in HS.
  assert (Hpos0 : 0 < SDHCI_ADMA_DESC_LINE_SZ) by lia.
  destruct (chain_len_facts L Hpos0 (proj1 HL)) as (Hn1 & Hlast & Hmulti).
  unfold sdhci_prep_desc_table, desc_chain. unfold chain_len in *.
  destruct (L <=? SDHCI_ADMA_DESC_LINE_SZ) eqn:Hle.
  - unfold bind at 1. rewrite (memalign_ok _ _ w p ps Hpool Hp).
    unfold check_alloc. apply Z.eqb_neq in Hp. rewrite Hp.
    unfold bind at 1. unfold ret at 1.
    unfold bind at 1.
    erewrite store_desc_ok; [| simpl; apply lookup_insert_eq | simpl; lia].
    unfold arch_clean_invalidate_cache_range. run_step.
    eexists. split; [reflexivity|]. simpl.
    rewrite insert_insert_eq. rewrite !writes_app, !frees_app. simpl. rewrite !app_nil_r.
    split; [|repeat split; reflexivity].
    change (1 - 1) with 0. rewrite Z.mul_0_l, Z.sub_0_r, Z.add_0_r. reflexivity.
  - apply Z.leb_gt in Hle. destruct (Hmulti Hle) as (Hn2 & Hlast0 & Hnq).
    clear Hmulti.
    assert (Hnz : SDHCI_ADMA_DESC_LINE_SZ <> 0) by lia.
    assert (Hpos : 0 < SDHCI_ADMA_DESC_LINE_SZ) by lia.
    pose proof (Z.div_mod L SDHCI_ADMA_DESC_LINE_SZ Hnz) as Hdm.
    pose proof (Z.mod_pos_bound L SDHCI_ADMA_DESC_LINE_SZ Hpos) as Hr.
    assert (Hqpos : 1 <= L / SDHCI_ADMA_DESC_LINE_SZ) by (apply Z.div_le_lower_bound; lia).
    assert (Hqub : L / SDHCI_ADMA_DESC_LINE_SZ * 9 <= L).
    { pose proof (Z.mul_div_le L SDHCI_ADMA_DESC_LINE_SZ Hpos). nia. }
    assert (Hw1 : u32 (L / SDHCI_ADMA_DESC_LINE_SZ * SDHCI_ADMA_DESC_LINE_SZ)
                  = L / SDHCI_ADMA_DESC_LINE_SZ * SDHCI_ADMA_DESC_LINE_SZ).
    { unfold u32. apply wrap_small. nia. }
    rewrite Hw1.
    assert (Hw2 : u32 (L - L / SDHCI_ADMA_DESC_LINE_SZ * SDHCI_ADMA_DESC_LINE_SZ)
                  = L - L / SDHCI_ADMA_DESC_LINE_SZ * SDHCI_ADMA_DESC_LINE_SZ).
    { unfold u32. apply wrap_small. nia. }
    rewrite Hw2.
    rewrite (ceil_div_code L SDHCI_ADMA_DESC_LINE_SZ) in * by lia.
    set (q := L / SDHCI_ADMA_DESC_LINE_SZ) in *.
    set (sg_len := if nonzero (L - q * SDHCI_ADMA_DESC_LINE_SZ) then u32 (q + 1) else q).
    assert (Hsg : sg_len = q + (if L - q * SDHCI_ADMA_DESC_LINE_SZ =? 0 then 0 else 1)).
    { unfold sg_len, nonzero.
      destruct (L - q * SDHCI_ADMA_DESC_LINE_SZ =? 0); simpl; [lia|].
      unfold u32. apply wrap_small. lia. }
    clearbody sg_len. rewrite <- Hsg in *. clear Hsg.
    assert (Htl : u32 (sg_len * sizeof_desc_entry) = sg_len * 8).
    { unfold u32, sizeof_desc_entry. apply wrap_small. lia. }
    rewrite Htl.
    assert (Hblk : Z.to_nat (sg_len * 8 / sizeof_desc_entry) = Z.to_nat sg_len).
    { unfold sizeof_desc_entry. rewrite Z.div_mul by lia. reflexivity. }
    unfold bind at 1. rewrite (memalign_ok _ _ w p ps Hpool Hp). rewrite Hblk.
    unfold check_alloc. apply Z.eqb_neq in Hp. rewrite Hp.
    unfold bind at 1. unfold ret at 1.
    unfold bind at 1. unfold memset_zero. simpl heap. rewrite lookup_insert_eq.
    rewrite Hblk, length_replicate, Nat.leb_refl.
    rewrite drop_replicate, Nat.sub_diag. simpl replicate at 2. rewrite app_nil_r.
    rewrite insert_insert_eq.
    set (w1 := set_heap _ _).
    destruct (desc_fill_run p sg_len ltac:(lia) (Z.to_nat (sg_len - 1)) fuel 0 data L
                (replicate (Z.to_nat sg_len) zero_entry) w1)
      as (data' & sz' & Hrun & Hdata & Hsz).
    + lia.
    + lia.
    + lia.
    + unfold w1. simpl. apply lookup_insert_eq.
    + rewrite length_replicate. lia.
    + unfold bind at 1. rewrite Hrun. simpl fst. simpl snd.
      assert (Hlastix : u32 (sg_len - 1) = sg_len - 1) by (unfold u32; apply wrap_small; lia).
      rewrite Hlastix.
      unfold bind at 1.
      erewrite store_desc_ok;
        [| simpl; apply lookup_insert_eq | rewrite fill_lines_length, length_replicate; lia].
      unfold arch_clean_invalidate_cache_range. run_step.
      eexists. split; [reflexivity|]. simpl.
      rewrite !insert_insert_eq. rewrite !writes_app, !frees_app. simpl. rewrite !app_nil_r.
      split; [|repeat split; reflexivity]. f_equal.
      replace (Z.to_nat (sg_len - 1)) with (Z.to_nat sg_len - 1)%nat by lia.
      rewrite filled_table_is_chain; [| lia | apply length_replicate].
      rewrite Z2Nat.id by lia. f_equal. f_equal.
      rewrite <- (mk_desc_u32 _ _ data'), Hdata, mk_desc_u32.
      rewrite Z2Nat.id by lia. f_equal.
      rewrite Z2Nat.id in Hsz by lia. apply Hsz; lia.
Qed.




End DescriptorBuilder.

Lemma v3_adma_header_ok : adma_header_ok (H := sdhci_v3 65535 10 10).
Proof.
  split; [|split].
  - unfold sizeof_desc_entry. simpl. lia.
  - vm_compute. reflexivity.
  - vm_compute. discriminate.
Defined.



(** The same request evaluated for a span of 32768 bytes: five entries,
    four full lines and 22528 bytes. *)
Example prep_desc_table_300_blocks_32768 :
  final_heap (sdhci_prep_desc_table (H := sdhci_v3 32768 10 10) 10 0x200000 153600
                (fresh_world silent_dev [0x80000])) !! 0x80000
  = Some [DescEntry 33 32768 0x200000; DescEntry 33 32768 0x208000;
          DescEntry 33 32768 0x210000; DescEntry 33 32768 0x218000;
          DescEntry 35 22528 0x220000].
Proof. vm_compute. reflexivity. Qed.


(** The request evaluated for a span of 65535 bytes: three entries,
    65535 + 65535 + 22530 bytes. *)
Example prep_desc_table_300_blocks :
  final_heap (sdhci_prep_desc_table (H := sdhci_v3 65535 10 10) 10 0x200000 153600
                (fresh_world silent_dev [0x80000])) !! 0x80000
  = Some [DescEntry 33 65535 0x200000; DescEntry 33 65535 0x20FFFF;
          DescEntry 35 22530 0x21FFFE].
Proof. vm_compute. reflexivity. Qed.

(** The span must fit the length field: with a span of 65536 bytes a full
    line is stored with length field 0. *)
Example prep_desc_table_span_65536 :
  final_heap (sdhci_prep_desc_table (H := sdhci_v3 65536 10 10) 10 0x200000 131072
                (fresh_world silent_dev [0x80000])) !! 0x80000
  = Some [DescEntry 33 0 0x200000; DescEntry 35 0 0x210000].
Proof. vm_compute. reflexivity. Qed.

(** ** The command engine *)

Section CommandEngine.

Context {H : sdhci_h}.

(** The first polling loop when the Command-Complete bit never shows:
    after SDHCI_MAX_CMD_RETRY polls it logs the failure and leaves by
    [goto err], having written nothing. *)
Lemma wait_cmd_complete_timeout host :
  0 < SDHCI_MAX_CMD_RETRY < 2 ^ 16 ->
  forall cnt fuel retry w,
    0 <= retry -> retry + Z.of_nat cnt = SDHCI_MAX_CMD_RETRY ->
    (1 <= cnt)%nat -> (cnt <= fuel)%nat ->
    (forall j, (j < cnt)%nat -> cmd_complete_at host w (reads w + j) = false) ->
    exists w',
      wait_cmd_complete fuel host retry w = Done false w'
      /\ dev w' = dev w /\ reads w' = (reads w + cnt)%nat
      /\ heap w' = heap w /\ pool w' = pool w
      /\ writes (trace w') = writes (trace w)
      /\ In (EvDprintf "Error: Command never completed") (trace w').
Proof.
  intros Hmax. induction cnt as [|c IH]; intros fuel retry w Hr Hsum Hc Hf Hnever; [lia|].
  destruct fuel as [|n]; [lia|]. simpl. run_step.
  pose proof (Hnever 0%nat ltac:(lia)) as Hnow.
  unfold cmd_complete_at, nrml_int_sts_reg in Hnow. rewrite Nat.add_0_r in Hnow.
  rewrite Hnow.
  assert (Hu : u16 (retry + 1) = retry + 1) by (unfold u16; apply wrap_small; lia).
  rewrite Hu.
  destruct (Nat.eq_dec c 0%nat) as [-> | Hc0].
  - assert (Heq : (retry + 1 =? SDHCI_MAX_CMD_RETRY) = true) by (apply Z.eqb_eq; lia).
    rewrite Heq. eexists. split; [reflexivity|]. simpl.
    rewrite !writes_app. simpl. rewrite !app_nil_r.
    repeat split; try lia. apply in_or_app. right. left. reflexivity.
  - assert (Hne : (retry + 1 =? SDHCI_MAX_CMD_RETRY) = false) by (apply Z.eqb_neq; lia).
    rewrite Hne.
    set (w1 := emit _ (emit _ (tick w))).
    destruct (IH n (retry + 1) w1) as (w' & Hrun & Hd & Hrd & Hh & Hp & Hw & Hlog).
    + lia.
    + lia.
    + lia.
    + lia.
    + intros j Hj. unfold w1, cmd_complete_at. simpl.
      replace (S (reads w + j))%nat with (reads w + S j)%nat by lia.
      apply (Hnever (S j)). lia.
    + exists w'. split; [exact Hrun|]. unfold w1 in *. simpl in *.
      rewrite !writes_app in Hw. simpl in Hw. rewrite !app_nil_r in Hw.
      repeat split; try assumption; lia.
Qed.

(** The classifier only reads and logs; it answers 0 or 1. *)
Lemma cmd_err_status_run host w :
  exists r w',
    sdhci_cmd_err_status host w = Done r w'
    /\ (r = 0 \/ r = 1)
    /\ heap w' = heap w
    /\ writes (trace w') = writes (trace w)
    /\ (exists t, trace w' = trace w ++ t).
Proof.
  unfold sdhci_cmd_err_status. run_step.
  repeat match goal with
         | |- context [if nonzero ?x then _ else _] => destruct (nonzero x)
         end;
    (eexists; eexists; split; [reflexivity|]; simpl;
     rewrite ?writes_app; simpl; rewrite ?app_nil_r;
     split; [auto|]; split; [reflexivity|]; split; [reflexivity|];
     rewrite <- ?app_assoc; eexists; reflexivity).
Qed.

(** sdhci_cmd_complete when the command never completes.  The call
    returns with the command untouched; the failure was logged; the
    interrupt status register is not written (the only register write there
    can be is the line reset); and unless the controller raises its error
    summary bit the value returned is 0. *)
Lemma cmd_complete_timeout fuel host cmd w :
  0 < SDHCI_MAX_CMD_RETRY < 2 ^ 16 ->
  (Z.to_nat SDHCI_MAX_CMD_RETRY <= fuel)%nat ->
  (forall j, (j < Z.to_nat SDHCI_MAX_CMD_RETRY)%nat ->
             cmd_complete_at host w (reads w + j) = false) ->
  exists r w',
    sdhci_cmd_complete fuel host cmd w = Done (r, cmd) w'
    /\ In (EvDprintf "Error: Command never completed") (trace w')
    /\ (writes (trace w') = writes (trace w)
        \/ writes (trace w') = writes (trace w) ++ [line_reset host])
    /\ (err_int_at host w (reads w + Z.to_nat SDHCI_MAX_CMD_RETRY) = false -> r = 0).
Proof.
  intros Hmax Hfuel Hnever.
  destruct (wait_cmd_complete_timeout host Hmax (Z.to_nat SDHCI_MAX_CMD_RETRY) fuel 0 w)
    as (w1 & Hrun & Hd & Hrd & Hh & Hp & Hw & Hlog); [lia | lia | lia | lia | exact Hnever |].
  unfold sdhci_cmd_complete, cmd_complete_wait, cmd_complete_err.
  unfold bind. rewrite Hrun. unfold ret at 1.
  unfold REG_READ16 at 1, mmio_read at 1.
  fold (nrml_int_sts_reg host). rewrite Hd, Hrd.
  set (w2 := emit _ (tick w1)).
  assert (Hw2 : writes (trace w2) = writes (trace w)).
  { unfold w2. simpl. rewrite writes_app. simpl. rewrite app_nil_r. exact Hw. }
  assert (Hlog2 : In (EvDprintf "Error: Command never completed") (trace w2)).
  { unfold w2. simpl. apply in_or_app. left. exact Hlog. }
  clearbody w2. unfold err_int_at.
  destruct (nonzero (Z.land _ SDHCI_ERR_INT_STAT_MASK)) eqn:Herr.
  - destruct (cmd_err_status_run host w2) as (r & w3 & Hcls & Hr01 & _ & Hw3 & (t & Ht)).
    rewrite Hcls.
    destruct Hr01 as [-> | ->].
    + simpl nonzero. cbv iota.
      destruct (nonzero (data_present cmd)); run_step;
        (eexists; eexists; split; [reflexivity|]; simpl;
         rewrite ?writes_app, Hw3, Hw2; simpl; rewrite ?app_nil_r;
         split; [rewrite Ht; repeat first [exact Hlog2 | apply in_or_app; left]|];
         split; [auto | discriminate]).
    + simpl nonzero. cbv iota. run_step.
      eexists. eexists. split; [reflexivity|]. simpl.
      rewrite ?writes_app, Hw3, Hw2. simpl. rewrite ?app_nil_r.
      split; [rewrite Ht; repeat first [exact Hlog2 | apply in_or_app; left]|].
      split; [auto | discriminate].
  - unfold ret at 1. simpl nonzero. cbv iota.
    destruct (nonzero (data_present cmd)); run_step;
      (eexists; eexists; split; [reflexivity|]; simpl;
       rewrite ?writes_app, Hw2; simpl; rewrite ?app_nil_r;
       split; [repeat first [exact Hlog2 | apply in_or_app; left]|];
       split; [auto | reflexivity]).
Qed.

End CommandEngine.

(** ** What a failing completion sequence leaves undone *)

Lemma emits_ret {A} P (a : A) : emits P (ret a).
Proof.
  intros w a' w' Hrun. injection Hrun as <- <-.
  split; [reflexivity|]. split; [reflexivity|].
  exists []. split; [symmetry; apply app_nil_r | constructor].
Qed.

Lemma emits_bind {A B} P (m : M A) (k : A -> M B) :
  emits P m -> (forall a, emits P (k a)) -> emits P (bind m k).
Proof.
  intros Hm Hk w b w' Hrun. unfold bind in Hrun.
  destruct (m w) as [a w1| | |] eqn:Hmw; try discriminate.
  destruct (Hm w a w1 Hmw) as (Hh1 & Hp1 & t1 & Ht1 & HP1).
  destruct (Hk a w1 b w' Hrun) as (Hh2 & Hp2 & t2 & Ht2 & HP2).
  split; [congruence|]. split; [congruence|]. exists (t1 ++ t2). split.
  - rewrite Ht2, Ht1, app_assoc. reflexivity.
  - apply Forall_app. split; assumption.
Qed.

Lemma emits_act P e : P e -> emits P (act e).
Proof.
  intros He w a w' Hrun. injection Hrun as _ <-.
  split; [reflexivity|]. split; [reflexivity|]. exists [e]. split; [reflexivity|].
  constructor; [exact He | constructor].
Qed.

Lemma emits_read P bits a : (forall v, P (EvRead bits a v)) -> emits P (mmio_read bits a).
Proof.
  intros He w v w' Hrun. injection Hrun as _ <-.
  split; [reflexivity|]. split; [reflexivity|]. eexists [_]. split; [reflexivity|].
  constructor; [apply He | constructor].
Qed.

Lemma emits_if {A} P (c : bool) (m1 m2 : M A) :
  emits P m1 -> emits P m2 -> emits P (if c then m1 else m2).
Proof. destruct c; auto. Qed.

Lemma emits_out_of_fuel {A} P : emits P (@out_of_fuel A).
Proof. intros w a w' Hrun. discriminate. Qed.

Section FailurePaths.

Context {H : sdhci_h}.

Lemma status_io_no_free host t : Forall (status_io host) t -> frees t = [].
Proof.
  induction 1 as [|e t He _ IH]; [reflexivity|].
  destruct e; simpl in *; try contradiction; exact IH.
Qed.

Lemma status_io_no_reset host t : Forall (status_io host) t -> ~ In (line_reset host) t.
Proof.
  intros Hall Hin. rewrite Forall_forall in Hall.
  apply list_elem_of_In, Hall in Hin. simpl in Hin. destruct Hin as [Hbits _]. discriminate.
Qed.

Ltac emits_io host :=
  repeat first
    [ apply emits_bind; [|intros ?]
    | apply emits_if
    | apply emits_ret
    | apply emits_out_of_fuel
    | apply emits_read; intros ?; exact I
    | apply emits_act; first [exact I | split; reflexivity] ].

Lemma wait_cmd_complete_emits host fuel :
  forall retry, emits (status_io host) (wait_cmd_complete fuel host retry).
Proof.
  induction fuel as [|n IH]; intros retry; simpl.
  - apply emits_out_of_fuel.
  - unfold REG_READ16, udelay, dprintf. emits_io host. apply IH.
Qed.

Lemma wait_trans_complete_emits host fuel :
  forall retry, emits (status_io host) (wait_trans_complete fuel host retry).
Proof.
  induction fuel as [|n IH]; intros retry; simpl.
  - apply emits_out_of_fuel.
  - unfold REG_READ16, udelay, dprintf. emits_io host. apply IH.
Qed.

Lemma copy_response_emits host cmd : emits (status_io host) (copy_response host cmd).
Proof.
  unfold copy_response, copy_resp_loop, copy_resp_word, REG_READ32. emits_io host.
Qed.

Lemma cmd_complete_wait_emits fuel host cmd :
  emits (status_io host) (cmd_complete_wait fuel host cmd).
Proof.
  unfold cmd_complete_wait.
  apply emits_bind; [apply wait_cmd_complete_emits|]. intros done1.
  apply emits_if; [|apply emits_ret].
  apply emits_bind.
  { unfold REG_WRITE16, mmio_write. apply emits_act. split; reflexivity. }
  intros _. apply emits_bind; [apply copy_response_emits|]. intros cmd1.
  apply emits_if; [|apply emits_ret].
  apply emits_bind; [apply wait_trans_complete_emits|]. intros done2.
  apply emits_if; [|apply emits_ret].
  apply emits_bind; [|intros _; apply emits_ret].
  unfold REG_WRITE16, mmio_write. apply emits_act. split; reflexivity.
Qed.

Lemma cmd_err_status_emits host : emits (status_io host) (sdhci_cmd_err_status host).
Proof. unfold sdhci_cmd_err_status, REG_READ16, dprintf. emits_io host. Qed.

(** From the label [err] on, a run that returns a non-zero value has only
    read and logged. *)
Lemma cmd_complete_err_failure host cmd w r w' :
  cmd_complete_err host cmd w = Done r w' -> r <> 0 ->
  heap w' = heap w /\ pool w' = pool w
  /\ exists t, trace w' = trace w ++ t /\ Forall (status_io host) t.
Proof.
  intros Hrun Hr.
  assert (Hem : emits (status_io host)
                  (int_status <- REG_READ16 host SDHCI_NRML_INT_STS_REG ;;
                   failed <- (if nonzero (Z.land int_status SDHCI_ERR_INT_STAT_MASK)
                              then sdhci_cmd_err_status host else ret 0) ;;
                   if nonzero failed
                   then dprintf "Error: Command completed with errors" ;; ret 1
                   else ret 0)).
  { unfold REG_READ16, dprintf. emits_io host. }
  apply (Hem w r w'). revert Hrun. unfold cmd_complete_err, bind.
  destruct (REG_READ16 host SDHCI_NRML_INT_STS_REG w) as [s w1| | |]; try discriminate.
  destruct ((if nonzero (Z.land s SDHCI_ERR_INT_STAT_MASK)
             then sdhci_cmd_err_status host else ret 0) w1) as [failed w2| | |];
    try discriminate.
  destruct (nonzero failed); [auto|].
  destruct (nonzero (data_present cmd));
    unfold REG_WRITE8, mmio_write, act, ret; intros Heq; injection Heq as <- _;
    contradiction.
Qed.

(** Whenever sdhci_cmd_complete returns a non-zero value, all it did was
    read registers, wait, log and clear status bits: it did not reset the
    lines, whatever the command. *)
Lemma cmd_complete_failure fuel host cmd w r c w' :
  sdhci_cmd_complete fuel host cmd w = Done (r, c) w' -> r <> 0 ->
  heap w' = heap w /\ pool w' = pool w
  /\ exists t, trace w' = trace w ++ t /\ Forall (status_io host) t
               /\ ~ In (line_reset host) t.
Proof.
  intros Hrun Hr. unfold sdhci_cmd_complete in Hrun. unfold bind at 1 in Hrun.
  destruct (cmd_complete_wait fuel host cmd w) as [cmd1 w1| | |] eqn:Hwait; try discriminate.
  destruct (cmd_complete_wait_emits fuel host cmd w cmd1 w1 Hwait)
    as (Hh1 & Hp1 & t1 & Ht1 & HP1).
  unfold bind in Hrun.
  destruct (cmd_complete_err host cmd1 w1) as [r1 w2| | |] eqn:Herr; try discriminate.
  unfold ret in Hrun. injection Hrun as -> _ ->.
  destruct (cmd_complete_err_failure host cmd1 w1 r w' Herr Hr)
    as (Hh2 & Hp2 & t2 & Ht2 & HP2).
  split; [congruence|]. split; [congruence|]. exists (t1 ++ t2).
  assert (Hall : Forall (status_io host) (t1 ++ t2)) by (apply Forall_app; split; assumption).
  split; [rewrite Ht2, Ht1, app_assoc; reflexivity|].
  split; [exact Hall | apply status_io_no_reset; exact Hall].
Qed.

(** The data set-up: the table is built at the address the allocator
    hands out, and nothing is freed. *)
Lemma adma_transfer_run fuel host cmd w p ps :
  sizeof_desc_entry < SDHCI_ADMA_DESC_LINE_SZ < 2 ^ 16 ->
  pool w = p :: ps -> p <> 0 ->
  u32 (num_blocks (data cmd) * SDHCI_MMC_BLK_SZ) / SDHCI_ADMA_DESC_LINE_SZ < Z.of_nat fuel ->
  exists w1,
    sdhci_adma_transfer fuel host cmd w = Done p w1
    /\ heap w1 = <[p := desc_chain (data_ptr (data cmd))
                          (u32 (num_blocks (data cmd) * SDHCI_MMC_BLK_SZ))]> (heap w)
    /\ frees (trace w1) = frees (trace w).
Proof.
  intros HS Hpool Hp Hfuel.
  destruct (prep_desc_table_run fuel (data_ptr (data cmd))
              (u32 (num_blocks (data cmd) * SDHCI_MMC_BLK_SZ)) w p ps (proj1 HS)
              (wrap_range 32 _ ltac:(lia)) Hpool Hp Hfuel)
    as (w1 & Hrun & Hheap & _ & _ & Hfrees).
  unfold sdhci_adma_transfer. unfold bind at 1. rewrite Hrun.
  destruct (1 <? num_blocks (data cmd)); run_step;
    (eexists; split; [reflexivity|]; simpl; split; [exact Hheap|];
     rewrite !frees_app, Hfrees; simpl; rewrite !app_nil_r; reflexivity).
Qed.

(** For every data command: when the completion sequence fails,
    sdhci_send_command returns with the descriptor table it built still
    allocated, and without having called free. *)
Lemma send_command_issue_leak fuel host cmd flags w p ps r c w' :
  nonzero (data_present cmd) = true ->
  sizeof_desc_entry < SDHCI_ADMA_DESC_LINE_SZ < 2 ^ 16 ->
  pool w = p :: ps -> p <> 0 ->
  u32 (num_blocks (data cmd) * SDHCI_MMC_BLK_SZ) / SDHCI_ADMA_DESC_LINE_SZ < Z.of_nat fuel ->
  send_command_issue fuel host cmd flags w = Done (r, c) w' -> r <> 0 ->
  heap w' !! p = Some (desc_chain (data_ptr (data cmd))
                         (u32 (num_blocks (data cmd) * SDHCI_MMC_BLK_SZ)))
  /\ frees (trace w') = frees (trace w).
Proof.
  intros Hdata HS Hpool Hp Hfuel Hrun Hr.
  unfold send_command_issue in Hrun. rewrite Hdata in Hrun.
  unfold bind at 1 in Hrun. unfold REG_WRITE8 at 1, mmio_write at 1, act at 1 in Hrun.
  set (w0 := emit _ w) in Hrun.
  destruct (adma_transfer_run fuel host cmd w0 p ps HS Hpool Hp Hfuel)
    as (w1 & Hadma & Hheap & Hfrees).
  unfold bind at 1 in Hrun. rewrite Hadma in Hrun.
  unfold bind at 1 in Hrun. unfold REG_WRITE32 at 1, mmio_write at 1, act at 1 in Hrun.
  unfold bind at 1 in Hrun. unfold REG_WRITE16 at 1, mmio_write at 1, act at 1 in Hrun.
  set (w3 := emit _ (emit _ w1)) in Hrun.
  unfold bind at 1 in Hrun.
  destruct (sdhci_cmd_complete fuel host cmd w3) as [[r1 c1] w4| | |] eqn:Hcc;
    try discriminate.
  cbn [fst snd] in Hrun.
  destruct (nonzero r1) eqn:Hr1.
  - unfold ret in Hrun. injection Hrun as _ _ <-.
    assert (Hne : r1 <> 0).
    { intros ->. discriminate Hr1. }
    destruct (cmd_complete_failure fuel host cmd w3 r1 c1 w4 Hcc Hne)
      as (Hh4 & _ & t & Ht & Hall & _).
    split.
    + rewrite Hh4. unfold w3. simpl. rewrite Hheap. apply lookup_insert_eq.
    + rewrite Ht, frees_app, (status_io_no_free host t Hall), app_nil_r.
      unfold w3. simpl. rewrite !frees_app, Hfrees. unfold w0. simpl.
      rewrite frees_app. simpl. rewrite !app_nil_r. reflexivity.
  - exfalso. revert Hrun. unfold bind.
    destruct (trans_mode c1 =? SDHCI_MMC_READ);
      unfold arch_invalidate_cache_range, act, ret;
      (destruct (nonzero p);
       [unfold free;
        match goal with |- context [heap ?x !! p] => destruct (heap x !! p) end |]);
      try discriminate; intros Heq; injection Heq as <- _ _; contradiction.
Qed.

End FailurePaths.

(** *** The command engine on concrete controllers *)

(** C2: the failing input.  A command without data is sent to a controller
    that never sets Command-Complete (every register reads 0); the retry
    limit is 10.  The polling loop gives up and logs that the command never
    completed, and the interrupt status register is never written, as the
    claim says; but sdhci_cmd_complete then returns 0, and so does
    sdhci_send_command: the timeout is reported as success. *)
Theorem cmd_timeout_reported_as_success :
  let complete := sdhci_cmd_complete (H := sdhci_v3 65535 10 10) 10 host200 cmd_status
                    (fresh_world silent_dev []) in
  let send := sdhci_send_command (H := sdhci_v3 65535 10 10) 10 host200 cmd_status
                (fresh_world silent_dev []) in
  returned complete = Some (0, cmd_status)
  /\ logged (final_trace complete) = ["Error: Command never completed"%string]
  /\ writes (final_trace complete) = []
  /\ returned send = Some (0, cmd_status)
  /\ logged (final_trace send) = ["Error: Command never completed"%string].
Proof. cbv zeta. repeat split; vm_compute; reflexivity. Qed.

(** C3: the failing input.  A 300 block read is completed by a controller
    that flags a data CRC error.  sdhci_cmd_complete clears the two
    completion bits, logs the error and returns 1; the write of
    SOFT_RESET_CMD | SOFT_RESET_DATA to the reset register, which comes
    after the [return 1], is not made ([cmd_complete_failure] shows this for
    every command and controller). *)
Theorem cmd_error_skips_line_reset :
  let run := sdhci_cmd_complete (H := sdhci_v3 65535 10 10) 10 host200 cmd_read300
               (fresh_world crc_error_dev []) in
  fst <$> returned run = Some 1
  /\ logged (final_trace run)
     = ["Error: DATA CRC error"%string; "Error: Command completed with errors"%string]
  /\ writes (final_trace run) = [EvWrite 16 0x10030 1; EvWrite 16 0x10030 2]
  /\ ~ In (line_reset (H := sdhci_v3 65535 10 10) host200) (final_trace run).
Proof.
  cbv zeta. split; [vm_compute; reflexivity|]. split; [vm_compute; reflexivity|].
  split; [vm_compute; reflexivity|].
  intros Hin. vm_compute in Hin.
  repeat (destruct Hin as [Hin|Hin]; [discriminate Hin|]). exact Hin.
Qed.

(** The sibling paths do reset the lines: on success, and when the command
    never completes. *)
Example cmd_success_resets_lines :
  let run := sdhci_cmd_complete (H := sdhci_v3 65535 10 10) 10 host200 cmd_read300
               (fresh_world success_dev []) in
  fst <$> returned run = Some 0
  /\ writes (final_trace run)
     = [EvWrite 16 0x10030 1; EvWrite 16 0x10030 2; EvWrite 8 0x1002F 6].
Proof. cbv zeta. split; vm_compute; reflexivity. Qed.

Example cmd_timeout_resets_lines :
  let run := sdhci_cmd_complete (H := sdhci_v3 65535 10 10) 10 host200 cmd_read300
               (fresh_world silent_dev []) in
  fst <$> returned run = Some 0
  /\ writes (final_trace run) = [EvWrite 8 0x1002F 6].
Proof. cbv zeta. split; vm_compute; reflexivity. Qed.

(** C4: the failing input.  The same read sent through sdhci_send_command:
    the descriptor table is allocated at 0x80000, the completion sequence
    fails, and the call returns 1 with the table still allocated; free was
    not called ([send_command_issue_leak] shows this for every data
    command). *)
Theorem send_command_error_leaks_table :
  let run := sdhci_send_command (H := sdhci_v3 65535 10 10) 10 host200 cmd_read300
               (fresh_world crc_error_dev [0x80000]) in
  fst <$> returned run = Some 1
  /\ final_heap run !! 0x80000
     = Some [DescEntry 33 65535 0x200000; DescEntry 33 65535 0x20FFFF;
             DescEntry 35 22530 0x21FFFE]
  /\ frees (final_trace run) = [].
Proof. cbv zeta. repeat split; vm_compute; reflexivity. Qed.

(** On success the table is released before the call returns. *)
Example send_command_success_frees_table :
  let run := sdhci_send_command (H := sdhci_v3 65535 10 10) 10 host200 cmd_read300
               (fresh_world success_dev [0x80000]) in
  fst <$> returned run = Some 0
  /\ final_heap run !! 0x80000 = None
  /\ frees (final_trace run) = [0x80000].
Proof. cbv zeta. repeat split; vm_compute; reflexivity. Qed.

(** * Properties of the rest of the driver *)

(** ** Clock: unbounded wait, rate round trip, frequency change, modes *)

Section ClockRest.

Context {H : sdhci_h} {P : platform_h}.

Lemma wait_clk_stable_hangs host fuel :
  forall w, (forall n, stable_at host w n = false) -> wait_clk_stable fuel host w = OutOfFuel.
Proof.
  induction fuel as [|n IH]; intros w Hnever; [reflexivity|].
  simpl. run_step. pose proof (Hnever (reads w)) as Hnow.
  unfold stable_at, clk_reg, u16 in Hnow. rewrite Hnow.
  apply IH. intros m. unfold stable_at. simpl. apply Hnever.
Qed.

(** X1: sdhci_clk_supply has no way out of its wait for the clock: if the
    controller never reports a stable clock, a supported target makes the
    call run forever, whatever amount of fuel the run is given. *)
Theorem clk_supply_never_stable fuel host clk w :
  (forall n, stable_at host w n = false) ->
  clk <= base_clk_rate (caps host) ->
  sdhci_clk_supply fuel host clk w = OutOfFuel.
Proof.
  intros Hnever Hle.
  assert (Hctrl : forall div freq, clk_ctrl fuel host div freq w = OutOfFuel).
  { intros div freq. unfold clk_ctrl. unfold bind at 1.
    unfold REG_WRITE16 at 1, mmio_write, act. unfold bind at 1.
    rewrite wait_clk_stable_hangs; [reflexivity|].
    intros n. unfold stable_at. simpl. apply Hnever. }
  unfold sdhci_clk_supply.
  assert (Hn : (base_clk_rate (caps host) <? clk) = false) by (apply Z.ltb_ge; lia).
  rewrite Hn. destruct (clk =? base_clk_rate (caps host)); [apply Hctrl|].
  destruct (clk_div_scan _ _ _ _ _) as [[d f]|]; [apply Hctrl | reflexivity].
Qed.

(** The tail of sdhci_clk_supply when the first poll already shows a
    stable clock. *)
Lemma clk_ctrl_stable_now fuel host div freq w :
  stable_at host w (reads w) = true -> (1 <= fuel)%nat ->
  exists w' v,
    clk_ctrl fuel host div freq w = Done (0, set_cur_clk_rate host freq) w'
    /\ dev w' = dev w /\ reads w' = (reads w + 2)%nat
    /\ writes (trace w') =
         writes (trace w) ++ [EvWrite 16 (clk_reg host) (clk_ctrl_val div);
                              EvWrite 16 (clk_reg host) v].
Proof.
  intros Hst Hf. destruct fuel as [|n]; [lia|].
  unfold clk_ctrl. simpl. run_step. fold (clk_reg host).
  unfold stable_at, u16 in Hst. rewrite Hst.
  eexists. eexists. split; [reflexivity|]. simpl.
  split; [reflexivity|]. split; [lia|].
  rewrite !writes_app. simpl. rewrite !app_nil_r, <- app_assoc. simpl.
  assert (Hcv : wrap 16 (clk_ctrl_val div) = clk_ctrl_val div).
  { unfold clk_ctrl_val, u16. unfold wrap. rewrite Z.mod_mod; [reflexivity|lia]. }
  rewrite Hcv. reflexivity.
Qed.

(** Requesting the rate of an even divider gives that rate back. *)
Lemma clk_supply_reproduces fuel host d w k :
  SDHCI_CLK_MAX_DIV < 2 ^ 32 ->
  0 < base_clk_rate (caps host) ->
  Z.even d = true -> 2 <= d < SDHCI_CLK_MAX_DIV ->
  stable_at host w (reads w + k) = true ->
  (k < fuel)%nat -> d < 2 * Z.of_nat fuel ->
  exists w' d' v,
    sdhci_clk_supply fuel host (base_clk_rate (caps host) / d) w
    = Done (0, set_cur_clk_rate host (base_clk_rate (caps host) / d)) w'
    /\ writes (trace w') =
         writes (trace w) ++ [EvWrite 16 (clk_reg host) (clk_ctrl_val (Z.shiftr d' 1));
                              EvWrite 16 (clk_reg host) v].
Proof.
  intros Hmax Hbase Hev Hrange Hst Hk Hfuel.
  set (b := base_clk_rate (caps host)) in *.
  assert (Hlt : b / d < b) by (apply Z.div_lt; lia).
  destruct (first_fit_exists b (b / d) d Hev Hrange ltac:(lia)) as (d' & Hfirst & Hle).
  destruct (clk_supply_selects fuel host (b / d) d' w k Hmax Hlt Hfirst Hst Hk ltac:(lia))
    as (w' & v & Hrun & Hw & _).
  exists w', d', v. split; [|exact Hw]. rewrite Hrun. f_equal. f_equal. f_equal.
  destruct Hfirst as (_ & Hr' & Hfit & _).
  assert (b / d <= b / d') by (apply Z.div_le_compat_l; lia).
  fold b. lia.
Qed.

(** X2: a rate produced by the divider search is reproduced when it is
    asked for again: for an even divider d below SDHCI_CLK_MAX_DIV,
    requesting base / d succeeds, and the host that comes back has
    exactly base / d as its current clock rate, its base address and
    capabilities being as before. *)
Theorem clk_supply_rate_round_trip fuel host d w k :
  SDHCI_CLK_MAX_DIV < 2 ^ 32 ->
  0 < base_clk_rate (caps host) ->
  Z.even d = true -> 2 <= d < SDHCI_CLK_MAX_DIV ->
  stable_at host w (reads w + k) = true ->
  (k < fuel)%nat -> d < 2 * Z.of_nat fuel ->
  exists host' w',
    sdhci_clk_supply fuel host (base_clk_rate (caps host) / d) w = Done (0, host') w'
    /\ cur_clk_rate host' = base_clk_rate (caps host) / d
    /\ base host' = base host /\ caps host' = caps host.
Proof.
  intros Hmax Hbase Hev Hrange Hst Hk Hfuel.
  destruct (clk_supply_reproduces fuel host d w k Hmax Hbase Hev Hrange Hst Hk Hfuel)
    as (w' & _ & _ & Hrun & _).
  exists (set_cur_clk_rate host (base_clk_rate (caps host) / d)), w'.
  split; [exact Hrun|]. split; [reflexivity|]. split; reflexivity.
Qed.

Lemma wrap16_u16 x : wrap 16 (u16 x) = u16 x.
Proof. unfold u16, wrap. apply Z.mod_mod. lia. Qed.

Lemma set_cur_clk_rate_same host : set_cur_clk_rate host (cur_clk_rate host) = host.
Proof. destruct host. reflexivity. Qed.

Lemma land_u16_lor_self x m : Z.land (u16 (Z.lor x m)) m = u16 m.
Proof.
  unfold u16, wrap. rewrite <- !Z.land_ones by lia.
  apply Z.bits_inj'. intros n Hn.
  rewrite !Z.land_spec, Z.lor_spec.
  destruct (Z.testbit m n), (Z.testbit (Z.ones 16) n), (Z.testbit x n); reflexivity.
Qed.

Lemma land_u16_clear x m : Z.land (u16 (Z.land x (Z.lnot m))) m = 0.
Proof.
  unfold u16, wrap. rewrite <- !Z.land_ones by lia.
  apply Z.bits_inj'. intros n Hn.
  rewrite !Z.land_spec, Z.lnot_spec, Z.bits_0 by exact Hn.
  destruct (Z.testbit m n), (Z.testbit (Z.ones 16) n), (Z.testbit x n); reflexivity.
Qed.

(** The wait for the clock when poll [k] is the first to show it
    stable. *)
Lemma wait_clk_stable_first host k :
  forall fuel w,
    (forall j, (j < k)%nat -> stable_at host w (reads w + j) = false) ->
    stable_at host w (reads w + k) = true -> (k < fuel)%nat ->
    exists w', wait_clk_stable fuel host w = Done tt w'
               /\ dev w' = dev w /\ reads w' = (reads w + k + 1)%nat
               /\ writes (trace w') = writes (trace w).
Proof.
  induction k as [|k IH]; intros fuel w Hnot Hst Hf.
  - destruct fuel as [|n]; [lia|]. simpl. run_step.
    rewrite Nat.add_0_r in Hst. unfold stable_at, clk_reg, u16 in Hst.
    rewrite Hst. eexists. split; [reflexivity|]. simpl.
    rewrite writes_app. simpl. rewrite app_nil_r. repeat split; lia.
  - destruct fuel as [|n]; [lia|]. simpl. run_step.
    pose proof (Hnot 0%nat ltac:(lia)) as Hnow. rewrite Nat.add_0_r in Hnow.
    unfold stable_at, clk_reg, u16 in Hnow. rewrite Hnow.
    set (w1 := emit _ (tick w)).
    destruct (IH n w1) as (w' & Hrun & Hd & Hr & Hw).
    + intros j Hj. unfold w1, stable_at. simpl.
      replace (S (reads w + j))%nat with (reads w + S j)%nat by lia.
      apply Hnot. lia.
    + unfold w1, stable_at in *. simpl.
      replace (S (reads w + k))%nat with (reads w + S k)%nat by lia.
      exact Hst.
    + lia.
    + exists w'. split; [exact Hrun|]. unfold w1 in *. simpl in *.
      rewrite writes_app in Hw. simpl in Hw. rewrite app_nil_r in Hw.
      repeat split; try assumption; lia.
Qed.

(** The tail of sdhci_clk_supply in full: the divider is written, the
    clock control register is polled until it shows a stable clock, it is
    read once more, and what was read is written back with the clock
    enable bit added. *)
Lemma clk_ctrl_first_stable fuel host div freq w k :
  (forall j, (j < k)%nat -> stable_at host w (reads w + j) = false) ->
  stable_at host w (reads w + k) = true -> (k < fuel)%nat ->
  exists w',
    clk_ctrl fuel host div freq w = Done (0, set_cur_clk_rate host freq) w'
    /\ dev w' = dev w /\ reads w' = (reads w + k + 2)%nat
    /\ writes (trace w') =
         writes (trace w)
         ++ [EvWrite 16 (clk_reg host) (divider_encoding div);
             EvWrite 16 (clk_reg host)
               (u16 (Z.lor (wrap 16 (dev w (reads w + k + 1)%nat (clk_reg host)))
                           SDHCI_CLK_EN))].
Proof.
  intros Hnot Hst Hf. unfold clk_ctrl.
  set (w1 := emit (EvWrite 16 (clk_reg host) (wrap 16 (clk_ctrl_val div))) w).
  destruct (wait_clk_stable_first host k fuel w1) as (w2 & Hrun & Hd & Hr & Hw);
    [exact Hnot | exact Hst | exact Hf |].
  run_step. fold (clk_reg host). fold w1. rewrite Hrun.
  eexists. split; [reflexivity|]. simpl.
  rewrite Hd, Hr. unfold w1. simpl.
  split; [reflexivity|]. split; [lia|].
  rewrite !writes_app, Hw. unfold w1. simpl. rewrite writes_app. simpl.
  rewrite !app_nil_r, <- app_assoc. simpl.
  rewrite !wrap16_u16.
  assert (Hcv : wrap 16 (clk_ctrl_val div) = divider_encoding div).
  { rewrite clk_ctrl_val_encoding. unfold divider_encoding, wrap.
    rewrite Z.mod_mod; [reflexivity|lia]. }
  rewrite Hcv. reflexivity.
Qed.

(** sdhci_clk_supply on the path through the divider search, in full. *)
Lemma clk_supply_first_fit_run fuel host clk d w k :
  SDHCI_CLK_MAX_DIV < 2 ^ 32 ->
  clk < base_clk_rate (caps host) ->
  first_fit (base_clk_rate (caps host)) clk d ->
  (forall j, (j < k)%nat -> stable_at host w (reads w + j) = false) ->
  stable_at host w (reads w + k) = true ->
  (k < fuel)%nat -> d < 2 * Z.of_nat fuel ->
  exists w',
    sdhci_clk_supply fuel host clk w
    = Done (0, set_cur_clk_rate host (base_clk_rate (caps host) / d)) w'
    /\ dev w' = dev w /\ reads w' = (reads w + k + 2)%nat
    /\ writes (trace w') =
         writes (trace w)
         ++ [EvWrite 16 (clk_reg host) (divider_encoding (Z.shiftr d 1));
             EvWrite 16 (clk_reg host)
               (u16 (Z.lor (wrap 16 (dev w (reads w + k + 1)%nat (clk_reg host)))
                           SDHCI_CLK_EN))].
Proof.
  intros Hmax Hlt (Hev & Hrange & Hfit & Hfirst) Hnot Hst Hk Hfuel.
  unfold sdhci_clk_supply.
  assert (Hn1 : (base_clk_rate (caps host) <? clk) = false) by (apply Z.ltb_ge; lia).
  assert (Hn2 : (clk =? base_clk_rate (caps host)) = false) by (apply Z.eqb_neq; lia).
  rewrite Hn1, Hn2.
  rewrite (clk_div_scan_first_fit (base_clk_rate (caps host)) clk d Hmax Hev
             (proj2 Hrange) Hfit fuel 2 0); [| reflexivity | lia | | lia].
  - apply (clk_ctrl_first_stable fuel host _ _ w k Hnot Hst Hk).
  - intros d' Hd' Hr. apply Hfirst; [exact Hd'|lia].
Qed.

(** X3: sdhci_set_ddr_mode disables the clock, sets the DDR bits in host
    control 2 and restarts the clock at the recorded rate.  When that rate
    is the rate of an even divider and the clock is first reported stable
    at poll [k], the call makes four writes: the clock control register as
    read with the clock enable bit cleared; host control 2 as read with
    the DDR bits set; the encoding of the first divider of the scan whose
    rate does not exceed the recorded rate, which gives that very rate;
    and, after the [k + 1] polls, the clock control register as read once
    more with the clock enable bit set.  The host comes back as it was. *)
Theorem set_ddr_mode_keeps_rate fuel host d w k :
  SDHCI_CLK_MAX_DIV < 2 ^ 32 ->
  0 < base_clk_rate (caps host) ->
  Z.even d = true -> 2 <= d < SDHCI_CLK_MAX_DIV ->
  cur_clk_rate host = base_clk_rate (caps host) / d ->
  (forall j, (j < k)%nat -> stable_at host w (reads w + 2 + j) = false) ->
  stable_at host w (reads w + 2 + k) = true ->
  (k < fuel)%nat -> d < 2 * Z.of_nat fuel ->
  exists w' d' v1 v2 v3,
    sdhci_set_ddr_mode fuel host w = Done host w'
    /\ first_fit (base_clk_rate (caps host)) (cur_clk_rate host) d'
    /\ base_clk_rate (caps host) / d' = cur_clk_rate host
    /\ reads w' = (reads w + k + 4)%nat
    /\ writes (trace w') =
         writes (trace w)
         ++ [EvWrite 16 (clk_reg host) v1;
             EvWrite 16 (ctrl2_reg host) v2;
             EvWrite 16 (clk_reg host) (divider_encoding (Z.shiftr d' 1));
             EvWrite 16 (clk_reg host) v3]
    /\ v1 = u16 (Z.land (wrap 16 (dev w (reads w) (clk_reg host))) (Z.lnot SDHCI_CLK_EN))
    /\ v2 = u16 (Z.lor (wrap 16 (dev w (reads w + 1)%nat (ctrl2_reg host)))
                       SDHCI_DDR_MODE_EN)
    /\ v3 = u16 (Z.lor (wrap 16 (dev w (reads w + k + 3)%nat (clk_reg host)))
                       SDHCI_CLK_EN)
    /\ Z.land v1 SDHCI_CLK_EN = 0
    /\ Z.land v2 SDHCI_DDR_MODE_EN = u16 SDHCI_DDR_MODE_EN
    /\ Z.land v3 SDHCI_CLK_EN = u16 SDHCI_CLK_EN.
Proof.
  intros Hmax Hbase Hev Hrange Hcur Hnot Hst Hk Hfuel.
  assert (Hlt : cur_clk_rate host < base_clk_rate (caps host))
    by (rewrite Hcur; apply Z.div_lt; lia).
  destruct (first_fit_exists (base_clk_rate (caps host)) (cur_clk_rate host) d Hev Hrange
              ltac:(lia)) as (d' & Hfirst & Hle).
  assert (Hrate : base_clk_rate (caps host) / d' = cur_clk_rate host).
  { destruct Hfirst as (_ & Hr' & Hfit & _).
    assert (base_clk_rate (caps host) / d <= base_clk_rate (caps host) / d')
      by (apply Z.div_le_compat_l; lia).
    lia. }
  unfold sdhci_set_ddr_mode, disable_clk. run_step.
  fold (clk_reg host). fold (ctrl2_reg host).
  set (w2 := emit _ (emit _ (tick (emit _ (emit _ (tick w)))))).
  destruct (clk_supply_first_fit_run fuel host (cur_clk_rate host) d' w2 k Hmax Hlt Hfirst)
    as (w' & Hrun & Hd & Hr & Hw).
  { intros j Hj. unfold w2, stable_at. simpl.
    replace (S (S (reads w + j)))%nat with (reads w + 2 + j)%nat by lia.
    apply Hnot. exact Hj. }
  { unfold w2, stable_at in *. simpl.
    replace (S (S (reads w + k)))%nat with (reads w + 2 + k)%nat by lia. exact Hst. }
  { exact Hk. }
  { lia. }
  rewrite Hrun. simpl. rewrite Hrate, set_cur_clk_rate_same.
  exists w', d'. eexists _, _, _. split; [reflexivity|].
  split; [exact Hfirst|]. split; [exact Hrate|].
  split; [rewrite Hr; unfold w2; simpl; lia|].
  split.
  { rewrite Hw. unfold w2. simpl. rewrite !writes_app. simpl.
    rewrite !app_nil_r, <- !app_assoc. simpl. reflexivity. }
  rewrite !wrap16_u16.
  split; [reflexivity|].
  split; [replace (reads w + 1)%nat with (S (reads w)) by lia; reflexivity|].
  split; [replace (reads w + k + 3)%nat with (S (S (reads w + k + 1))) by lia; reflexivity|].
  split; [apply land_u16_clear|]. split; apply land_u16_lor_self.
Qed.

(** X4: composition with the bypass path.  After sdhci_clk_supply at the
    base clock rate the recorded rate is 0, so a following
    sdhci_set_ddr_mode restarts the clock with target 0: the divider
    search runs to its end and the host ends up at the slowest rate,
    base / (SDHCI_CLK_MAX_DIV - 2). *)
Theorem ddr_mode_after_base_rate fuel host w :
  4 <= SDHCI_CLK_MAX_DIV < 2 ^ 32 -> Z.even SDHCI_CLK_MAX_DIV = true ->
  SDHCI_CLK_MAX_DIV - 2 <= base_clk_rate (caps host) ->
  (forall n, stable_at host w n = true) ->
  SDHCI_CLK_MAX_DIV < 2 * Z.of_nat fuel ->
  exists host' w',
    (rh <- sdhci_clk_supply fuel host (base_clk_rate (caps host)) ;;
     sdhci_set_ddr_mode fuel (snd rh)) w = Done host' w'
    /\ cur_clk_rate host' = base_clk_rate (caps host) / (SDHCI_CLK_MAX_DIV - 2)
    /\ caps host' = caps host
    /\ 0 < cur_clk_rate host' < base_clk_rate (caps host).
Proof.
  intros Hmax Hmev Hbase Hst Hfuel.
  set (b := base_clk_rate (caps host)) in *.
  assert (Hf1 : (1 <= fuel)%nat) by lia.
  unfold bind at 1. unfold sdhci_clk_supply at 1. fold b.
  rewrite Z.ltb_irrefl, Z.eqb_refl.
  destruct (clk_ctrl_stable_now fuel host 0 0 w (Hst _) Hf1)
    as (w1 & v & Hrun1 & Hd1 & Hr1 & _).
  rewrite Hrun1. simpl snd.
  set (h1 := set_cur_clk_rate host 0).
  unfold sdhci_set_ddr_mode, disable_clk. run_step.
  set (w2 := emit _ (emit _ (tick (emit _ (emit _ (tick w1)))))).
  unfold sdhci_clk_supply. change (base_clk_rate (caps h1)) with b.
  assert (Hn1 : (b <? 0) = false) by (apply Z.ltb_ge; lia).
  assert (Hn2 : (0 =? b) = false) by (apply Z.eqb_neq; lia).
  rewrite Hn1, Hn2.
  assert (Hnone : forall d', Z.even d' = true -> 2 <= d' < SDHCI_CLK_MAX_DIV -> 0 < b / d').
  { intros d' Hd' Hr. apply Z.div_str_pos.
    assert (d' + 2 <= SDHCI_CLK_MAX_DIV) by (apply even_gap; [assumption..|lia]). lia. }
  rewrite (clk_div_scan_exhausted b 0 (proj2 Hmax) Hmev Hnone fuel 2 0);
    [| reflexivity | lia | lia | lia].
  destruct (clk_ctrl_stable_now fuel h1 (Z.shiftr SDHCI_CLK_MAX_DIV 1)
              (b / (SDHCI_CLK_MAX_DIV - 2)) w2) as (w3 & v3 & Hrun3 & _); [| exact Hf1 |].
  { unfold w2, stable_at in *. simpl. rewrite Hd1. apply Hst. }
  rewrite Hrun3. exists (set_cur_clk_rate h1 (b / (SDHCI_CLK_MAX_DIV - 2))), w3.
  split; [reflexivity|]. simpl. split; [reflexivity|]. split; [reflexivity|].
  split.
  - apply Hnone; [|lia].
    replace (SDHCI_CLK_MAX_DIV - 2) with (SDHCI_CLK_MAX_DIV + (-2)) by lia.
    rewrite Z.even_add, Hmev. reflexivity.
  - apply Z.div_lt; lia.
Qed.

(** X5: on a controller whose base clock is below the fixed 100 MHz target,
    sdhci_set_sdr_mode disables the clock output, writes host control 2,
    and then fails to restart the clock: sdhci_clk_supply refuses the
    target and its result is dropped, so the call returns normally with the
    clock enable bit cleared by its last write to the clock control
    register and the host unchanged. *)
Theorem set_sdr_mode_slow_controller fuel host w :
  base_clk_rate (caps host) < SDHCI_CLK_100MHZ ->
  exists w' v1 v2,
    sdhci_set_sdr_mode fuel host w = Done host w'
    /\ writes (trace w') =
         writes (trace w) ++ [EvWrite 16 (clk_reg host) v1; EvWrite 16 (ctrl2_reg host) v2]
    /\ Z.land v1 SDHCI_CLK_EN = 0
    /\ logged (trace w')
       = logged (trace w) ++ ["Error: Requested clk freq is more than supported"%string].
Proof.
  intros Hslow. unfold sdhci_set_sdr_mode, disable_clk, sdhci_clk_supply.
  apply Z.ltb_lt in Hslow. rewrite Hslow. run_step.
  fold (clk_reg host). fold (ctrl2_reg host).
  do 3 eexists. split; [reflexivity|]. simpl.
  rewrite !writes_app. unfold logged. rewrite !List.flat_map_app. simpl.
  rewrite !app_nil_r, <- !app_assoc. simpl.
  split; [reflexivity|]. split; [|reflexivity].
  rewrite wrap16_u16. apply land_u16_clear.
Qed.

(** X6: the two ways sdhci_change_freq_clk fails.  With the command or data
    line active it returns 1 and has written nothing.  With idle lines and
    a target above the base clock rate it returns 1 after the clock has
    been stopped: the write of SDHCI_CLK_DIS is its only write and the
    clock is not started again.  The host is unchanged in both cases. *)
Theorem change_freq_failures fuel host clk w :
  (lines_active_at host w (reads w) = true ->
   exists w', sdhci_change_freq_clk fuel host clk w = Done (1, host) w'
              /\ writes (trace w') = writes (trace w))
  /\ (lines_active_at host w (reads w) = false ->
      base_clk_rate (caps host) < clk ->
      exists w', sdhci_change_freq_clk fuel host clk w = Done (1, host) w'
                 /\ writes (trace w')
                    = writes (trace w) ++ [EvWrite 16 (clk_reg host) (wrap 16 SDHCI_CLK_DIS)]).
Proof.
  split.
  - intros Hact. unfold sdhci_change_freq_clk, sdhci_stop_sdcc_clk. run_step.
    fold (present_state_reg host). unfold lines_active_at in Hact. rewrite Hact.
    simpl. eexists. split; [reflexivity|]. simpl.
    rewrite !writes_app. simpl. rewrite !app_nil_r. reflexivity.
  - intros Hidle Hgt. unfold sdhci_change_freq_clk, sdhci_stop_sdcc_clk, sdhci_clk_supply.
    apply Z.ltb_lt in Hgt. rewrite Hgt. run_step.
    fold (present_state_reg host). unfold lines_active_at in Hidle. rewrite Hidle.
    simpl. fold (clk_reg host). eexists. split; [reflexivity|]. simpl.
    rewrite !writes_app. simpl. rewrite !app_nil_r. reflexivity.
Qed.

End ClockRest.

(** *** Instances *)

Lemma clk_supply_never_stable_witness :
  sdhci_clk_supply (H := sdhci_v3 65535 10 10) 50 host200 100000000
    (fresh_world silent_dev []) = OutOfFuel.
Proof.
  apply (clk_supply_never_stable (H := sdhci_v3 65535 10 10)).
  - intros n. reflexivity.
  - simpl. lia.
Defined.

Lemma clk_supply_rate_round_trip_witness :
  exists host' w',
    sdhci_clk_supply (H := sdhci_v3 65535 10 10) 300 host200 (200000000 / 500)
      (fresh_world steady_dev [])
    = Done (0, host') w'
    /\ cur_clk_rate host' = 200000000 / 500
    /\ base host' = base host200 /\ caps host' = caps host200.
Proof.
  apply (clk_supply_rate_round_trip (H := sdhci_v3 65535 10 10) 300 host200 500
           (fresh_world steady_dev []) 0%nat).
  - simpl. lia.
  - simpl. lia.
  - reflexivity.
  - simpl. lia.
  - reflexivity.
  - lia.
  - lia.
Defined.

Lemma set_ddr_mode_keeps_rate_witness :
  exists w' d' v1 v2 v3,
    sdhci_set_ddr_mode (H := sdhci_v3 65535 10 10) (P := msm_v3) 300 host200
      (fresh_world steady_dev []) = Done host200 w'
    /\ first_fit (H := sdhci_v3 65535 10 10) 200000000 400000 d'
    /\ 200000000 / d' = 400000
    /\ reads w' = (0 + 0 + 4)%nat
    /\ writes (trace w') =
         [] ++ [EvWrite 16 0x1002C v1;
                EvWrite 16 0x1003E v2;
                EvWrite 16 0x1002C
                  (divider_encoding (H := sdhci_v3 65535 10 10) (Z.shiftr d' 1));
                EvWrite 16 0x1002C v3]
    /\ v1 = u16 (Z.land (wrap 16 2) (Z.lnot 4))
    /\ v2 = u16 (Z.lor (wrap 16 0) 4)
    /\ v3 = u16 (Z.lor (wrap 16 2) 4)
    /\ Z.land v1 4 = 0
    /\ Z.land v2 4 = u16 4
    /\ Z.land v3 4 = u16 4.
Proof.
  apply (set_ddr_mode_keeps_rate (H := sdhci_v3 65535 10 10) (P := msm_v3) 300 host200 500
           (fresh_world steady_dev []) 0%nat).
  - simpl. lia.
  - simpl. lia.
  - reflexivity.
  - simpl. lia.
  - reflexivity.
  - intros j Hj. lia.
  - reflexivity.
  - lia.
  - lia.
Defined.

(** The same call evaluated: clock off (2), DDR on (4), divider 250 in the
    frequency select field with the internal clock enabled (0xFA01), clock
    on (6). *)
Example set_ddr_mode_400kHz :
  writes (final_trace (sdhci_set_ddr_mode (H := sdhci_v3 65535 10 10) (P := msm_v3) 300
                         host200 (fresh_world steady_dev [])))
  = [EvWrite 16 0x1002C 2; EvWrite 16 0x1003E 4; EvWrite 16 0x1002C 0xFA01;
     EvWrite 16 0x1002C 6].
Proof. vm_compute. reflexivity. Qed.

Lemma ddr_mode_after_base_rate_witness :
  exists host' w',
    (rh <- sdhci_clk_supply (H := sdhci_v3 65535 10 10) 1100 host200 200000000 ;;
     sdhci_set_ddr_mode (H := sdhci_v3 65535 10 10) (P := msm_v3) 1100 (snd rh))
      (fresh_world steady_dev []) = Done host' w'
    /\ cur_clk_rate host' = 200000000 / (2046 - 2)
    /\ caps host' = caps host200
    /\ 0 < cur_clk_rate host' < 200000000.
Proof.
  apply (ddr_mode_after_base_rate (H := sdhci_v3 65535 10 10) (P := msm_v3) 1100 host200
           (fresh_world steady_dev [])).
  - simpl. lia.
  - reflexivity.
  - simpl. lia.
  - intros n. reflexivity.
  - simpl. lia.
Defined.

Lemma set_sdr_mode_slow_controller_witness :
  exists w' v1 v2,
    sdhci_set_sdr_mode (H := sdhci_v3 65535 10 10) (P := msm_v3) 10 host50
      (fresh_world steady_dev []) = Done host50 w'
    /\ writes (trace w') = [] ++ [EvWrite 16 0x1002C v1; EvWrite 16 0x1003E v2]
    /\ Z.land v1 4 = 0
    /\ logged (trace w')
       = [] ++ ["Error: Requested clk freq is more than supported"%string].
Proof.
  apply (set_sdr_mode_slow_controller (H := sdhci_v3 65535 10 10) (P := msm_v3) 10 host50
           (fresh_world steady_dev [])).
  simpl. lia.
Defined.

Lemma change_freq_failures_witness :
  (exists w', sdhci_change_freq_clk (H := sdhci_v3 65535 10 10) (P := msm_v3) 10 host200
                100000000 (fresh_world busy_dev []) = Done (1, host200) w'
              /\ writes (trace w') = [])
  /\ (exists w', sdhci_change_freq_clk (H := sdhci_v3 65535 10 10) (P := msm_v3) 10 host200
                   300000000 (fresh_world steady_dev []) = Done (1, host200) w'
                 /\ writes (trace w') = [] ++ [EvWrite 16 0x1002C 0]).
Proof.
  split.
  - apply (proj1 (change_freq_failures (H := sdhci_v3 65535 10 10) (P := msm_v3) 10 host200
                    100000000 (fresh_world busy_dev []))).
    reflexivity.
  - apply (proj2 (change_freq_failures (H := sdhci_v3 65535 10 10) (P := msm_v3) 10 host200
                    300000000 (fresh_world steady_dev []))).
    + reflexivity.
    + simpl. lia.
Defined.

(** ** Reset, capabilities, power interrupt *)

Section ResetAndCaps.

Context {H : sdhci_h} {P : platform_h}.

Lemma wait_reset_done_run host k :
  forall fuel w,
    reset_pending_at host w (reads w + k) = false -> (k < fuel)%nat ->
    exists w', wait_reset_done fuel host w = Done tt w'
               /\ dev w' = dev w
               /\ writes (trace w') = writes (trace w)
               /\ (reads w < reads w' <= reads w + k + 1)%nat.
Proof.
  induction k as [|k IH]; intros fuel w Hclr Hf.
  - destruct fuel as [|n]; [lia|]. simpl. run_step. fold (reset_reg host).
    rewrite Nat.add_0_r in Hclr. unfold reset_pending_at in Hclr.
    rewrite Hclr. simpl. eexists. split; [reflexivity|]. simpl.
    rewrite writes_app. simpl. rewrite app_nil_r. repeat split; lia.
  - destruct fuel as [|n]; [lia|]. simpl. run_step. fold (reset_reg host).
    destruct (nonzero _) eqn:Hnow; simpl.
    + set (w1 := emit _ (tick w)).
      destruct (IH n w1) as (w' & Hrun & Hd & Hw & Hr).
      * unfold w1, reset_pending_at in *. simpl.
        replace (S (reads w + k))%nat with (reads w + S k)%nat by lia. exact Hclr.
      * lia.
      * exists w'. split; [exact Hrun|]. unfold w1 in *. simpl in *.
        rewrite writes_app in Hw. simpl in Hw. rewrite app_nil_r in Hw.
        repeat split; try assumption; lia.
    + eexists. split; [reflexivity|]. simpl.
      rewrite writes_app. simpl. rewrite app_nil_r. repeat split; lia.
Qed.

Lemma wait_reset_done_hangs host fuel :
  forall w, (forall n, reset_pending_at host w n = true) ->
            wait_reset_done fuel host w = OutOfFuel.
Proof.
  induction fuel as [|n IH]; intros w Hpend; [reflexivity|].
  simpl. run_step. fold (reset_reg host).
  pose proof (Hpend (reads w)) as Hnow. unfold reset_pending_at in Hnow.
  rewrite Hnow. simpl. apply IH. intros m. unfold reset_pending_at. simpl. apply Hpend.
Qed.

(** X7: sdhci_reset writes the reset request once and then polls without
    bound.  If the controller shows the reset bit clear at some poll, the
    call returns at the first such poll having written nothing else; if
    the controller never clears the bit, the call never returns, whatever
    the fuel. *)
Theorem reset_waits_for_controller fuel host w :
  (forall k, reset_pending_at host w (reads w + k) = false -> (k < fuel)%nat ->
     exists w', sdhci_reset fuel host w = Done tt w'
                /\ writes (trace w')
                   = writes (trace w) ++ [EvWrite 8 (reset_reg host) (wrap 8 SDHCI_SOFT_RESET)]
                /\ (reads w < reads w' <= reads w + k + 1)%nat)
  /\ ((forall n, reset_pending_at host w n = true) ->
      sdhci_reset fuel host w = OutOfFuel).
Proof.
  split.
  - intros k Hclr Hf. unfold sdhci_reset. unfold bind, REG_WRITE8, mmio_write, act.
    fold (reset_reg host).
    set (w1 := emit _ w).
    destruct (wait_reset_done_run host k fuel w1 Hclr Hf) as (w' & Hrun & _ & Hw & Hr).
    rewrite Hrun. exists w'. split; [reflexivity|]. split; [|exact Hr].
    rewrite Hw. unfold w1. simpl. apply writes_app.
  - intros Hpend. unfold sdhci_reset. unfold bind, REG_WRITE8, mmio_write, act.
    rewrite wait_reset_done_hangs; [reflexivity|].
    intros n. unfold reset_pending_at. simpl. apply Hpend.
Qed.

(** X8: the first part of sdhci_init.  Once the reset completes, the two
    capability words are read, each once and in this order, right after
    the poll that saw the reset complete; the capability record of the
    host is their decoding; nothing but the reset request is written, and
    the base address and the recorded clock rate of the host are left
    alone. *)
Theorem init_read_caps_run fuel host w k :
  reset_pending_at host w (reads w + k) = false -> (k < fuel)%nat ->
  exists w' r,
    (1 <= r <= k + 1)%nat
    /\ init_read_caps fuel host w
       = Done (set_caps host
                 (decode_caps (caps host)
                    (wrap 32 (dev w (reads w + r) (u32 (base host + SDHCI_CAPS_REG1))))
                    (wrap 32 (dev w (reads w + r + 1)
                                (u32 (base host + SDHCI_CAPS_REG2)))))) w'
    /\ reads w' = (reads w + r + 2)%nat
    /\ writes (trace w')
       = writes (trace w) ++ [EvWrite 8 (reset_reg host) (wrap 8 SDHCI_SOFT_RESET)].
Proof.
  intros Hclr Hf. unfold init_read_caps, sdhci_reset.
  unfold bind at 1. unfold bind at 1. unfold REG_WRITE8 at 1, mmio_write, act.
  fold (reset_reg host). set (w1 := emit _ w).
  destruct (wait_reset_done_run host k fuel w1 Hclr Hf) as (w2 & Hrun & Hd & Hw & Hr).
  rewrite Hrun. run_step. rewrite Hd. unfold w1 at 1 2. simpl dev.
  exists (emit (EvRead 32 (u32 (base host + SDHCI_CAPS_REG2))
                  (wrap 32 (dev w (S (reads w2)) (u32 (base host + SDHCI_CAPS_REG2)))))
            (tick (emit (EvRead 32 (u32 (base host + SDHCI_CAPS_REG1))
                           (wrap 32 (dev w (reads w2) (u32 (base host + SDHCI_CAPS_REG1)))))
                     (tick w2)))),
         (reads w2 - reads w)%nat.
  unfold w1 in Hr. simpl in Hr.
  split; [lia|].
  replace (reads w + (reads w2 - reads w))%nat with (reads w2) by lia.
  replace (reads w2 + 1)%nat with (S (reads w2)) by lia.
  split; [reflexivity|]. simpl. split; [lia|].
  rewrite !writes_app, Hw. unfold w1. simpl. rewrite writes_app. simpl.
  rewrite !app_nil_r. reflexivity.
Qed.

(** X9: what the capability decoding remembers.  The 8 bit bus and ADMA
    flags are only ever set: once a capability word has advertised one of
    them, no later decoding clears it.  When no voltage bit is advertised
    the voltage keeps its previous value.  The DDR and SDR50 flags depend
    on the latest second capability word only. *)
Theorem decode_caps_flags_stick c caps0 caps1 caps0' caps1' :
  (nonzero (Z.land caps0 SDHCI_8BIT_WIDTH_MASK) = true ->
   bus_width_8bit (decode_caps (decode_caps c caps0 caps1) caps0' caps1') = 1)
  /\ (nonzero (Z.land caps0 SDHCI_BLK_ADMA_MASK) = true ->
      adma_support (decode_caps (decode_caps c caps0 caps1) caps0' caps1') = 1)
  /\ (nonzero (Z.land caps0' SDHCI_3_3_VOL_MASK) = false ->
      nonzero (Z.land caps0' SDHCI_3_0_VOL_MASK) = false ->
      nonzero (Z.land caps0' SDHCI_1_8_VOL_MASK) = false ->
      voltage (decode_caps (decode_caps c caps0 caps1) caps0' caps1')
      = voltage (decode_caps c caps0 caps1))
  /\ ddr_support (decode_caps (decode_caps c caps0 caps1) caps0' caps1')
     = ddr_support (decode_caps c caps0' caps1')
  /\ sdr50_support (decode_caps (decode_caps c caps0 caps1) caps0' caps1')
     = sdr50_support (decode_caps c caps0' caps1').
Proof.
  split; [|split; [|split; [|split]]].
  - intros Hbit. simpl. rewrite Hbit.
    destruct (nonzero (Z.land caps0' SDHCI_8BIT_WIDTH_MASK)); reflexivity.
  - intros Hbit. simpl. rewrite Hbit.
    destruct (nonzero (Z.land caps0' SDHCI_BLK_ADMA_MASK)); reflexivity.
  - intros H33 H30 H18. simpl. rewrite H33, H30, H18. reflexivity.
  - reflexivity.
  - reflexivity.
Qed.

(** X10: the power interrupt handler reads the mask register once.  With a
    bus-on or bus-off request pending it writes one acknowledgment,
    SDCC_HC_BUS_ON_OFF_SUCC, with SDCC_HC_IO_SIG_SUCC added when an IO
    level request is pending too, signals the event once without
    rescheduling and returns 0.  With no bus request pending [ack] is used
    without ever having been assigned: the behaviour is undefined. *)
Theorem int_handler_ack arg signals w :
  let status := wrap 32 (dev w (reads w) (u32 SDCC_HC_PWRCTL_MASK_REG)) in
  let bus := nonzero (Z.land status (Z.lor SDCC_HC_BUS_ON SDCC_HC_BUS_OFF)) in
  let io := nonzero (Z.land status (Z.lor SDCC_HC_IO_SIG_LOW SDCC_HC_IO_SIG_HIGH)) in
  (bus = true ->
   exists w',
     sdhci_int_handler arg signals w = Done (0, signals ++ [(arg, false)]) w'
     /\ writes (trace w')
        = writes (trace w)
          ++ [EvWrite 32 (u32 SDCC_HC_PWRCTL_CTL_REG)
                (if io then u32 (Z.lor (u32 SDCC_HC_BUS_ON_OFF_SUCC) SDCC_HC_IO_SIG_SUCC)
                 else u32 SDCC_HC_BUS_ON_OFF_SUCC)]
     /\ reads w' = S (reads w))
  /\ (bus = false -> sdhci_int_handler arg signals w = Undefined).
Proof.
  intros status bus io. split.
  - intros Hbus. unfold sdhci_int_handler, readl, writel. run_step.
    fold status. fold bus. fold io. rewrite Hbus.
    destruct io; simpl; (eexists; split; [reflexivity|]; simpl;
      rewrite !writes_app; simpl; rewrite !app_nil_r; split; [|reflexivity];
      do 3 f_equal; unfold u32, wrap; apply Z.mod_mod; lia).
  - intros Hbus. unfold sdhci_int_handler, readl, writel. run_step.
    fold status. fold bus. fold io. rewrite Hbus.
    destruct io; reflexivity.
Qed.

End ResetAndCaps.

Lemma reset_waits_for_controller_witness :
  (exists w', sdhci_reset (H := sdhci_v3 65535 10 10) (P := msm_v3) 5 host200
                (fresh_world reset_then_caps_dev []) = Done tt w'
              /\ writes (trace w') = [] ++ [EvWrite 8 0x1002F 1]
              /\ (0 < reads w' <= 0 + 2 + 1)%nat)
  /\ sdhci_reset (H := sdhci_v3 65535 10 10) (P := msm_v3) 5 host200
       (fresh_world (fun _ _ => 1) []) = OutOfFuel.
Proof.
  split.
  - apply (proj1 (reset_waits_for_controller (H := sdhci_v3 65535 10 10) (P := msm_v3) 5
                    host200 (fresh_world reset_then_caps_dev [])) 2%nat).
    + reflexivity.
    + lia.
  - apply (proj2 (reset_waits_for_controller (H := sdhci_v3 65535 10 10) (P := msm_v3) 5
                    host200 (fresh_world (fun _ _ => 1) []))).
    intros n. reflexivity.
Defined.

Lemma init_read_caps_run_witness :
  exists w' r,
    (1 <= r <= 2 + 1)%nat
    /\ init_read_caps (H := sdhci_v3 65535 10 10) (P := msm_v3) 5 host200
         (fresh_world reset_then_caps_dev [])
       = Done (set_caps host200
                 (decode_caps (P := msm_v3) (caps host200)
                    (wrap 32 (reset_then_caps_dev (0 + r) 0x10040))
                    (wrap 32 (reset_then_caps_dev (0 + r + 1) 0x10044)))) w'
    /\ reads w' = (0 + r + 2)%nat
    /\ writes (trace w') = [] ++ [EvWrite 8 0x1002F 1].
Proof.
  apply (init_read_caps_run (H := sdhci_v3 65535 10 10) (P := msm_v3) 5 host200
           (fresh_world reset_then_caps_dev []) 2%nat).
  - reflexivity.
  - lia.
Defined.

(** The capability record decoded from that controller: 200 MHz, block
    length code 0, ADMA, 3.0 V chosen over 1.8 V, SDR50 without DDR; the
    8 bit flag is the stale one of the host. *)
Example init_read_caps_200MHz :
  returned (init_read_caps (H := sdhci_v3 65535 10 10) (P := msm_v3) 5 host200
              (fresh_world reset_then_caps_dev []))
  = Some (set_caps host200
            {| base_clk_rate := 200000000; max_blk_len := 0; bus_width_8bit := 1;
               adma_support := 1; voltage := 6; ddr_support := 0; sdr50_support := 1 |}).
Proof. vm_compute. reflexivity. Qed.

Lemma decode_caps_flags_stick_witness :
  bus_width_8bit (decode_caps (P := msm_v3)
                    (decode_caps (P := msm_v3)
                       (caps host50) 0x40000 0) 0 0) = 1
  /\ voltage (decode_caps (P := msm_v3)
                (decode_caps (P := msm_v3)
                   (caps host50) 0x4000000 0) 0 0) = 5.
Proof.
  split.
  - apply (proj1 (decode_caps_flags_stick (P := msm_v3)
                    (caps host50) 0x40000 0 0 0)).
    reflexivity.
  - rewrite (proj1 (proj2 (proj2 (decode_caps_flags_stick
               (P := msm_v3) (caps host50) 0x4000000 0 0 0)))); reflexivity.
Defined.

Lemma int_handler_ack_witness :
  (exists w',
     sdhci_int_handler (P := msm_v3) 0x7000 [] (fresh_world bus_on_dev [])
     = Done (0, [] ++ [(0x7000, false)]) w'
     /\ writes (trace w') = [] ++ [EvWrite 32 0xF98240E8 1]
     /\ reads w' = 1%nat)
  /\ sdhci_int_handler (P := msm_v3) 0x7000 [] (fresh_world io_only_dev []) = Undefined.
Proof.
  split.
  - apply (proj1 (int_handler_ack (P := msm_v3) 0x7000 [] (fresh_world bus_on_dev []))).
    reflexivity.
  - apply (proj2 (int_handler_ack (P := msm_v3) 0x7000 [] (fresh_world io_only_dev []))).
    reflexivity.
Defined.

(** ** Command engine: classification and completion *)

Lemma logged_app t1 t2 : logged (t1 ++ t2) = logged t1 ++ logged t2.
Proof. apply List.flat_map_app. Qed.

Lemma invalidates_app t1 t2 : invalidates (t1 ++ t2) = invalidates t1 ++ invalidates t2.
Proof. apply List.flat_map_app. Qed.

Section Completion.

Context {H : sdhci_h}.

(** X11: sdhci_cmd_err_status reads the error interrupt status once and
    reports the first kind, in the fixed order of its tests, that has a
    bit in the value read: it logs the line of that kind and returns 1.
    It returns 0 without logging when no kind matches.  It writes no
    register, so the error status is left as it is. *)
Theorem cmd_err_status_classifies host w :
  let err := wrap 16 (dev w (reads w) (err_int_sts_reg host)) in
  let w1 := emit (EvRead 16 (err_int_sts_reg host) err) (tick w) in
  sdhci_cmd_err_status host w
  = match classify err with
    | Some msg => Done 1 (emit (EvDprintf msg) w1)
    | None => Done 0 w1
    end.
Proof.
  intros err w1. unfold sdhci_cmd_err_status. run_step.
  fold (err_int_sts_reg host). fold err. fold w1.
  unfold classify, err_table. simpl.
  repeat match goal with
         | |- context [nonzero (Z.land err ?m)] => destruct (nonzero (Z.land err m))
         end; reflexivity.
Qed.

(** X12: an error the classifier does not know is not an error.  When the
    normal interrupt status shows the error summary bit but the error
    interrupt status has none of the ten classified bits, the part of
    sdhci_cmd_complete after the label err returns 0, logs nothing, and
    goes on to reset the lines if the command has data. *)
Theorem cmd_complete_unclassified_error host cmd w :
  err_int_at host w (reads w) = true ->
  classify (wrap 16 (dev w (S (reads w)) (err_int_sts_reg host))) = None ->
  exists w',
    cmd_complete_err host cmd w = Done 0 w'
    /\ logged (trace w') = logged (trace w)
    /\ writes (trace w')
       = writes (trace w) ++ (if nonzero (data_present cmd) then [line_reset host] else []).
Proof.
  intros Herr Hcls. unfold cmd_complete_err, sdhci_cmd_err_status. run_step.
  fold (nrml_int_sts_reg host). fold (err_int_sts_reg host).
  unfold err_int_at in Herr. rewrite Herr.
  revert Hcls. unfold classify, err_table. simpl.
  set (err := wrap 16 (dev w (S (reads w)) (err_int_sts_reg host))).
  repeat match goal with
         | |- context [nonzero (Z.land err ?m)] => destruct (nonzero (Z.land err m))
         end; try discriminate.
  intros _. simpl.
  destruct (nonzero (data_present cmd)); simpl;
    (eexists; split; [reflexivity|]; simpl;
     rewrite !logged_app, !writes_app; simpl; rewrite ?app_nil_r; split; reflexivity).
Qed.

Lemma wait_cmd_complete_now fuel host retry w :
  cmd_complete_at host w (reads w) = true -> (1 <= fuel)%nat ->
  wait_cmd_complete fuel host retry w
  = Done true (emit (EvRead 16 (nrml_int_sts_reg host)
                       (wrap 16 (dev w (reads w) (nrml_int_sts_reg host)))) (tick w)).
Proof.
  intros Hnow Hf. destruct fuel as [|n]; [lia|]. simpl. run_step.
  fold (nrml_int_sts_reg host). unfold cmd_complete_at in Hnow. rewrite Hnow. reflexivity.
Qed.

(** The second polling loop when the Transfer-Complete bit never shows. *)
Lemma wait_trans_complete_timeout host :
  0 < SDHCI_MAX_TRANS_RETRY < 2 ^ 16 ->
  forall cnt fuel retry w,
    0 <= retry -> retry + Z.of_nat cnt = SDHCI_MAX_TRANS_RETRY ->
    (1 <= cnt)%nat -> (cnt <= fuel)%nat ->
    (forall j, (j < cnt)%nat -> trans_complete_at host w (reads w + j) = false) ->
    exists w',
      wait_trans_complete fuel host retry w = Done false w'
      /\ dev w' = dev w /\ reads w' = (reads w + cnt)%nat
      /\ writes (trace w') = writes (trace w)
      /\ logged (trace w')
         = logged (trace w) ++ ["Error: Transfer never completed"%string].
Proof.
  intros Hmax. induction cnt as [|c IH]; intros fuel retry w Hr Hsum Hc Hf Hnever; [lia|].
  destruct fuel as [|n]; [lia|]. simpl. run_step. fold (nrml_int_sts_reg host).
  pose proof (Hnever 0%nat ltac:(lia)) as Hnow.
  unfold trans_complete_at in Hnow. rewrite Nat.add_0_r in Hnow. rewrite Hnow.
  assert (Hu : u16 (retry + 1) = retry + 1) by (unfold u16; apply wrap_small; lia).
  rewrite Hu.
  destruct (Nat.eq_dec c 0%nat) as [-> | Hc0].
  - assert (Heq : (retry + 1 =? SDHCI_MAX_TRANS_RETRY) = true) by (apply Z.eqb_eq; lia).
    rewrite Heq. eexists. split; [reflexivity|]. simpl.
    rewrite !writes_app, !logged_app. simpl. rewrite !app_nil_r.
    repeat split; lia.
  - assert (Hne : (retry + 1 =? SDHCI_MAX_TRANS_RETRY) = false) by (apply Z.eqb_neq; lia).
    rewrite Hne.
    set (w1 := emit _ (emit _ (tick w))).
    destruct (IH n (retry + 1) w1) as (w' & Hrun & Hd & Hrd & Hw & Hlog).
    + lia.
    + lia.
    + lia.
    + lia.
    + intros j Hj. unfold w1, trans_complete_at. simpl.
      replace (S (reads w + j))%nat with (reads w + S j)%nat by lia.
      apply (Hnever (S j)). lia.
    + exists w'. split; [exact Hrun|]. unfold w1 in *. simpl in *.
      rewrite !writes_app in Hw. rewrite !logged_app in Hlog. simpl in Hw, Hlog.
      rewrite !app_nil_r in Hw. rewrite !app_nil_r in Hlog.
      repeat split; try assumption; lia.
Qed.

(** X13: a transfer that never completes is reported as success.  For a
    data command with a 48 bit response whose Command-Complete bit shows
    at the first poll but whose Transfer-Complete bit does not show within
    SDHCI_MAX_TRANS_RETRY polls, sdhci_cmd_complete logs that the transfer
    never completed, leaves the Transfer-Complete bit alone, and, unless
    the error summary bit is raised, resets the lines and returns 0 with
    the response copied. *)
Theorem transfer_timeout_reported_as_success fuel host cmd w :
  0 < SDHCI_MAX_TRANS_RETRY < 2 ^ 16 ->
  (Z.to_nat SDHCI_MAX_TRANS_RETRY <= fuel)%nat ->
  nonzero (data_present cmd) = true ->
  resp_type cmd <> SDHCI_CMD_RESP_R2 ->
  cmd_complete_at host w (reads w) = true ->
  (forall j, (j < Z.to_nat SDHCI_MAX_TRANS_RETRY)%nat ->
             trans_complete_at host w (reads w + 2 + j) = false) ->
  err_int_at host w (reads w + 2 + Z.to_nat SDHCI_MAX_TRANS_RETRY) = false ->
  exists w',
    sdhci_cmd_complete fuel host cmd w
    = Done (0, set_resp cmd
                 (<[0%nat := wrap 32 (dev w (S (reads w)) (u32 (base host + SDHCI_RESP_REG)))]>
                    (resp cmd))) w'
    /\ logged (trace w')
       = logged (trace w) ++ ["Error: Transfer never completed"%string]
    /\ writes (trace w')
       = writes (trace w)
         ++ [EvWrite 16 (nrml_int_sts_reg host) (wrap 16 SDHCI_INT_STS_CMD_COMPLETE);
             line_reset host].
Proof.
  intros Hmax Hfuel Hdata Hty Hcc Hnever Herr.
  unfold sdhci_cmd_complete, cmd_complete_wait. unfold bind at 1. unfold bind at 1.
  rewrite (wait_cmd_complete_now fuel host 0 w Hcc) by lia.
  unfold copy_response. apply Z.eqb_neq in Hty. rewrite Hty.
  unfold bind at 1. unfold REG_WRITE16 at 1, mmio_write, act.
  unfold bind at 1. unfold bind at 1. unfold REG_READ32 at 1, mmio_read. simpl reads. simpl dev.
  unfold ret at 1. cbn [data_present set_resp]. rewrite Hdata. rewrite orb_true_l.
  fold (nrml_int_sts_reg host).
  set (w2 := emit _ (tick (emit _ (emit _ (tick w))))).
  destruct (wait_trans_complete_timeout host Hmax (Z.to_nat SDHCI_MAX_TRANS_RETRY) fuel 0 w2)
    as (w3 & Hrun & Hd & Hrd & Hw & Hlog); [lia | lia | lia | lia | |].
  { intros j Hj. unfold w2, trans_complete_at. simpl.
    replace (S (S (reads w + j)))%nat with (reads w + 2 + j)%nat by lia.
    apply Hnever. exact Hj. }
  unfold bind at 1. rewrite Hrun. unfold ret at 1.
  assert (Hd' : dev w3 = dev w) by (rewrite Hd; reflexivity).
  assert (Hrd' : reads w3 = (reads w + 2 + Z.to_nat SDHCI_MAX_TRANS_RETRY)%nat)
    by (rewrite Hrd; unfold w2; simpl; lia).
  unfold cmd_complete_err. run_step. fold (nrml_int_sts_reg host).
  rewrite Hd', Hrd'.
  unfold err_int_at in Herr. rewrite Herr. simpl. rewrite Hdata.
  eexists. split; [reflexivity|]. simpl.
  rewrite !logged_app, !writes_app, Hlog, Hw. unfold w2. simpl.
  rewrite !logged_app, !writes_app. simpl. rewrite !app_nil_r, <- !app_assoc.
  split; reflexivity.
Qed.

End Completion.

Lemma cmd_complete_unclassified_error_witness :
  exists w',
    cmd_complete_err (H := sdhci_v3 65535 10 10) host200 cmd_read300
      (fresh_world odd_error_dev []) = Done 0 w'
    /\ logged (trace w') = []
    /\ writes (trace w') = [] ++ [EvWrite 8 0x1002F 6].
Proof.
  apply (cmd_complete_unclassified_error (H := sdhci_v3 65535 10 10) host200 cmd_read300
           (fresh_world odd_error_dev [])).
  - reflexivity.
  - reflexivity.
Defined.

Lemma transfer_timeout_reported_as_success_witness :
  exists w',
    sdhci_cmd_complete (H := sdhci_v3 65535 10 10) 10 host200 cmd_read300
      (fresh_world no_transfer_dev [])
    = Done (0, set_resp cmd_read300 (<[0%nat := wrap 32 0]> (resp cmd_read300))) w'
    /\ logged (trace w') = [] ++ ["Error: Transfer never completed"%string]
    /\ writes (trace w') = [] ++ [EvWrite 16 0x10030 1; EvWrite 8 0x1002F 6].
Proof.
  apply (transfer_timeout_reported_as_success (H := sdhci_v3 65535 10 10) 10 host200
           cmd_read300 (fresh_world no_transfer_dev [])).
  - simpl. lia.
  - simpl. lia.
  - reflexivity.
  - simpl. lia.
  - reflexivity.
  - intros j _. reflexivity.
  - reflexivity.
Defined.

(** ** Command engine: issuing a command *)

Lemma bind_ret_l {A B} (a : A) (k : A -> M B) : bind (ret a) k = k a.
Proof. reflexivity. Qed.

Lemma emits_weaken {A} (P Q : event -> Prop) (m : M A) :
  (forall e, P e -> Q e) -> emits P m -> emits Q m.
Proof.
  intros HPQ Hm w a w' Hrun. destruct (Hm w a w' Hrun) as (Hh & Hp & t & Ht & HP).
  split; [exact Hh|]. split; [exact Hp|]. exists t. split; [exact Ht|].
  rewrite Forall_forall in HP |- *. intros e He. apply HPQ, HP, He.
Qed.

(** Sequencing when the continuation needs to know what the first part
    returned. *)
Lemma emits_bind_post {A B} P (Q : A -> Prop) (m : M A) (k : A -> M B) :
  emits P m -> (forall w a w', m w = Done a w' -> Q a) ->
  (forall a, Q a -> emits P (k a)) -> emits P (bind m k).
Proof.
  intros Hm HQ Hk w b w' Hrun. unfold bind in Hrun.
  destruct (m w) as [a w1| | |] eqn:Hmw; try discriminate.
  destruct (Hm w a w1 Hmw) as (Hh1 & Hp1 & t1 & Ht1 & HP1).
  destruct (Hk a (HQ w a w1 Hmw) w1 b w' Hrun) as (Hh2 & Hp2 & t2 & Ht2 & HP2).
  split; [congruence|]. split; [congruence|]. exists (t1 ++ t2). split.
  - rewrite Ht2, Ht1, app_assoc. reflexivity.
  - apply Forall_app. split; assumption.
Qed.

Lemma emits_assert_fail {A} P : emits P (@assert_fail A).
Proof. intros w a w' Hrun. discriminate. Qed.

Lemma poll_io_no_write t : Forall poll_io t -> writes t = [].
Proof.
  induction 1 as [|e t He _ IH]; [reflexivity|].
  destruct e; simpl in *; try contradiction; exact IH.
Qed.

Lemma poll_io_no_invalidate t : Forall poll_io t -> invalidates t = [].
Proof.
  induction 1 as [|e t He _ IH]; [reflexivity|].
  destruct e; simpl in *; try contradiction; exact IH.
Qed.

Ltac emits_all :=
  repeat first
    [ apply emits_bind; [|intros ?]
    | apply emits_if
    | apply emits_ret
    | apply emits_out_of_fuel
    | apply emits_assert_fail
    | apply emits_read; intros ?; exact I
    | apply emits_act; exact I ].

Section SendCommand.

Context {H : sdhci_h}.

Lemma wait_lines_free_emits host fuel :
  forall retry, emits poll_io (wait_lines_free fuel host retry).
Proof.
  induction fuel as [|n IH]; intros retry; simpl.
  - apply emits_out_of_fuel.
  - unfold REG_READ32, udelay, dprintf. emits_all. apply IH.
Qed.

(** The do-while loop when the lines stay busy. *)
Lemma wait_lines_free_busy host :
  forall cnt fuel retry w,
    0 <= retry -> retry + Z.of_nat cnt = 10 -> (1 <= cnt)%nat -> (cnt <= fuel)%nat ->
    (forall j, (j < cnt)%nat -> lines_busy_at host w (reads w + j) = true) ->
    exists w',
      wait_lines_free fuel host retry w = Done false w'
      /\ logged (trace w')
         = logged (trace w) ++ ["Error: CMD or DAT lines were never freed"%string].
Proof.
  induction cnt as [|c IH]; intros fuel retry w Hr Hsum Hc Hf Hbusy; [lia|].
  destruct fuel as [|n]; [lia|]. simpl. run_step. fold (present_state_reg host).
  pose proof (Hbusy 0%nat ltac:(lia)) as Hnow.
  unfold lines_busy_at in Hnow. rewrite Nat.add_0_r in Hnow. rewrite Hnow. simpl.
  assert (Hu : u8 (retry + 1) = retry + 1) by (unfold u8; apply wrap_small; lia).
  rewrite Hu.
  destruct (Nat.eq_dec c 0%nat) as [-> | Hc0].
  - assert (Heq : (retry + 1 =? 10) = true) by (apply Z.eqb_eq; lia).
    rewrite Heq. eexists. split; [reflexivity|]. simpl.
    rewrite !logged_app. simpl. rewrite !app_nil_r. reflexivity.
  - assert (Hne : (retry + 1 =? 10) = false) by (apply Z.eqb_neq; lia).
    rewrite Hne.
    set (w1 := emit _ (emit _ (tick w))).
    destruct (IH n (retry + 1) w1) as (w' & Hrun & Hlog).
    + lia.
    + lia.
    + lia.
    + lia.
    + intros j Hj. unfold w1, lines_busy_at. simpl.
      replace (S (reads w + j))%nat with (reads w + S j)%nat by lia.
      apply (Hbusy (S j)). lia.
    + exists w'. split; [exact Hrun|]. rewrite Hlog. unfold w1. simpl.
      rewrite !logged_app. simpl. rewrite !app_nil_r. reflexivity.
Qed.

(** The do-while loop when the lines are free at the poll number [k]. *)
Lemma wait_lines_free_done host :
  forall k fuel retry w,
    0 <= retry -> retry + Z.of_nat k < 10 -> (k < fuel)%nat ->
    (forall j, (j < k)%nat -> lines_busy_at host w (reads w + j) = true) ->
    lines_busy_at host w (reads w + k) = false ->
    exists w',
      wait_lines_free fuel host retry w = Done true w'
      /\ dev w' = dev w /\ reads w' = (reads w + k + 1)%nat
      /\ logged (trace w') = logged (trace w).
Proof.
  induction k as [|k IH]; intros fuel retry w Hr Hsum Hf Hbusy Hfree;
    (destruct fuel as [|n]; [lia|]); simpl; run_step; fold (present_state_reg host).
  - unfold lines_busy_at in Hfree. rewrite Nat.add_0_r in Hfree. rewrite Hfree. simpl.
    eexists. split; [reflexivity|]. simpl. rewrite !logged_app. simpl.
    rewrite !app_nil_r. repeat split; lia.
  - pose proof (Hbusy 0%nat ltac:(lia)) as Hnow.
    unfold lines_busy_at in Hnow. rewrite Nat.add_0_r in Hnow. rewrite Hnow. simpl.
    assert (Hu : u8 (retry + 1) = retry + 1) by (unfold u8; apply wrap_small; lia).
    rewrite Hu.
    assert (Hne : (retry + 1 =? 10) = false) by (apply Z.eqb_neq; lia).
    rewrite Hne.
    set (w1 := emit _ (emit _ (tick w))).
    destruct (IH n (retry + 1) w1) as (w' & Hrun & Hd & Hrd & Hlog).
    + lia.
    + lia.
    + lia.
    + intros j Hj. unfold w1, lines_busy_at. simpl.
      replace (S (reads w + j))%nat with (reads w + S j)%nat by lia.
      apply (Hbusy (S j)). lia.
    + unfold w1, lines_busy_at. simpl.
      replace (S (reads w + k))%nat with (reads w + S k)%nat by lia.
      exact Hfree.
    + exists w'. split; [exact Hrun|]. unfold w1 in *. simpl in *.
      rewrite !logged_app in Hlog. simpl in Hlog. rewrite !app_nil_r in Hlog.
      repeat split; try assumption; lia.
Qed.

(** Both assertions pass and leave no mark. *)
Lemma asserts_pass cmd :
  asserts_hold cmd = true ->
  (if nonzero (data_present cmd)
   then ASSERT (nonzero (data_ptr (data cmd))) else ret tt) = ret tt
  /\ (if trans_mode cmd =? SDHCI_READ_MODE
      then ASSERT (IS_CACHE_LINE_ALIGNED (data_ptr (data cmd))) else ret tt) = ret tt.
Proof.
  unfold asserts_hold. intros Ha. apply andb_prop in Ha as [A1 A2]. split.
  - destruct (nonzero (data_present cmd)); [|reflexivity].
    simpl in A1. rewrite A1. reflexivity.
  - destruct (trans_mode cmd =? SDHCI_READ_MODE); [|reflexivity].
    simpl in A2. rewrite A2. reflexivity.
Qed.

(** X14: when the CMD and DAT lines stay busy for ten polls of the present
    state register, sdhci_send_command logs that the lines were never
    freed and returns 1 with the command untouched: no register is
    written, nothing is allocated. *)
Theorem send_command_lines_busy fuel host cmd w :
  asserts_hold cmd = true -> (10 <= fuel)%nat ->
  (forall j, (j < 10)%nat -> lines_busy_at host w (reads w + j) = true) ->
  exists w',
    sdhci_send_command fuel host cmd w = Done (1, cmd) w'
    /\ writes (trace w') = writes (trace w)
    /\ logged (trace w')
       = logged (trace w) ++ ["Error: CMD or DAT lines were never freed"%string]
    /\ heap w' = heap w /\ pool w' = pool w.
Proof.
  intros Ha Hfuel Hbusy.
  destruct (asserts_pass cmd Ha) as [A1 A2].
  destruct (wait_lines_free_busy host 10 fuel 0 w) as (w' & Hrun & Hlog);
    [lia | lia | lia | lia | exact Hbusy |].
  destruct (wait_lines_free_emits host fuel 0 w false w' Hrun) as (Hh & Hp & t & Ht & HP).
  exists w'. split.
  - unfold sdhci_send_command. rewrite A1, A2, !bind_ret_l.
    unfold bind. rewrite Hrun. reflexivity.
  - rewrite Ht at 1. rewrite writes_app, (poll_io_no_write t HP), app_nil_r.
    repeat split; assumption.
Qed.

(** X15: a response type outside the seven the switch knows is refused
    once the lines are free: sdhci_send_command logs the invalid response
    type and returns 1 with the command untouched, without having written
    a register. *)
Theorem send_command_invalid_resp_type fuel host cmd w k :
  asserts_hold cmd = true -> (k < 10)%nat -> (k < fuel)%nat ->
  (forall j, (j < k)%nat -> lines_busy_at host w (reads w + j) = true) ->
  lines_busy_at host w (reads w + k) = false ->
  ~ In (resp_type cmd)
       [SDHCI_CMD_RESP_R1; SDHCI_CMD_RESP_R3; SDHCI_CMD_RESP_R6; SDHCI_CMD_RESP_R7;
        SDHCI_CMD_RESP_R2; SDHCI_CMD_RESP_R1B; SDHCI_CMD_RESP_NONE] ->
  exists w',
    sdhci_send_command fuel host cmd w = Done (1, cmd) w'
    /\ writes (trace w') = writes (trace w)
    /\ logged (trace w')
       = logged (trace w) ++ ["Invalid response type for the command"%string]
    /\ heap w' = heap w /\ pool w' = pool w.
Proof.
  intros Ha Hk Hfuel Hbusy Hfree Hty.
  destruct (asserts_pass cmd Ha) as [A1 A2].
  destruct (wait_lines_free_done host k fuel 0 w) as (w1 & Hrun & _ & _ & Hlog);
    [lia | lia | lia | exact Hbusy | exact Hfree |].
  destruct (wait_lines_free_emits host fuel 0 w true w1 Hrun) as (Hh & Hp & t & Ht & HP).
  assert (Hsel : resp_type_sel (resp_type cmd) = None).
  { unfold resp_type_sel. simpl in Hty.
    repeat match goal with
           | |- context [?a =? ?b] =>
               let E := fresh "E" in
               destruct (Z.eqb_spec a b) as [E|E]; [exfalso; apply Hty; symmetry in E; tauto|]
           end.
    reflexivity. }
  eexists. split.
  - unfold sdhci_send_command. rewrite A1, A2, !bind_ret_l.
    unfold bind at 1. rewrite Hrun, Hsel. run_step. reflexivity.
  - simpl. rewrite writes_app, logged_app, Hlog. simpl. rewrite !app_nil_r.
    rewrite Ht, writes_app, (poll_io_no_write t HP), app_nil_r.
    repeat split; assumption.
Qed.

(** X16: a data command without a buffer, or a command in transfer mode
    SDHCI_READ_MODE whose buffer is not cache line aligned, stops in the
    assertion before the controller is touched: the world is as it was. *)
Theorem send_command_assertions fuel host cmd w :
  asserts_hold cmd = false ->
  sdhci_send_command fuel host cmd w = Abort w.
Proof.
  unfold asserts_hold, sdhci_send_command. intros Ha.
  destruct (nonzero (data_present cmd)); simpl in Ha.
  - destruct (nonzero (data_ptr (data cmd))); simpl in Ha; [|reflexivity].
    destruct (trans_mode cmd =? SDHCI_READ_MODE); simpl in Ha; [|discriminate].
    rewrite Ha. reflexivity.
  - destruct (trans_mode cmd =? SDHCI_READ_MODE); simpl in Ha; [|discriminate].
    rewrite Ha. reflexivity.
Qed.

End SendCommand.

Lemma send_command_lines_busy_witness :
  exists w',
    sdhci_send_command (H := sdhci_v3 65535 10 10) 10 host200 cmd_read300
      (fresh_world busy_dev [0x80000])
    = Done (1, cmd_read300) w'
    /\ writes (trace w') = []
    /\ logged (trace w') = [] ++ ["Error: CMD or DAT lines were never freed"%string]
    /\ heap w' = ∅ /\ pool w' = [0x80000].
Proof.
  apply (send_command_lines_busy (H := sdhci_v3 65535 10 10) 10 host200 cmd_read300
           (fresh_world busy_dev [0x80000])).
  - reflexivity.
  - lia.
  - intros j _. reflexivity.
Defined.

Lemma send_command_invalid_resp_type_witness :
  exists w',
    sdhci_send_command (H := sdhci_v3 65535 10 10) 10 host200 cmd_bad_resp
      (fresh_world silent_dev [])
    = Done (1, cmd_bad_resp) w'
    /\ writes (trace w') = []
    /\ logged (trace w') = [] ++ ["Invalid response type for the command"%string]
    /\ heap w' = ∅ /\ pool w' = [].
Proof.
  apply (send_command_invalid_resp_type (H := sdhci_v3 65535 10 10) 10 host200 cmd_bad_resp
           (fresh_world silent_dev []) 0).
  - reflexivity.
  - lia.
  - lia.
  - intros j Hj. lia.
  - reflexivity.
  - simpl. intros Hin. repeat destruct Hin as [Hin|Hin]; try discriminate Hin. exact Hin.
Defined.

Lemma send_command_assertions_witness :
  sdhci_send_command (H := sdhci_v3 65535 10 10) 10 host200 cmd_null_buffer
    (fresh_world silent_dev [])
  = Abort (fresh_world silent_dev [])
  /\ sdhci_send_command (H := sdhci_v3 65535 10 10) 10 host200 cmd_unaligned
       (fresh_world silent_dev [])
     = Abort (fresh_world silent_dev []).
Proof.
  split.
  - apply (send_command_assertions (H := sdhci_v3 65535 10 10) 10 host200 cmd_null_buffer).
    reflexivity.
  - apply (send_command_assertions (H := sdhci_v3 65535 10 10) 10 host200 cmd_unaligned).
    reflexivity.
Defined.

(** ** Command engine: descriptor table and clean-up *)

Lemma hw_io_no_free t : Forall hw_io t -> frees t = [].
Proof.
  induction 1 as [|e t He _ IH]; [reflexivity|].
  destruct e; simpl in *; try contradiction; exact IH.
Qed.

Lemma status_io_hw_io {H : sdhci_h} host e : status_io host e -> hw_io e.
Proof. destruct e; simpl; tauto. Qed.

Lemma status_io_no_dma_io {H : sdhci_h} host e : status_io host e -> no_dma_io host e.
Proof.
  destruct e; simpl; try tauto; try (intros _; unfold line_reset; discriminate).
  intros [Hbits _]. unfold line_reset. intros Heq. injection Heq as Hb _ _.
  rewrite Hb in Hbits. discriminate.
Qed.

Lemma poll_io_no_dma_io {H : sdhci_h} host e : poll_io e -> no_dma_io host e.
Proof.
  destruct e; simpl; try tauto; intros _; unfold line_reset; discriminate.
Qed.

Section IssueAndRelease.

Context {H : sdhci_h}.

Lemma set_resp_same cmd : set_resp cmd (resp cmd) = cmd.
Proof. destruct cmd; reflexivity. Qed.

Lemma copy_response_keeps host cmd w c w' :
  copy_response host cmd w = Done c w' -> exists rs, c = set_resp cmd rs.
Proof.
  unfold copy_response. destruct (resp_type cmd =? SDHCI_CMD_RESP_R2); unfold bind.
  - destruct (copy_resp_loop host [0; 1; 2; 3] (resp cmd) w) as [r w1| | |];
      try discriminate.
    unfold ret. intros Heq. injection Heq as <- _. eexists; reflexivity.
  - unfold REG_READ32, mmio_read, ret. intros Heq. injection Heq as <- _.
    eexists; reflexivity.
Qed.

(** The completion sequence hands back the command it was given, with at
    most the response words changed. *)
Lemma cmd_complete_wait_keeps fuel host cmd w c w' :
  cmd_complete_wait fuel host cmd w = Done c w' -> exists rs, c = set_resp cmd rs.
Proof.
  unfold cmd_complete_wait. unfold bind at 1.
  destruct (wait_cmd_complete fuel host 0 w) as [[] w1| | |]; try discriminate.
  - unfold bind at 1. unfold REG_WRITE16 at 1, mmio_write, act.
    unfold bind at 1.
    destruct (copy_response host cmd (emit _ w1)) as [c1 w2| | |] eqn:Ec; try discriminate.
    apply copy_response_keeps in Ec.
    destruct (nonzero (data_present c1) || (cmd_index c1 =? SDHCI_SWITCH_CMD)).
    + unfold bind at 1.
      destruct (wait_trans_complete fuel host 0 w2) as [[] w3| | |]; try discriminate.
      * run_step. intros Heq. injection Heq as <- _. exact Ec.
      * unfold ret. intros Heq. injection Heq as <- _. exact Ec.
    + unfold ret. intros Heq. injection Heq as <- _. exact Ec.
  - unfold ret. intros Heq. injection Heq as <- _.
    exists (resp cmd). symmetry. apply set_resp_same.
Qed.

Lemma cmd_complete_keeps fuel host cmd w r c w' :
  sdhci_cmd_complete fuel host cmd w = Done (r, c) w' -> exists rs, c = set_resp cmd rs.
Proof.
  unfold sdhci_cmd_complete. unfold bind at 1.
  destruct (cmd_complete_wait fuel host cmd w) as [c1 w1| | |] eqn:Ew; try discriminate.
  apply cmd_complete_wait_keeps in Ew. unfold bind.
  destruct (cmd_complete_err host c1 w1) as [r1 w2| | |]; try discriminate.
  unfold ret. intros Heq. injection Heq as _ <- _. exact Ew.
Qed.

(** The completion sequence only talks to the controller and the log. *)
Lemma cmd_complete_emits fuel host cmd : emits hw_io (sdhci_cmd_complete fuel host cmd).
Proof.
  unfold sdhci_cmd_complete.
  apply emits_bind;
    [eapply emits_weaken; [apply (status_io_hw_io host)|apply cmd_complete_wait_emits]|].
  intros c. apply emits_bind; [|intros r; apply emits_ret].
  unfold cmd_complete_err, REG_READ16, REG_WRITE8, mmio_write, dprintf.
  apply emits_bind; [apply emits_read; intros v; exact I|]. intros st.
  apply emits_bind.
  { apply emits_if; [|apply emits_ret].
    eapply emits_weaken; [apply (status_io_hw_io host)|apply cmd_err_status_emits]. }
  intros failed. emits_all.
Qed.

(** Without data the completion sequence does not reset the lines. *)
Lemma cmd_complete_emits_no_data fuel host cmd :
  nonzero (data_present cmd) = false ->
  emits (no_dma_io host) (sdhci_cmd_complete fuel host cmd).
Proof.
  intros Hdata. unfold sdhci_cmd_complete.
  apply emits_bind_post with (Q := fun c => exists rs, c = set_resp cmd rs).
  - eapply emits_weaken; [apply (status_io_no_dma_io host)|apply cmd_complete_wait_emits].
  - intros w c w' Hrun. exact (cmd_complete_wait_keeps fuel host cmd w c w' Hrun).
  - intros c [rs ->]. apply emits_bind; [|intros r; apply emits_ret].
    assert (Hst : forall A (m : M A), emits (status_io host) m -> emits (no_dma_io host) m).
    { intros A m. apply emits_weaken. apply (status_io_no_dma_io host). }
    unfold cmd_complete_err. cbn [data_present set_resp]. rewrite Hdata.
    apply Hst. unfold REG_READ16, dprintf.
    apply emits_bind; [apply emits_read; intros v; exact I|]. intros st.
    apply emits_bind; [apply emits_if; [apply cmd_err_status_emits|apply emits_ret]|].
    intros failed. emits_all.
Qed.

(** X17: a command without data never allocates or releases memory, never
    flushes a descriptor table and never resets the lines, however the
    controller answers; the timeout register is taken to be another
    register than the reset register. *)
Theorem send_command_without_data fuel host cmd w rc w' :
  nonzero (data_present cmd) = false ->
  timeout_reg host <> reset_reg host ->
  sdhci_send_command fuel host cmd w = Done rc w' ->
  heap w' = heap w /\ pool w' = pool w
  /\ exists t, trace w' = trace w ++ t /\ Forall (no_dma_io host) t.
Proof.
  intros Hdata Hne. revert w rc w'.
  change (emits (no_dma_io host) (sdhci_send_command fuel host cmd)).
  unfold sdhci_send_command. rewrite Hdata, bind_ret_l.
  apply emits_bind.
  { apply emits_if; [|apply emits_ret].
    unfold ASSERT. apply emits_if; [apply emits_ret|apply emits_assert_fail]. }
  intros _. apply emits_bind.
  { eapply emits_weaken; [apply (poll_io_no_dma_io host)|apply wait_lines_free_emits]. }
  intros free_lines. apply emits_if; [|apply emits_ret].
  destruct (resp_type_sel (resp_type cmd)) as [rt|].
  - unfold send_command_issue. rewrite Hdata.
    apply emits_bind.
    { unfold REG_WRITE8, mmio_write. apply emits_act. simpl. unfold line_reset.
      intros Heq. injection Heq as Ha _. apply Hne. exact Ha. }
    intros _. rewrite bind_ret_l.
    apply emits_bind.
    { unfold REG_WRITE32, mmio_write. apply emits_act. simpl. unfold line_reset.
      discriminate. }
    intros _. apply emits_bind.
    { unfold REG_WRITE16, mmio_write. apply emits_act. simpl. unfold line_reset.
      discriminate. }
    intros _. apply emits_bind; [apply cmd_complete_emits_no_data; exact Hdata|].
    intros r. apply emits_if; [apply emits_ret|].
    apply emits_bind.
    { apply emits_if; [|apply emits_ret].
      unfold arch_invalidate_cache_range. apply emits_act. simpl. unfold line_reset.
      discriminate. }
    intros _. simpl. rewrite bind_ret_l. apply emits_ret.
  - unfold dprintf. apply emits_bind; [|intros _; apply emits_ret].
    apply emits_act. simpl. unfold line_reset. discriminate.
Qed.

(** sdhci_adma_transfer on a block the allocator hands out: the table, the
    allocator, and the registers programmed. *)
Lemma adma_transfer_run_writes fuel host cmd w p ps :
  sizeof_desc_entry < SDHCI_ADMA_DESC_LINE_SZ ->
  pool w = p :: ps -> p <> 0 ->
  transfer_size cmd / SDHCI_ADMA_DESC_LINE_SZ < Z.of_nat fuel ->
  exists w1 tm,
    sdhci_adma_transfer fuel host cmd w = Done p w1
    /\ heap w1 = <[p := desc_chain (data_ptr (data cmd)) (transfer_size cmd)]> (heap w)
    /\ pool w1 = ps
    /\ frees (trace w1) = frees (trace w)
    /\ writes (trace w1)
       = writes (trace w)
         ++ [EvWrite 16 (blksz_reg host) (wrap 16 SDHCI_MMC_BLK_SZ)]
         ++ (if 1 <? num_blocks (data cmd)
             then [EvWrite 32 (arg2_reg host) (wrap 32 (num_blocks (data cmd)))] else [])
         ++ [EvWrite 16 (blk_cnt_reg host) (wrap 16 (num_blocks (data cmd)));
             EvWrite 32 (adm_addr_reg host) (wrap 32 p);
             EvWrite 16 (trans_mode_reg host) tm]
    /\ Z.land tm SDHCI_DMA_EN = u16 SDHCI_DMA_EN.
Proof.
  intros HS Hpool Hp Hfuel. unfold transfer_size in *.
  destruct (prep_desc_table_run fuel (data_ptr (data cmd))
              (u32 (num_blocks (data cmd) * SDHCI_MMC_BLK_SZ)) w p ps HS
              (wrap_range 32 _ ltac:(lia)) Hpool Hp Hfuel)
    as (w1 & Hrun & Hheap & Hwrites & Hpool1 & Hfrees).
  unfold sdhci_adma_transfer. unfold bind at 1. rewrite Hrun.
  unfold blksz_reg, arg2_reg, blk_cnt_reg, adm_addr_reg, trans_mode_reg.
  destruct (1 <? num_blocks (data cmd)); run_step;
    (eexists _, _; split; [reflexivity|]; simpl; split; [exact Hheap|];
     split; [exact Hpool1|]; split;
     [rewrite !frees_app, Hfrees; simpl; rewrite !app_nil_r; reflexivity|]; split;
     [rewrite !writes_app, Hwrites; simpl; rewrite ?app_nil_r, <- ?app_assoc; reflexivity|];
     rewrite wrap16_u16; apply land_u16_lor_self).
Qed.

(** X18: sdhci_adma_transfer points the controller at the table it has
    built.  For a span larger than one descriptor line and a block from
    the allocator, the call returns the block's address, the block holds
    the descriptor chain of the buffer, and the
    registers are written in this order: block size, the second argument
    (the block count, for more than one block only), block count, the ADMA
    address register with the address of the table, and a transfer mode
    value that has the DMA enable bit set. *)
Theorem adma_transfer_programs_table fuel host cmd w p ps :
  sizeof_desc_entry < SDHCI_ADMA_DESC_LINE_SZ ->
  pool w = p :: ps -> p <> 0 ->
  transfer_size cmd / SDHCI_ADMA_DESC_LINE_SZ < Z.of_nat fuel ->
  exists w1 tm,
    sdhci_adma_transfer fuel host cmd w = Done p w1
    /\ heap w1 !! p = Some (desc_chain (data_ptr (data cmd)) (transfer_size cmd))
    /\ writes (trace w1)
       = writes (trace w)
         ++ [EvWrite 16 (blksz_reg host) (wrap 16 SDHCI_MMC_BLK_SZ)]
         ++ (if 1 <? num_blocks (data cmd)
             then [EvWrite 32 (arg2_reg host) (wrap 32 (num_blocks (data cmd)))] else [])
         ++ [EvWrite 16 (blk_cnt_reg host) (wrap 16 (num_blocks (data cmd)));
             EvWrite 32 (adm_addr_reg host) (wrap 32 p);
             EvWrite 16 (trans_mode_reg host) tm]
    /\ Z.land tm SDHCI_DMA_EN = u16 SDHCI_DMA_EN.
Proof.
  intros HS Hpool Hp Hfuel.
  destruct (adma_transfer_run_writes fuel host cmd w p ps HS Hpool Hp Hfuel)
    as (w1 & tm & Hrun & Hheap & _ & _ & Hwrites & Htm).
  exists w1, tm. split; [exact Hrun|]. split; [|split; assumption].
  rewrite Hheap. apply lookup_insert_eq.
Qed.

(** X19: when memalign has no block to give, sdhci_adma_transfer logs the
    allocation error and stops in ASSERT (0): no register has been written
    and the heap is as it was. *)
Theorem adma_transfer_alloc_failure fuel host cmd w :
  hd 0 (pool w) = 0 ->
  exists w',
    sdhci_adma_transfer fuel host cmd w = Abort w'
    /\ heap w' = heap w
    /\ writes (trace w') = writes (trace w)
    /\ logged (trace w') = logged (trace w) ++ ["Error allocating memory"%string].
Proof.
  intros Hhd.
  assert (Hm : forall size, exists w1,
               memalign 4 size w = Done 0 w1 /\ heap w1 = heap w
               /\ trace w1 = trace w ++ [EvMemalign size 0]).
  { intros size. unfold memalign. destruct (pool w) as [|q qs]; simpl in Hhd.
    - eexists. split; [reflexivity|]. split; reflexivity.
    - subst q. simpl. eexists. split; [reflexivity|]. split; reflexivity. }
  unfold sdhci_adma_transfer, sdhci_prep_desc_table.
  destruct (u32 (num_blocks (data cmd) * SDHCI_MMC_BLK_SZ) <=? SDHCI_ADMA_DESC_LINE_SZ);
    cbv zeta; unfold bind at 1; unfold bind at 1;
    match goal with
    | |- context [memalign 4 ?size w] =>
        destruct (Hm size) as (w1 & -> & Hh & Ht)
    end;
    unfold bind at 1; unfold check_alloc; simpl; run_step;
    (eexists; split; [reflexivity|]; simpl;
     rewrite Ht, !writes_app, !logged_app; simpl; rewrite !app_nil_r;
     repeat split; [exact Hh]).
Qed.

(** How sdhci_send_command can return: through the part that issues the
    command, or early with 1 after polling only. *)
Lemma send_command_reaches_issue fuel host cmd w r c w' :
  sdhci_send_command fuel host cmd w = Done (r, c) w' ->
  (exists w1 flags t,
      send_command_issue fuel host cmd flags w1 = Done (r, c) w'
      /\ heap w1 = heap w /\ pool w1 = pool w
      /\ trace w1 = trace w ++ t /\ Forall poll_io t)
  \/ (r = 1 /\ c = cmd /\ heap w' = heap w /\ pool w' = pool w
      /\ exists t, trace w' = trace w ++ t /\ Forall poll_io t).
Proof.
  unfold sdhci_send_command. intros Hrun.
  assert (Hpass : forall (b1 b2 : bool) (k : M (Z * mmc_command)),
             ((if b1 then ASSERT b2 else ret tt) ;; k)%io w = Done (r, c) w' ->
             k w = Done (r, c) w').
  { intros b1 b2 k. unfold bind, ASSERT. destruct b1; [destruct b2|]; simpl;
      try discriminate; auto. }
  apply Hpass in Hrun. apply Hpass in Hrun.
  unfold bind at 1 in Hrun.
  destruct (wait_lines_free fuel host 0 w) as [b w1| | |] eqn:Ew; try discriminate.
  destruct (wait_lines_free_emits host fuel 0 w b w1 Ew) as (Hh & Hp & t & Ht & HP).
  destruct b.
  - destruct (resp_type_sel (resp_type cmd)) as [rt|].
    + left. eexists w1, _, t. split; [exact Hrun|]. repeat split; assumption.
    + right. revert Hrun. run_step. intros Heq. injection Heq as <- <- <-. simpl.
      repeat split; try assumption.
      exists (t ++ [EvDprintf "Invalid response type for the command"]).
      split; [rewrite Ht, app_assoc; reflexivity|].
      apply Forall_app. split; [exact HP|]. constructor; [exact I|constructor].
  - right. unfold ret in Hrun. injection Hrun as <- <- <-.
    repeat split; try assumption. exists t. split; assumption.
Qed.

(** For a data command, the part that issues the command returns 0 only
    after it has released the table it allocated. *)
Lemma send_command_issue_success fuel host cmd flags w p ps c w' :
  nonzero (data_present cmd) = true ->
  sizeof_desc_entry < SDHCI_ADMA_DESC_LINE_SZ ->
  pool w = p :: ps -> p <> 0 ->
  transfer_size cmd / SDHCI_ADMA_DESC_LINE_SZ < Z.of_nat fuel ->
  send_command_issue fuel host cmd flags w = Done (0, c) w' ->
  heap w' = delete p (heap w) /\ pool w' = ps
  /\ frees (trace w') = frees (trace w) ++ [p].
Proof.
  intros Hdata HS Hpool Hp Hfuel Hrun.
  unfold send_command_issue in Hrun. rewrite Hdata in Hrun.
  unfold bind at 1 in Hrun. unfold REG_WRITE8 at 1, mmio_write at 1, act at 1 in Hrun.
  set (w0 := emit _ w) in Hrun.
  destruct (adma_transfer_run_writes fuel host cmd w0 p ps HS Hpool Hp Hfuel)
    as (w1 & tm & Hadma & Hheap & Hpool1 & Hfrees & _ & _).
  unfold bind at 1 in Hrun. rewrite Hadma in Hrun.
  unfold bind at 1 in Hrun. unfold REG_WRITE32 at 1, mmio_write at 1, act at 1 in Hrun.
  unfold bind at 1 in Hrun. unfold REG_WRITE16 at 1, mmio_write at 1, act at 1 in Hrun.
  set (w3 := emit _ (emit _ w1)) in Hrun.
  unfold bind at 1 in Hrun.
  destruct (sdhci_cmd_complete fuel host cmd w3) as [[r1 c1] w4| | |] eqn:Hcc;
    try discriminate.
  cbn [fst snd] in Hrun.
  destruct (cmd_complete_emits fuel host cmd w3 (r1, c1) w4 Hcc)
    as (Hh4 & Hp4 & t & Ht & Hall).
  destruct (nonzero r1); [unfold ret in Hrun; discriminate|].
  assert (Hnz : nonzero p = true).
  { unfold nonzero. apply Z.eqb_neq in Hp. rewrite Hp. reflexivity. }
  rewrite Hnz in Hrun.
  assert (Hlook : heap w4 !! p
                  = Some (desc_chain (data_ptr (data cmd)) (transfer_size cmd))).
  { rewrite Hh4. unfold w3. simpl. rewrite Hheap. apply lookup_insert_eq. }
  assert (Hfr : frees (trace w4) = frees (trace w)).
  { rewrite Ht, frees_app, (hw_io_no_free t Hall), app_nil_r. unfold w3. simpl.
    rewrite !frees_app, Hfrees. unfold w0. simpl. rewrite frees_app. simpl.
    rewrite !app_nil_r. reflexivity. }
  assert (Hdel : delete p (heap w4) = delete p (heap w)).
  { rewrite Hh4. unfold w3. simpl. rewrite Hheap. unfold w0. simpl.
    apply delete_insert_eq. }
  assert (Hpl : pool w4 = ps).
  { rewrite Hp4. unfold w3. simpl. exact Hpool1. }
  revert Hrun. unfold bind, arch_invalidate_cache_range, act, ret, free.
  destruct (trans_mode c1 =? SDHCI_MMC_READ); simpl; rewrite Hlook;
    intros Heq; injection Heq as _ <-; simpl;
    rewrite !frees_app, Hfr; simpl; rewrite ?app_nil_r;
    (split; [exact Hdel|]; split; [exact Hpl|reflexivity]).
Qed.

(** X20: a data command that sdhci_send_command reports as successful has
    released its descriptor table: for a span larger than one descriptor
    line, the block the allocator handed out is freed, exactly once, and
    no longer on the heap. *)
Theorem send_command_success_releases_table fuel host cmd w p ps c w' :
  nonzero (data_present cmd) = true ->
  sizeof_desc_entry < SDHCI_ADMA_DESC_LINE_SZ ->
  pool w = p :: ps -> p <> 0 ->
  transfer_size cmd / SDHCI_ADMA_DESC_LINE_SZ < Z.of_nat fuel ->
  sdhci_send_command fuel host cmd w = Done (0, c) w' ->
  heap w' = delete p (heap w) /\ pool w' = ps
  /\ frees (trace w') = frees (trace w) ++ [p].
Proof.
  intros Hdata HS Hpool Hp Hfuel Hrun.
  destruct (send_command_reaches_issue fuel host cmd w 0 c w' Hrun)
    as [(w1 & flags & t & Hissue & Hh & Hpl & Ht & HP) | (Hone & _)]; [|discriminate].
  rewrite <- Hpl in Hpool.
  destruct (send_command_issue_success fuel host cmd flags w1 p ps c w'
              Hdata HS Hpool Hp Hfuel Hissue) as (Hheap & Hpool' & Hfrees).
  rewrite Hheap, Hh, Hfrees, Ht, frees_app.
  assert (Hnone : frees t = []).
  { clear -HP. induction HP as [|e t He _ IH]; [reflexivity|].
    destruct e; simpl in *; try contradiction; exact IH. }
  rewrite Hnone, app_nil_r. repeat split; [exact Hpool'].
Qed.

End IssueAndRelease.

(** ** Command engine: cache invalidation *)

Lemma not_invalidate_none t : Forall not_invalidate t -> invalidates t = [].
Proof.
  induction 1 as [|e t He _ IH]; [reflexivity|].
  destruct e; simpl in *; try contradiction; exact IH.
Qed.

Lemma hw_io_not_invalidate e : hw_io e -> not_invalidate e.
Proof. destruct e; simpl; tauto. Qed.

Lemma appends_invalidates {A} (m : M A) w a w' :
  appends not_invalidate m -> m w = Done a w' ->
  invalidates (trace w') = invalidates (trace w).
Proof.
  intros Hm Hrun. destruct (Hm w a w' Hrun) as (t & -> & Ht).
  rewrite invalidates_app, (not_invalidate_none t Ht), app_nil_r. reflexivity.
Qed.

Lemma appends_of_emits {A} (P Q : event -> Prop) (m : M A) :
  (forall e, P e -> Q e) -> emits P m -> appends Q m.
Proof.
  intros HPQ Hm w a w' Hrun. destruct (Hm w a w' Hrun) as (_ & _ & t & Ht & HP).
  exists t. split; [exact Ht|].
  rewrite Forall_forall in HP |- *. intros e He. apply HPQ, HP, He.
Qed.

Lemma appends_ret {A} P (a : A) : appends P (ret a).
Proof.
  intros w a' w' Hrun. injection Hrun as _ <-.
  exists []. split; [symmetry; apply app_nil_r | constructor].
Qed.

Lemma appends_bind {A B} P (m : M A) (k : A -> M B) :
  appends P m -> (forall a, appends P (k a)) -> appends P (bind m k).
Proof.
  intros Hm Hk w b w' Hrun. unfold bind in Hrun.
  destruct (m w) as [a w1| | |] eqn:Hmw; try discriminate.
  destruct (Hm w a w1 Hmw) as (t1 & Ht1 & HP1).
  destruct (Hk a w1 b w' Hrun) as (t2 & Ht2 & HP2).
  exists (t1 ++ t2). split.
  - rewrite Ht2, Ht1, app_assoc. reflexivity.
  - apply Forall_app. split; assumption.
Qed.

Lemma appends_if {A} P (c : bool) (m1 m2 : M A) :
  appends P m1 -> appends P m2 -> appends P (if c then m1 else m2).
Proof. destruct c; auto. Qed.

Lemma appends_act P e : P e -> appends P (act e).
Proof.
  intros He w a w' Hrun. injection Hrun as _ <-.
  exists [e]. split; [reflexivity|]. constructor; [exact He | constructor].
Qed.

(** A step that only changes the heap. *)
Lemma appends_silent {A} P (m : M A) :
  (forall w a w', m w = Done a w' -> trace w' = trace w) -> appends P m.
Proof.
  intros Hm w a w' Hrun. exists []. split; [|constructor].
  rewrite app_nil_r. exact (Hm w a w' Hrun).
Qed.

Lemma memalign_appends boundary size : appends not_invalidate (memalign boundary size).
Proof.
  intros w a w'. unfold memalign.
  destruct (pool w) as [|p ps]; [|destruct (p =? 0)];
    intros Heq; injection Heq as _ <-;
    (eexists [_]; split; [reflexivity|]; constructor; [exact I|constructor]).
Qed.

Lemma store_desc_appends P sg_list i e : appends P (store_desc sg_list i e).
Proof.
  apply appends_silent. intros w a w'. unfold store_desc.
  destruct (heap w !! sg_list) as [blk|]; [|discriminate].
  destruct (Z.to_nat i <? length blk)%nat; [|discriminate].
  intros Heq. injection Heq as _ <-. reflexivity.
Qed.

Lemma memset_zero_appends P p size : appends P (memset_zero p size).
Proof.
  apply appends_silent. intros w a w'. unfold memset_zero.
  destruct (heap w !! p) as [blk|]; [|discriminate].
  destruct (Z.to_nat (size / sizeof_desc_entry) <=? length blk)%nat; [|discriminate].
  intros Heq. injection Heq as _ <-. reflexivity.
Qed.

Lemma free_appends p : appends not_invalidate (free p).
Proof.
  intros w a w'. unfold free. destruct (heap w !! p); [|discriminate].
  intros Heq. injection Heq as _ <-.
  eexists [_]. split; [reflexivity|]. constructor; [exact I|constructor].
Qed.

Ltac appends_all :=
  repeat first
    [ apply appends_bind; [|intros ?]
    | apply appends_if
    | apply appends_ret
    | apply store_desc_appends
    | apply memset_zero_appends
    | apply memalign_appends
    | apply free_appends
    | apply appends_act; exact I ].

Section Invalidation.

Context {H : sdhci_h}.

Lemma desc_fill_appends sg_list sg_len fuel :
  forall i data len, appends not_invalidate (desc_fill fuel sg_list sg_len i data len).
Proof.
  induction fuel as [|n IH]; intros i data len; simpl.
  - intros w a w' Hrun. discriminate.
  - apply appends_if; [|apply appends_ret].
    apply appends_bind; [apply store_desc_appends|]. intros _. apply IH.
Qed.

Lemma check_alloc_appends sg_list : appends not_invalidate (check_alloc sg_list).
Proof.
  unfold check_alloc. apply appends_if; [|apply appends_ret].
  intros w a w'. unfold bind, dprintf, act, assert_fail. discriminate.
Qed.

Lemma prep_desc_table_appends fuel data len :
  appends not_invalidate (sdhci_prep_desc_table fuel data len).
Proof.
  unfold sdhci_prep_desc_table, arch_clean_invalidate_cache_range.
  destruct (len <=? SDHCI_ADMA_DESC_LINE_SZ); cbv zeta.
  - apply appends_bind; [apply memalign_appends|]. intros sg.
    apply appends_bind; [apply check_alloc_appends|]. intros _. appends_all.
  - apply appends_bind; [apply memalign_appends|]. intros sg.
    apply appends_bind; [apply check_alloc_appends|]. intros _.
    apply appends_bind; [apply memset_zero_appends|]. intros _.
    apply appends_bind; [apply desc_fill_appends|]. intros dl. appends_all.
Qed.

Lemma adma_transfer_appends fuel host cmd :
  appends not_invalidate (sdhci_adma_transfer fuel host cmd).
Proof.
  unfold sdhci_adma_transfer. cbv zeta.
  apply appends_bind; [apply prep_desc_table_appends|]. intros adma_addr.
  unfold REG_WRITE16, REG_WRITE32, mmio_write. appends_all.
Qed.

Lemma send_command_issue_invalidates fuel host cmd flags w r c w' :
  send_command_issue fuel host cmd flags w = Done (r, c) w' ->
  invalidates (trace w')
  = invalidates (trace w)
    ++ (if (r =? 0) && (trans_mode cmd =? SDHCI_MMC_READ)
        then [(data_ptr (data cmd), transfer_size cmd)] else []).
Proof.
  intros Hrun. unfold send_command_issue in Hrun.
  unfold bind at 1 in Hrun. unfold REG_WRITE8 at 1, mmio_write at 1, act at 1 in Hrun.
  set (w0 := emit _ w) in Hrun.
  unfold bind at 1 in Hrun.
  destruct ((if nonzero (data_present cmd)
             then sdhci_adma_transfer fuel host cmd else ret 0) w0)
    as [sg w1| | |] eqn:Esg; try discriminate.
  assert (H1 : invalidates (trace w1) = invalidates (trace w)).
  { transitivity (invalidates (trace w0)).
    - eapply appends_invalidates; [|exact Esg].
      apply appends_if; [apply adma_transfer_appends|apply appends_ret].
    - unfold w0. simpl. rewrite invalidates_app. simpl. apply app_nil_r. }
  unfold bind at 1 in Hrun. unfold REG_WRITE32 at 1, mmio_write at 1, act at 1 in Hrun.
  unfold bind at 1 in Hrun. unfold REG_WRITE16 at 1, mmio_write at 1, act at 1 in Hrun.
  set (w3 := emit _ (emit _ w1)) in Hrun.
  unfold bind at 1 in Hrun.
  destruct (sdhci_cmd_complete fuel host cmd w3) as [[r1 c1] w4| | |] eqn:Hcc;
    try discriminate.
  cbn [fst snd] in Hrun.
  assert (H4 : invalidates (trace w4) = invalidates (trace w)).
  { transitivity (invalidates (trace w3)).
    - eapply appends_invalidates; [|exact Hcc].
      eapply appends_of_emits; [apply hw_io_not_invalidate|apply cmd_complete_emits].
    - unfold w3. simpl. rewrite !invalidates_app. simpl. rewrite !app_nil_r. exact H1. }
  destruct (cmd_complete_keeps fuel host cmd w3 r1 c1 w4 Hcc) as [rs ->].
  cbn [trans_mode data set_resp] in Hrun.
  destruct (nonzero r1).
  - unfold ret in Hrun. injection Hrun as <- _ <-. simpl. rewrite app_nil_r. exact H4.
  - unfold bind at 1 in Hrun. unfold transfer_size.
    destruct (trans_mode cmd =? SDHCI_MMC_READ);
      unfold arch_invalidate_cache_range, act, ret in Hrun;
      unfold bind in Hrun;
      match type of Hrun with
      | context [(if nonzero sg then free sg else ?m) ?x] =>
          destruct ((if nonzero sg then free sg else m) x) as [u w5| | |] eqn:Efree;
            try discriminate;
            assert (H5 : invalidates (trace w5) = invalidates (trace x))
              by (eapply appends_invalidates;
                  [apply appends_if; [apply free_appends|apply appends_ret]|exact Efree])
      end;
      injection Hrun as <- _ <-; simpl; rewrite H5; simpl;
      rewrite ?invalidates_app, H4; simpl; rewrite ?app_nil_r; reflexivity.
Qed.

(** X21: the buffer is invalidated in the cache exactly when
    sdhci_send_command returns 0 for a command whose transfer mode is
    SDHCI_MMC_READ, and then once, with the buffer address and the byte
    count of the transfer; no other path of the call invalidates
    anything. *)
Theorem send_command_invalidates fuel host cmd w r c w' :
  sdhci_send_command fuel host cmd w = Done (r, c) w' ->
  invalidates (trace w')
  = invalidates (trace w)
    ++ (if (r =? 0) && (trans_mode cmd =? SDHCI_MMC_READ)
        then [(data_ptr (data cmd), transfer_size cmd)] else []).
Proof.
  intros Hrun.
  destruct (send_command_reaches_issue fuel host cmd w r c w' Hrun)
    as [(w1 & flags & t & Hissue & _ & _ & Ht & HP) | (-> & _ & _ & _ & t & Ht & HP)].
  - rewrite (send_command_issue_invalidates fuel host cmd flags w1 r c w' Hissue).
    rewrite Ht, invalidates_app, (poll_io_no_invalidate t HP), app_nil_r. reflexivity.
  - simpl. rewrite Ht, invalidates_app, (poll_io_no_invalidate t HP), !app_nil_r.
    reflexivity.
Qed.

End Invalidation.

(** ** Power and the last steps of sdhci_init *)

Lemma land_u8_lor_self x m : Z.land (u8 (Z.lor x m)) m = u8 m.
Proof.
  unfold u8, wrap. rewrite <- !Z.land_ones by lia.
  apply Z.bits_inj'. intros n Hn.
  rewrite !Z.land_spec, Z.lor_spec.
  destruct (Z.testbit m n), (Z.testbit (Z.ones 8) n), (Z.testbit x n); reflexivity.
Qed.

Lemma wrap8_u8 x : wrap 8 (u8 x) = u8 x.
Proof. unfold u8, wrap. apply Z.mod_mod. lia. Qed.

Section PowerAndConfigure.

Context {H : sdhci_h} {P : platform_h}.

(** X22: sdhci_set_bus_power_on writes twice.  The shifted voltage alone
    goes to the register at offset SDHCI_BUS_PWR_EN, the constant of the
    power bit, not to the power control register; the power control
    register then receives one value, which keeps every bit of the shifted
    voltage and has the power bit set. *)
Theorem set_bus_power_on_writes host w :
  exists v0 v1,
    sdhci_set_bus_power_on host w
    = Done tt (emit (EvWrite 8 (pwr_ctrl_reg host) v1)
                 (emit (EvWrite 8 (u32 (base host + SDHCI_BUS_PWR_EN)) v0) w))
    /\ v0 = u8 (Z.shiftl (u8 (voltage (caps host))) SDHCI_BUS_VOL_SEL)
    /\ Z.land v1 v0 = v0
    /\ Z.land v1 SDHCI_BUS_PWR_EN = u8 SDHCI_BUS_PWR_EN.
Proof.
  unfold sdhci_set_bus_power_on. run_step. fold (pwr_ctrl_reg host).
  eexists _, _. split; [reflexivity|]. rewrite !wrap8_u8.
  split; [reflexivity|]. split.
  - unfold u8. apply land_absorb_u8.
  - apply land_u8_lor_self.
Qed.

(** X23: the tail of sdhci_init overwrites the bus width it has just set.
    Whatever sdhci_set_bus_width did with host control 1 (one
    read-modify-write, or no write when the width is refused), the next
    write stores SDHCI_ADMA_32BIT alone in the same register; the four
    interrupt enables follow, and the return value of sdhci_set_bus_width
    is ignored. *)
Theorem init_configure_overwrites_bus_width host w :
  exists w' pre,
    init_configure host w = Done tt w'
    /\ writes (trace w')
       = writes (trace w) ++ pre
         ++ EvWrite 8 (ctrl1_reg host) (wrap 8 SDHCI_ADMA_32BIT) :: int_enable_writes host
    /\ (pre = [] \/ exists v, pre = [EvWrite 8 (ctrl1_reg host) v]).
Proof.
  unfold init_configure, sdhci_set_bus_width, sdhci_set_adma_mode,
    sdhci_error_status_enable, int_enable_writes.
  destruct (SDHCI_BUS_WITDH_1BIT =? DATA_BUS_WIDTH_8BIT);
    [|destruct (SDHCI_BUS_WITDH_1BIT =? DATA_BUS_WIDTH_4BIT);
      [|destruct (SDHCI_BUS_WITDH_1BIT =? DATA_BUS_WIDTH_1BIT)]];
    run_step; fold (ctrl1_reg host);
    first
      [ solve [ eexists _, [EvWrite 8 (ctrl1_reg host) _]; split; [reflexivity|];
                simpl; rewrite !writes_app; simpl; rewrite !app_nil_r, <- !app_assoc;
                split; [reflexivity|right; eexists; reflexivity] ]
      | solve [ eexists _, []; split; [reflexivity|];
                simpl; rewrite !writes_app; simpl; rewrite !app_nil_r, <- !app_assoc;
                split; [reflexivity|left; reflexivity] ] ].
Qed.

End PowerAndConfigure.

(** *** The command engine on concrete controllers, continued *)

Lemma send_command_without_data_witness :
  heap (final_world (sdhci_send_command (H := sdhci_v3 65535 10 10) 10 host200 cmd_status
                       (fresh_world success_dev [0x80000]))
                    (fresh_world success_dev [0x80000]))
  = heap (fresh_world success_dev [0x80000])
  /\ pool (final_world (sdhci_send_command (H := sdhci_v3 65535 10 10) 10 host200 cmd_status
                          (fresh_world success_dev [0x80000]))
                       (fresh_world success_dev [0x80000]))
     = pool (fresh_world success_dev [0x80000])
  /\ exists t,
      trace (final_world (sdhci_send_command (H := sdhci_v3 65535 10 10) 10 host200 cmd_status
                            (fresh_world success_dev [0x80000]))
                         (fresh_world success_dev [0x80000]))
      = trace (fresh_world success_dev [0x80000]) ++ t
      /\ Forall (no_dma_io (H := sdhci_v3 65535 10 10) host200) t.
Proof.
  apply (send_command_without_data (H := sdhci_v3 65535 10 10) 10 host200 cmd_status
           (fresh_world success_dev [0x80000]) (0, cmd_status)).
  - reflexivity.
  - vm_compute. lia.
  - vm_compute. reflexivity.
Defined.

Lemma adma_transfer_programs_table_witness :
  exists w1 tm,
    sdhci_adma_transfer (H := sdhci_v3 65536 10 10) 10 host200 cmd_read300
      (fresh_world silent_dev [0x80000])
    = Done 0x80000 w1
    /\ heap w1 !! 0x80000
       = Some (desc_chain (H := sdhci_v3 65536 10 10) 0x200000 153600)
    /\ writes (trace w1)
       = [] ++ [EvWrite 16 0x10004 512] ++ [EvWrite 32 0x10000 300]
         ++ [EvWrite 16 0x10006 300; EvWrite 32 0x10058 0x80000; EvWrite 16 0x1000C tm]
    /\ Z.land tm 1 = 1.
Proof.
  apply (adma_transfer_programs_table (H := sdhci_v3 65536 10 10) 10 host200 cmd_read300
           (fresh_world silent_dev [0x80000]) 0x80000 []).
  - unfold sizeof_desc_entry. simpl. lia.
  - reflexivity.
  - lia.
  - vm_compute. reflexivity.
Defined.

Lemma adma_transfer_alloc_failure_witness :
  exists w',
    sdhci_adma_transfer (H := sdhci_v3 65535 10 10) 10 host200 cmd_read300
      (fresh_world silent_dev [])
    = Abort w'
    /\ heap w' = ∅
    /\ writes (trace w') = []
    /\ logged (trace w') = [] ++ ["Error allocating memory"%string].
Proof.
  apply (adma_transfer_alloc_failure (H := sdhci_v3 65535 10 10) 10 host200 cmd_read300
           (fresh_world silent_dev [])).
  reflexivity.
Defined.

Lemma send_command_success_releases_table_witness :
  heap (final_world (sdhci_send_command (H := sdhci_v3 65536 10 10) 10 host200 cmd_read300
                       (fresh_world success_dev [0x80000]))
                    (fresh_world success_dev [0x80000]))
  = delete 0x80000 (∅ : gmap Z (list desc_entry))
  /\ pool (final_world (sdhci_send_command (H := sdhci_v3 65536 10 10) 10 host200 cmd_read300
                          (fresh_world success_dev [0x80000]))
                       (fresh_world success_dev [0x80000]))
     = []
  /\ frees (trace (final_world
                     (sdhci_send_command (H := sdhci_v3 65536 10 10) 10 host200 cmd_read300
                        (fresh_world success_dev [0x80000]))
                     (fresh_world success_dev [0x80000])))
     = [] ++ [0x80000].
Proof.
  apply (send_command_success_releases_table (H := sdhci_v3 65536 10 10) 10 host200
           cmd_read300 (fresh_world success_dev [0x80000]) 0x80000 [] cmd_read300).
  - reflexivity.
  - unfold sizeof_desc_entry. simpl. lia.
  - reflexivity.
  - lia.
  - vm_compute. reflexivity.
  - vm_compute. reflexivity.
Defined.

Lemma send_command_invalidates_witness :
  invalidates (trace (final_world
                        (sdhci_send_command (H := sdhci_v3 65535 10 10) 10 host200
                           cmd_read300 (fresh_world success_dev [0x80000]))
                        (fresh_world success_dev [0x80000])))
  = [] ++ [(0x200000, 153600)].
Proof.
  apply (send_command_invalidates (H := sdhci_v3 65535 10 10) 10 host200 cmd_read300
           (fresh_world success_dev [0x80000]) 0 cmd_read300).
  vm_compute. reflexivity.
Defined.

(** ** Command engine: the successful completion *)

Section CompletionSuccess.

Context {H : sdhci_h}.

(** The first polling loop when Command-Complete shows at poll [k]. *)
Lemma wait_cmd_complete_done host :
  0 < SDHCI_MAX_CMD_RETRY < 2 ^ 16 ->
  forall k fuel retry w,
    0 <= retry -> retry + Z.of_nat k < SDHCI_MAX_CMD_RETRY -> (k < fuel)%nat ->
    (forall j, (j < k)%nat -> cmd_complete_at host w (reads w + j) = false) ->
    cmd_complete_at host w (reads w + k) = true ->
    exists w',
      wait_cmd_complete fuel host retry w = Done true w'
      /\ dev w' = dev w /\ reads w' = (reads w + k + 1)%nat
      /\ writes (trace w') = writes (trace w)
      /\ logged (trace w') = logged (trace w).
Proof.
  intros Hmax. induction k as [|k IH]; intros fuel retry w Hr Hsum Hf Hnot Hyes;
    (destruct fuel as [|n]; [lia|]); simpl; run_step; fold (nrml_int_sts_reg host).
  - unfold cmd_complete_at in Hyes. rewrite Nat.add_0_r in Hyes. rewrite Hyes.
    eexists. split; [reflexivity|]. simpl. rewrite !writes_app, !logged_app. simpl.
    rewrite !app_nil_r. repeat split; lia.
  - pose proof (Hnot 0%nat ltac:(lia)) as Hnow.
    unfold cmd_complete_at in Hnow. rewrite Nat.add_0_r in Hnow. rewrite Hnow.
    assert (Hu : u16 (retry + 1) = retry + 1) by (unfold u16; apply wrap_small; lia).
    rewrite Hu.
    assert (Hne : (retry + 1 =? SDHCI_MAX_CMD_RETRY) = false) by (apply Z.eqb_neq; lia).
    rewrite Hne.
    set (w1 := emit _ (emit _ (tick w))).
    destruct (IH n (retry + 1) w1) as (w' & Hrun & Hd & Hrd & Hw & Hlog).
    + lia.
    + lia.
    + lia.
    + intros j Hj. unfold w1, cmd_complete_at. simpl.
      replace (S (reads w + j))%nat with (reads w + S j)%nat by lia.
      apply (Hnot (S j)). lia.
    + unfold w1, cmd_complete_at. simpl.
      replace (S (reads w + k))%nat with (reads w + S k)%nat by lia.
      exact Hyes.
    + exists w'. split; [exact Hrun|]. unfold w1 in *. simpl in *.
      rewrite !writes_app in Hw. rewrite !logged_app in Hlog. simpl in Hw, Hlog.
      rewrite !app_nil_r in Hw. rewrite !app_nil_r in Hlog.
      repeat split; try assumption; lia.
Qed.

(** The second polling loop when Transfer-Complete shows at poll [k]. *)
Lemma wait_trans_complete_done host :
  0 < SDHCI_MAX_TRANS_RETRY < 2 ^ 16 ->
  forall k fuel retry w,
    0 <= retry -> retry + Z.of_nat k < SDHCI_MAX_TRANS_RETRY -> (k < fuel)%nat ->
    (forall j, (j < k)%nat -> trans_complete_at host w (reads w + j) = false) ->
    trans_complete_at host w (reads w + k) = true ->
    exists w',
      wait_trans_complete fuel host retry w = Done true w'
      /\ dev w' = dev w /\ reads w' = (reads w + k + 1)%nat
      /\ writes (trace w') = writes (trace w)
      /\ logged (trace w') = logged (trace w).
Proof.
  intros Hmax. induction k as [|k IH]; intros fuel retry w Hr Hsum Hf Hnot Hyes;
    (destruct fuel as [|n]; [lia|]); simpl; run_step; fold (nrml_int_sts_reg host).
  - unfold trans_complete_at in Hyes. rewrite Nat.add_0_r in Hyes. rewrite Hyes.
    eexists. split; [reflexivity|]. simpl. rewrite !writes_app, !logged_app. simpl.
    rewrite !app_nil_r. repeat split; lia.
  - pose proof (Hnot 0%nat ltac:(lia)) as Hnow.
    unfold trans_complete_at in Hnow. rewrite Nat.add_0_r in Hnow. rewrite Hnow.
    assert (Hu : u16 (retry + 1) = retry + 1) by (unfold u16; apply wrap_small; lia).
    rewrite Hu.
    assert (Hne : (retry + 1 =? SDHCI_MAX_TRANS_RETRY) = false) by (apply Z.eqb_neq; lia).
    rewrite Hne.
    set (w1 := emit _ (emit _ (tick w))).
    destruct (IH n (retry + 1) w1) as (w' & Hrun & Hd & Hrd & Hw & Hlog).
    + lia.
    + lia.
    + lia.
    + intros j Hj. unfold w1, trans_complete_at. simpl.
      replace (S (reads w + j))%nat with (reads w + S j)%nat by lia.
      apply (Hnot (S j)). lia.
    + unfold w1, trans_complete_at. simpl.
      replace (S (reads w + k))%nat with (reads w + S k)%nat by lia.
      exact Hyes.
    + exists w'. split; [exact Hrun|]. unfold w1 in *. simpl in *.
      rewrite !writes_app in Hw. rewrite !logged_app in Hlog. simpl in Hw, Hlog.
      rewrite !app_nil_r in Hw. rewrite !app_nil_r in Hlog.
      repeat split; try assumption; lia.
Qed.

(** From the label [err] on, with the error summary bit clear. *)
Lemma cmd_complete_err_clean host cmd w :
  err_int_at host w (reads w) = false ->
  exists w',
    cmd_complete_err host cmd w = Done 0 w'
    /\ writes (trace w')
       = writes (trace w) ++ (if nonzero (data_present cmd) then [line_reset host] else [])
    /\ logged (trace w') = logged (trace w).
Proof.
  intros Herr. unfold cmd_complete_err. run_step. fold (nrml_int_sts_reg host).
  unfold err_int_at in Herr. rewrite Herr. simpl.
  destruct (nonzero (data_present cmd)); (eexists; split; [reflexivity|]); simpl;
    rewrite !writes_app, !logged_app; simpl; rewrite !app_nil_r; split; reflexivity.
Qed.

(** The successful run of the completion sequence. *)
Lemma cmd_complete_success_run fuel host cmd w k1 k2 :
  0 < SDHCI_MAX_CMD_RETRY < 2 ^ 16 -> 0 < SDHCI_MAX_TRANS_RETRY < 2 ^ 16 ->
  Z.of_nat k1 < SDHCI_MAX_CMD_RETRY -> Z.of_nat k2 < SDHCI_MAX_TRANS_RETRY ->
  (k1 < fuel)%nat -> (k2 < fuel)%nat ->
  resp_type cmd <> SDHCI_CMD_RESP_R2 ->
  (forall j, (j < k1)%nat -> cmd_complete_at host w (reads w + j) = false) ->
  cmd_complete_at host w (reads w + k1) = true ->
  (awaits_transfer cmd = true ->
   (forall j, (j < k2)%nat -> trans_complete_at host w (reads w + k1 + 2 + j) = false)
   /\ trans_complete_at host w (reads w + k1 + 2 + k2) = true) ->
  err_int_at host w (reads w + k1 + 2 + (if awaits_transfer cmd then k2 + 1 else 0)) = false ->
  exists w',
    sdhci_cmd_complete fuel host cmd w
    = Done (0, set_resp cmd
                 (<[0%nat := wrap 32 (dev w (reads w + k1 + 1)
                                        (u32 (base host + SDHCI_RESP_REG)))]>
                    (resp cmd))) w'
    /\ writes (trace w')
       = writes (trace w)
         ++ [EvWrite 16 (nrml_int_sts_reg host) (wrap 16 SDHCI_INT_STS_CMD_COMPLETE)]
         ++ (if awaits_transfer cmd
             then [EvWrite 16 (nrml_int_sts_reg host) (wrap 16 SDHCI_INT_STS_TRANS_COMPLETE)]
             else [])
         ++ (if nonzero (data_present cmd) then [line_reset host] else [])
    /\ logged (trace w') = logged (trace w).
Proof.
  intros Hmc Hmt Hk1 Hk2 Hf1 Hf2 Hty Hnot Hyes Htrans Herr.
  destruct (wait_cmd_complete_done host Hmc k1 fuel 0 w)
    as (w1 & Hrun1 & Hd1 & Hr1 & Hw1 & Hl1); [lia | lia | lia | exact Hnot | exact Hyes |].
  unfold sdhci_cmd_complete, cmd_complete_wait. unfold bind at 1. unfold bind at 1.
  rewrite Hrun1.
  unfold copy_response. apply Z.eqb_neq in Hty. rewrite Hty.
  unfold bind at 1. unfold REG_WRITE16 at 1, mmio_write, act.
  unfold bind at 1. unfold bind at 1. unfold REG_READ32 at 1, mmio_read.
  simpl reads. simpl dev. unfold ret at 1. cbn [data_present cmd_index set_resp].
  fold (awaits_transfer cmd). fold (nrml_int_sts_reg host).
  rewrite Hd1, Hr1.
  set (cmd1 := set_resp cmd _).
  set (w2 := emit _ (tick (emit _ w1))).
  assert (Hd2 : dev w2 = dev w) by exact Hd1.
  assert (Hr2 : reads w2 = (reads w + k1 + 2)%nat) by (unfold w2; simpl; lia).
  assert (Hw2 : writes (trace w2)
                = writes (trace w)
                  ++ [EvWrite 16 (nrml_int_sts_reg host)
                        (wrap 16 SDHCI_INT_STS_CMD_COMPLETE)]).
  { unfold w2. simpl. rewrite !writes_app, Hw1. simpl. rewrite !app_nil_r. reflexivity. }
  assert (Hl2 : logged (trace w2) = logged (trace w)).
  { unfold w2. simpl. rewrite !logged_app, Hl1. simpl. rewrite !app_nil_r. reflexivity. }
  clearbody w2.
  destruct (awaits_transfer cmd) eqn:Haw.
  - destruct (Htrans eq_refl) as [Hnot2 Hyes2].
    destruct (wait_trans_complete_done host Hmt k2 fuel 0 w2)
      as (w3 & Hrun3 & Hd3 & Hr3 & Hw3 & Hl3); [lia | lia | lia | | |].
    { intros j Hj. unfold trans_complete_at. rewrite Hd2, Hr2. apply Hnot2. exact Hj. }
    { unfold trans_complete_at. rewrite Hd2, Hr2. exact Hyes2. }
    unfold bind at 1. rewrite Hrun3.
    unfold bind at 1. unfold REG_WRITE16 at 1, mmio_write, act. unfold ret at 1.
    fold (nrml_int_sts_reg host).
    set (w4 := emit _ w3).
    destruct (cmd_complete_err_clean host cmd1 w4) as (w5 & Hrun5 & Hw5 & Hl5).
    { unfold err_int_at, w4. simpl. rewrite Hd3, Hd2, Hr3, Hr2.
      replace (reads w + k1 + 2 + k2 + 1)%nat with (reads w + k1 + 2 + (k2 + 1))%nat by lia.
      exact Herr. }
    unfold bind. rewrite Hrun5. unfold ret.
    exists w5. split; [reflexivity|]. rewrite Hw5, Hl5. unfold w4. simpl.
    rewrite !writes_app, !logged_app, Hw3, Hl3, Hw2, Hl2. simpl.
    rewrite !app_nil_r, <- !app_assoc. split; reflexivity.
  - unfold ret at 1.
    destruct (cmd_complete_err_clean host cmd1 w2) as (w5 & Hrun5 & Hw5 & Hl5).
    { unfold err_int_at. rewrite Hd2, Hr2.
      replace (reads w + k1 + 2)%nat with (reads w + k1 + 2 + 0)%nat by lia.
      exact Herr. }
    unfold bind. rewrite Hrun5. unfold ret.
    exists w5. split; [reflexivity|]. rewrite Hw5, Hl5, Hw2, Hl2. simpl.
    rewrite <- !app_assoc. split; reflexivity.
Qed.


(** X24: the successful completion.  For a command with a 48 bit response
    whose Command-Complete bit shows at poll [k1], whose Transfer-Complete
    bit, when the command carries data or is the switch command, shows at
    poll [k2], both within the retry limits, and whose error summary bit is
    clear, sdhci_cmd_complete returns 0 with the first response register
    copied to the first response word.  It clears Command-Complete, clears
    Transfer-Complete when it waited for it, and resets the lines when the
    command carries data; it logs nothing. *)
Theorem cmd_complete_success fuel host cmd w k1 k2 :
  0 < SDHCI_MAX_CMD_RETRY < 2 ^ 16 -> 0 < SDHCI_MAX_TRANS_RETRY < 2 ^ 16 ->
  Z.of_nat k1 < SDHCI_MAX_CMD_RETRY -> Z.of_nat k2 < SDHCI_MAX_TRANS_RETRY ->
  (k1 < fuel)%nat -> (k2 < fuel)%nat ->
  resp_type cmd <> SDHCI_CMD_RESP_R2 ->
  (forall j, (j < k1)%nat -> cmd_complete_at host w (reads w + j) = false) ->
  cmd_complete_at host w (reads w + k1) = true ->
  (awaits_transfer cmd = true ->
   (forall j, (j < k2)%nat -> trans_complete_at host w (reads w + k1 + 2 + j) = false)
   /\ trans_complete_at host w (reads w + k1 + 2 + k2) = true) ->
  err_int_at host w (reads w + k1 + 2 + (if awaits_transfer cmd then k2 + 1 else 0)) = false ->
  exists w',
    sdhci_cmd_complete fuel host cmd w
    = Done (0, set_resp cmd
                 (<[0%nat := wrap 32 (dev w (reads w + k1 + 1)
                                        (u32 (base host + SDHCI_RESP_REG)))]>
                    (resp cmd))) w'
    /\ writes (trace w')
       = writes (trace w)
         ++ [EvWrite 16 (nrml_int_sts_reg host) (wrap 16 SDHCI_INT_STS_CMD_COMPLETE)]
         ++ (if awaits_transfer cmd
             then [EvWrite 16 (nrml_int_sts_reg host) (wrap 16 SDHCI_INT_STS_TRANS_COMPLETE)]
             else [])
         ++ (if nonzero (data_present cmd) then [line_reset host] else [])
    /\ logged (trace w') = logged (trace w).
Proof. apply cmd_complete_success_run. Qed.

(** X25: a command without data, start to finish.  Once the lines are
    free (at poll [k0] of the present state register), sdhci_send_command
    writes the timeout register, the argument and then the command
    register, whose value is SDHCI_PREP_CMD of the command index and of the
    flags built from the response selector, the data flag and the command
    type.  When the controller then completes the command without error,
    the call returns 0 with the response copied, having cleared the status
    bits it waited for; the heap is untouched. *)
Theorem send_command_without_data_success fuel host cmd w rt k0 k1 k2 :
  0 < SDHCI_MAX_CMD_RETRY < 2 ^ 16 -> 0 < SDHCI_MAX_TRANS_RETRY < 2 ^ 16 ->
  asserts_hold cmd = true -> nonzero (data_present cmd) = false ->
  (k0 < 10)%nat -> Z.of_nat k1 < SDHCI_MAX_CMD_RETRY -> Z.of_nat k2 < SDHCI_MAX_TRANS_RETRY ->
  (k0 < fuel)%nat -> (k1 < fuel)%nat -> (k2 < fuel)%nat ->
  resp_type_sel (resp_type cmd) = Some rt -> resp_type cmd <> SDHCI_CMD_RESP_R2 ->
  (forall j, (j < k0)%nat -> lines_busy_at host w (reads w + j) = true) ->
  lines_busy_at host w (reads w + k0) = false ->
  (forall j, (j < k1)%nat -> cmd_complete_at host w (reads w + k0 + 1 + j) = false) ->
  cmd_complete_at host w (reads w + k0 + 1 + k1) = true ->
  (awaits_transfer cmd = true ->
   (forall j, (j < k2)%nat ->
              trans_complete_at host w (reads w + k0 + 1 + k1 + 2 + j) = false)
   /\ trans_complete_at host w (reads w + k0 + 1 + k1 + 2 + k2) = true) ->
  err_int_at host w (reads w + k0 + 1 + k1 + 2
                     + (if awaits_transfer cmd then k2 + 1 else 0)) = false ->
  exists w',
    sdhci_send_command fuel host cmd w
    = Done (0, set_resp cmd
                 (<[0%nat := wrap 32 (dev w (reads w + k0 + 1 + k1 + 1)
                                        (u32 (base host + SDHCI_RESP_REG)))]>
                    (resp cmd))) w'
    /\ writes (trace w')
       = writes (trace w)
         ++ [EvWrite 8 (timeout_reg host) (wrap 8 SDHCI_CMD_TIMEOUT);
             EvWrite 32 (argument_reg host) (wrap 32 (argument cmd));
             EvWrite 16 (cmd_reg host)
               (wrap 16 (SDHCI_PREP_CMD (cmd_index cmd) (cmd_flags cmd rt)));
             EvWrite 16 (nrml_int_sts_reg host) (wrap 16 SDHCI_INT_STS_CMD_COMPLETE)]
         ++ (if awaits_transfer cmd
             then [EvWrite 16 (nrml_int_sts_reg host) (wrap 16 SDHCI_INT_STS_TRANS_COMPLETE)]
             else [])
    /\ logged (trace w') = logged (trace w)
    /\ heap w' = heap w.
Proof.
  intros Hmc Hmt Ha Hdata Hk0 Hk1 Hk2 Hf0 Hf1 Hf2 Hsel Hty Hbusy Hfree Hnot Hyes Htrans Herr.
  destruct (asserts_pass cmd Ha) as [A1 A2].
  destruct (wait_lines_free_done host k0 fuel 0 w) as (w1 & Hrun1 & Hd1 & Hr1 & Hl1);
    [lia | lia | lia | exact Hbusy | exact Hfree |].
  destruct (wait_lines_free_emits host fuel 0 w true w1 Hrun1) as (Hh1 & _ & t1 & Ht1 & HP1).
  assert (Hw1 : writes (trace w1) = writes (trace w)).
  { rewrite Ht1, writes_app, (poll_io_no_write t1 HP1), app_nil_r. reflexivity. }
  unfold sdhci_send_command. rewrite A1, A2, !bind_ret_l.
  unfold bind at 1. rewrite Hrun1, Hsel. fold (cmd_flags cmd rt).
  unfold send_command_issue. rewrite Hdata.
  unfold bind at 1. unfold REG_WRITE8 at 1, mmio_write at 1, act at 1.
  rewrite bind_ret_l.
  unfold bind at 1. unfold REG_WRITE32 at 1, mmio_write at 1, act at 1.
  unfold bind at 1. unfold REG_WRITE16 at 1, mmio_write at 1, act at 1.
  fold (timeout_reg host) (argument_reg host) (cmd_reg host).
  set (w3 := emit _ (emit _ (emit _ w1))).
  assert (Hd3 : dev w3 = dev w) by exact Hd1.
  assert (Hr3 : reads w3 = (reads w + k0 + 1)%nat) by exact Hr1.
  destruct (cmd_complete_success_run fuel host cmd w3 k1 k2)
    as (w4 & Hcc & Hw4 & Hl4); try assumption.
  { intros j Hj. unfold cmd_complete_at. rewrite Hd3, Hr3. apply Hnot. exact Hj. }
  { unfold cmd_complete_at. rewrite Hd3, Hr3. exact Hyes. }
  { intros Haw. destruct (Htrans Haw) as [Hn2 Hy2]. split.
    - intros j Hj. unfold trans_complete_at. rewrite Hd3, Hr3. apply Hn2. exact Hj.
    - unfold trans_complete_at. rewrite Hd3, Hr3. exact Hy2. }
  { unfold err_int_at. rewrite Hd3, Hr3. exact Herr. }
  destruct (cmd_complete_emits fuel host cmd w3 _ w4 Hcc) as (Hh4 & _ & _).
  unfold bind at 1. rewrite Hcc, Hd3, Hr3. cbn [fst snd]. simpl (nonzero 0).
  cbv iota.
  assert (Hfin : writes (trace w4)
                 = writes (trace w)
                   ++ [EvWrite 8 (timeout_reg host) (wrap 8 SDHCI_CMD_TIMEOUT);
                       EvWrite 32 (argument_reg host) (wrap 32 (argument cmd));
                       EvWrite 16 (cmd_reg host)
                         (wrap 16 (SDHCI_PREP_CMD (cmd_index cmd) (cmd_flags cmd rt)));
                       EvWrite 16 (nrml_int_sts_reg host)
                         (wrap 16 SDHCI_INT_STS_CMD_COMPLETE)]
                   ++ (if awaits_transfer cmd
                       then [EvWrite 16 (nrml_int_sts_reg host)
                               (wrap 16 SDHCI_INT_STS_TRANS_COMPLETE)]
                       else [])).
  { rewrite Hw4, Hdata. unfold w3. simpl. rewrite !writes_app, Hw1. simpl.
    rewrite !app_nil_r, <- !app_assoc. reflexivity. }
  assert (Hlog : logged (trace w4) = logged (trace w)).
  { rewrite Hl4. unfold w3. simpl. rewrite !logged_app, Hl1. simpl.
    rewrite !app_nil_r. reflexivity. }
  assert (Hheap : heap w4 = heap w).
  { rewrite Hh4. unfold w3. simpl. exact Hh1. }
  cbn [trans_mode data set_resp].
  destruct (trans_mode cmd =? SDHCI_MMC_READ); run_step;
    (eexists; split; [reflexivity|]; simpl;
     rewrite ?writes_app, ?logged_app, Hfin, Hlog; simpl; rewrite ?app_nil_r;
     repeat split; try reflexivity; exact Hheap).
Qed.

End CompletionSuccess.

Lemma cmd_complete_success_witness :
  exists w',
    sdhci_cmd_complete (H := sdhci_v3 65535 10 10) 10 host200 cmd_read300
      (fresh_world success_dev [])
    = Done (0, set_resp cmd_read300 (<[0%nat := wrap 32 0]> (resp cmd_read300))) w'
    /\ writes (trace w')
       = [] ++ [EvWrite 16 0x10030 1] ++ [EvWrite 16 0x10030 2] ++ [EvWrite 8 0x1002F 6]
    /\ logged (trace w') = [].
Proof.
  apply (cmd_complete_success (H := sdhci_v3 65535 10 10) 10 host200 cmd_read300
           (fresh_world success_dev []) 0 0).
  - simpl. lia.
  - simpl. lia.
  - simpl. lia.
  - simpl. lia.
  - lia.
  - lia.
  - simpl. lia.
  - intros j Hj. lia.
  - reflexivity.
  - intros _. split; [intros j Hj; lia | reflexivity].
  - reflexivity.
Defined.

Lemma send_command_without_data_success_witness :
  exists w',
    sdhci_send_command (H := sdhci_v3 65535 10 10) 10 host200 cmd_status
      (fresh_world success_dev [])
    = Done (0, set_resp cmd_status (<[0%nat := wrap 32 0]> (resp cmd_status))) w'
    /\ writes (trace w')
       = [] ++ [EvWrite 8 0x1002E 15; EvWrite 32 0x10008 0x10000;
                EvWrite 16 0x1000E 0xD02; EvWrite 16 0x10030 1] ++ []
    /\ logged (trace w') = []
    /\ heap w' = ∅.
Proof.
  apply (send_command_without_data_success (H := sdhci_v3 65535 10 10) 10 host200
           cmd_status (fresh_world success_dev []) 2 0 0 0).
  - simpl. lia.
  - simpl. lia.
  - reflexivity.
  - reflexivity.
  - lia.
  - simpl. lia.
  - simpl. lia.
  - lia.
  - lia.
  - lia.
  - reflexivity.
  - simpl. lia.
  - intros j Hj. lia.
  - reflexivity.
  - intros j Hj. lia.
  - reflexivity.
  - intros Haw. vm_compute in Haw. discriminate Haw.
  - reflexivity.
Defined.
